(** * GhostRecon: the reconnaissance pipeline runner and its installer

    A shallow embedding of [recon.py] and [install.py].  Both programs are
    straight-line drivers around external processes, so the embedding is a
    state-and-exception monad over a small model of the host: a file map,
    a set of directories, the logger output and the history of what the
    script asked the operating system to do.  External programs are an
    oracle of the host ([exec]); nothing is assumed about them unless a
    theorem says so. *)

From Stdlib Require Import ZArith Ascii String List Lia DecimalString.
From stdpp Require Import base option list gmap strings.

Local Open Scope string_scope.
Local Open Scope list_scope.

(** ** Python string operations used by the two scripts

    Strings are sequences of 8-bit characters; on ASCII text the functions
    below agree with the [str] methods they are named after. *)
Module PyStr.

Definition LF : ascii := ascii_of_nat 10.

(** [str.isspace] on one character: TAB..CR, FS..US and the blank. *)
Definition isspace (c : ascii) : bool :=
  let n := nat_of_ascii c in
  ((9 <=? n)%nat && (n <=? 13)%nat) || ((28 <=? n)%nat && (n <=? 32)%nat).

(** [c in "0123456789"], the ASCII reading of the regex class [\d]. *)
Definition isdigit (c : ascii) : bool :=
  let n := nat_of_ascii c in (48 <=? n)%nat && (n <=? 57)%nat.

Definition is_empty (s : string) : bool :=
  match s with EmptyString => true | String _ _ => false end.

(** Truth value of a string: [bool(s)]. *)
Definition truthy (s : string) : bool := negb (is_empty s).

Fixpoint lstrip (s : string) : string :=
  match s with
  | String c s' => if isspace c then lstrip s' else s
  | EmptyString => EmptyString
  end.

Fixpoint rstrip (s : string) : string :=
  match s with
  | String c s' =>
      let r := rstrip s' in
      if isspace c && is_empty r then EmptyString else String c r
  | EmptyString => EmptyString
  end.

(** [s.strip()] *)
Definition strip (s : string) : string := rstrip (lstrip s).

(** [s.split(sep)] for a one-character separator. *)
Fixpoint split (sep : ascii) (s : string) : list string :=
  match s with
  | EmptyString => [EmptyString]
  | String c s' =>
      let r := split sep s' in
      if Ascii.eqb c sep then EmptyString :: r
      else match r with
           | h :: t => String c h :: t
           | [] => [String c EmptyString]
           end
  end.

Definition lower_char (c : ascii) : ascii :=
  let n := nat_of_ascii c in
  if (65 <=? n)%nat && (n <=? 90)%nat then ascii_of_nat (n + 32) else c.

(** [s.lower()] *)
Fixpoint lower (s : string) : string :=
  match s with
  | String c s' => String (lower_char c) (lower s')
  | EmptyString => EmptyString
  end.

(** [sub in s] *)
Fixpoint contains (sub s : string) : bool :=
  String.prefix sub s ||
  match s with
  | String _ s' => contains sub s'
  | EmptyString => false
  end.

(** [s.endswith(suffix)] *)
Fixpoint endswith (suffix s : string) : bool :=
  String.eqb suffix s ||
  match s with
  | String _ s' => endswith suffix s'
  | EmptyString => false
  end.

(** [s[:n]] *)
Fixpoint take (n : nat) (s : string) : string :=
  match n, s with
  | S n', String c s' => String c (take n' s')
  | _, _ => EmptyString
  end.

(** [sep.join(l)] *)
Fixpoint join (sep : string) (l : list string) : string :=
  match l with
  | [] => EmptyString
  | [x] => x
  | x :: rest => x +:+ sep +:+ join sep rest
  end.

(** [str(n)] for a natural number. *)
Definition str_of_nat (n : nat) : string :=
  NilZero.string_of_uint (Nat.to_uint n).

(** The longest prefix of digits, and what follows it. *)
Fixpoint span_digits (s : string) : string * string :=
  match s with
  | String c s' =>
      if isdigit c then let '(d, r) := span_digits s' in (String c d, r)
      else (EmptyString, s)
  | EmptyString => (EmptyString, EmptyString)
  end.

(** A match of [v?\d+\.\d+\.?\d*] anchored at the start of [s].  Every
    quantifier is greedy and none of them can give a character back to make
    a later item succeed (a shorter run of digits is followed by a digit,
    never by the dot), so the match, when there is one, is the greedy one. *)
Definition re_version_at (s : string) : option string :=
  let '(v, s1) := match s with
                  | String "v"%char r => ("v", r)
                  | _ => (EmptyString, s)
                  end in
  let '(d1, r1) := span_digits s1 in
  if is_empty d1 then None else
  match r1 with
  | String "."%char r2 =>
      let '(d2, r3) := span_digits r2 in
      if is_empty d2 then None else
      match r3 with
      | String "."%char r4 =>
          let '(d3, _) := span_digits r4 in
          Some (v +:+ d1 +:+ "." +:+ d2 +:+ "." +:+ d3)
      | _ => Some (v +:+ d1 +:+ "." +:+ d2)
      end
  | _ => None
  end.

(** [re.search(r'v?\d+\.\d+\.?\d*', s)]: the leftmost match, as
    [m.group()], or [None]. *)
Fixpoint re_search_version (s : string) : option string :=
  match re_version_at s with
  | Some m => Some m
  | None =>
      match s with
      | String _ s' => re_search_version s'
      | EmptyString => None
      end
  end.

(** Every character is a digit. *)
Fixpoint all_digits (s : string) : bool :=
  match s with
  | String c s' => isdigit c && all_digits s'
  | EmptyString => true
  end.

End PyStr.

(** ** The host: file system, processes, logger *)
Module Sys.

(** A node of the file system. *)
Inductive Node :=
| File (content : string)
| Dir.

(** Levels of the [logging] module used by the scripts. *)
Inductive Level := INFO | WARNING | ERROR.

(** What the script asked of the operating system, in order. *)
Inductive Event :=
| EvOpenW (path : string)                       (* open(path, 'w') *)
| EvMkdir (path : string)                       (* Path(path).mkdir(...) *)
| EvExec (argv : list string) (returncode : Z). (* a child that ran *)

Record World := mkWorld {
  fs : gmap string Node;
  trace : list Event;
  log : list (Level * string);
  current_step : nat   (* the one mutable attribute of ReconPipeline *)
}.

(** What a child process leaves behind: its exit status, what it printed,
    and the files it wrote on its own account (anything besides stdout). *)
Record CompletedProcess := mkProc {
  returncode : Z;
  stdout : string;
  stderr : string;
  writes : list (string * string)
}.

(** The environment of a run.  [exec argv fs] is the behaviour of the
    program [argv] started on file system [fs]. *)
Record Env := mkEnv {
  PATH : string;
  HOME : string;
  euid : Z;
  exec : list string -> gmap string Node -> CompletedProcess
}.

Inductive exn :=
| FileNotFoundError (filename : string)
| FileExistsError (filename : string)
| IsADirectoryError (filename : string)
| CalledProcessError (rc : Z) (err : string)
| IndexError
| KeyboardInterrupt.

Inductive result (A : Type) :=
| Ret (a : A) (w : World)
| Raise (e : exn) (w : World).
Arguments Ret {A} a w.
Arguments Raise {A} e w.

(** Computations of the scripts: a state monad over [World] with
    exceptions. *)
Definition M (A : Type) : Type := World -> result A.

#[global] Instance M_ret : MRet M := fun A a w => Ret a w.
#[global] Instance M_bind : MBind M := fun A B k m w =>
  match m w with
  | Ret a w' => k a w'
  | Raise e w' => Raise e w'
  end.

Definition raise {A} (e : exn) : M A := fun w => Raise e w.

(** [try: body except ...: handler]; [handler e = None] when no clause
    matches [e], which then propagates. *)
Definition try_except {A} (body : M A) (handler : exn -> option (M A)) : M A :=
  fun w =>
    match body w with
    | Ret a w' => Ret a w'
    | Raise e w' =>
        match handler e with
        | Some h => h w'
        | None => Raise e w'
        end
    end.

(** [if b: m] with no [else]. *)
Definition when (b : bool) (m : M unit) : M unit :=
  if b then m else mret tt.

Definition final {A} (r : result A) : World :=
  match r with Ret _ w => w | Raise _ w => w end.

Definition set_fs (f : gmap string Node) (w : World) : World :=
  mkWorld f (trace w) (log w) (current_step w).
Definition emit (e : Event) (w : World) : World :=
  mkWorld (fs w) (trace w ++ [e]) (log w) (current_step w).
Definition add_log (l : Level) (msg : string) (w : World) : World :=
  mkWorld (fs w) (trace w) (log w ++ [(l, msg)]) (current_step w).
Definition set_step (n : nat) (w : World) : World :=
  mkWorld (fs w) (trace w) (log w) n.

(** [logger.info], [logger.warning], [logger.error] *)
Definition logger (l : Level) (msg : string) : M unit :=
  fun w => Ret tt (add_log l msg w).

Definition is_file (f : gmap string Node) (p : string) : bool :=
  match f !! p with Some (File _) => true | _ => false end.
Definition is_dir (f : gmap string Node) (p : string) : bool :=
  match f !! p with Some Dir => true | _ => false end.

(** [os.path.join(a, b)] *)
Definition path_join (a b : string) : string :=
  match b with
  | String "/"%char _ => b
  | _ =>
      if PyStr.is_empty a then b
      else if PyStr.endswith "/" a then a +:+ b
      else a +:+ "/" +:+ b
  end.

(** [os.path.dirname(p)]: what precedes the last slash. *)
Fixpoint dirname (p : string) : string :=
  match p with
  | String c p' =>
      if PyStr.contains "/" p' then String c (dirname p')
      else EmptyString
  | EmptyString => EmptyString
  end.

(** The directory that must exist for [p] to be created: the empty
    [dirname] stands for the working directory or the root. *)
Definition parent_ok (f : gmap string Node) (p : string) : bool :=
  PyStr.is_empty (dirname p) || is_dir f (dirname p).

(** The ancestors of [p] and [p] itself, outermost first. *)
Fixpoint path_prefixes (base : string) (first : bool) (comps : list string)
  : list string :=
  match comps with
  | [] => []
  | c :: rest =>
      let p := if first then c else base +:+ "/" +:+ c in
      (if PyStr.is_empty p then [] else [p]) ++ path_prefixes p false rest
  end.

(** The directories on the search path; both scripts look up bare command
    names only, and every file in such a directory counts as executable. *)
Definition search_path (E : Env) : list string := PyStr.split ":" (PATH E).

(** [shutil.which(cmd) is not None] *)
Definition which (E : Env) (f : gmap string Node) (cmd : string) : bool :=
  existsb (fun d => is_file f (path_join d cmd)) (search_path E).

(** [open(p, 'w')]: creates or truncates [p]. *)
Definition open_w (p : string) : M unit := fun w =>
  if is_dir (fs w) p then Raise (IsADirectoryError p) w
  else if negb (parent_ok (fs w) p) then Raise (FileNotFoundError p) w
  else Ret tt (emit (EvOpenW p) (set_fs (<[p := File ""]> (fs w)) w)).

(** [open(p, 'r').read()] *)
Definition read_file (p : string) : M string := fun w =>
  match fs w !! p with
  | Some (File c) => Ret c w
  | Some Dir => Raise (IsADirectoryError p) w
  | None => Raise (FileNotFoundError p) w
  end.

(** [Path(p).mkdir(parents=True, exist_ok=True)] *)
Definition mkdir_p (p : string) : M unit := fun w =>
  let ps := path_prefixes "" true (PyStr.split "/" p) in
  match List.find (is_file (fs w)) ps with
  | Some q => Raise (FileExistsError q) w
  | None =>
      Ret tt (emit (EvMkdir p)
                (set_fs (fold_left (fun f q => <[q := Dir]> f) ps (fs w)) w))
  end.

(** [Path(p).mkdir(exist_ok=True)] *)
Definition mkdir (p : string) : M unit := fun w =>
  match fs w !! p with
  | Some Dir => Ret tt (emit (EvMkdir p) w)
  | Some (File _) => Raise (FileExistsError p) w
  | None =>
      if parent_ok (fs w) p
      then Ret tt (emit (EvMkdir p) (set_fs (<[p := Dir]> (fs w)) w))
      else Raise (FileNotFoundError p) w
  end.

(** A process writing [content] to [p]: it creates or replaces the file;
    a path that is a directory cannot be written (EISDIR) and stays. *)
Definition write_file (f : gmap string Node) (pc : string * string)
  : gmap string Node :=
  if is_dir f pc.1 then f else <[pc.1 := File pc.2]> f.

Definition apply_writes (ws : list (string * string)) (f : gmap string Node)
  : gmap string Node :=
  fold_left write_file ws f.

(** [subprocess.run(argv, stdout=<redirect or PIPE>, stderr=PIPE, text=True,
    check=check)].  The program is looked up on the search path and
    [FileNotFoundError] is raised when it is not there; otherwise the child
    runs to completion, its standard output lands in the redirect target
    when there is one, and a non-zero status raises [CalledProcessError]
    under [check]. *)
Definition subprocess_run (E : Env) (argv : list string)
    (redirect : option string) (check : bool) : M CompletedProcess := fun w =>
  match argv with
  | [] => Raise IndexError w
  | cmd :: _ =>
      if which E (fs w) cmd then
        let r := exec E argv (fs w) in
        let f1 := match redirect with
                  | Some p => write_file (fs w) (p, stdout r)
                  | None => fs w
                  end in
        let w' := emit (EvExec argv (returncode r))
                    (set_fs (apply_writes (writes r) f1) w) in
        if check && negb (returncode r =? 0)%Z
        then Raise (CalledProcessError (returncode r) (stderr r)) w'
        else Ret r w'
      else Raise (FileNotFoundError cmd) w
  end.

(** The state in which a program starts: nothing asked, nothing logged. *)
Definition boot (f : gmap string Node) : World := mkWorld f [] [] 0.

(** The exit statuses of the children that ran, in order. *)
Definition statuses (t : list Event) : list Z :=
  omap (fun e => match e with EvExec _ rc => Some rc | _ => None end) t.

(** The command lines of the children that ran, in order. *)
Definition commands (t : list Event) : list (list string) :=
  omap (fun e => match e with EvExec a _ => Some a | _ => None end) t.

(** The paths opened for writing, in order. *)
Definition opened (t : list Event) : list string :=
  omap (fun e => match e with EvOpenW p => Some p | _ => None end) t.

(** The directories the script made, in order. *)
Definition made_dirs (t : list Event) : list string :=
  omap (fun e => match e with EvMkdir p => Some p | _ => None end) t.

(** [str(e)] for the exceptions of the model. *)
Definition exn_str (e : exn) : string :=
  match e with
  | FileNotFoundError f => "[Errno 2] No such file or directory: '" +:+ f +:+ "'"
  | FileExistsError f => "[Errno 17] File exists: '" +:+ f +:+ "'"
  | IsADirectoryError f => "[Errno 21] Is a directory: '" +:+ f +:+ "'"
  | CalledProcessError rc _ => "Command returned non-zero exit status"
  | IndexError => "list index out of range"
  | KeyboardInterrupt => ""
  end.

(** The tail of either [main]:
    [try: success = ...; sys.exit(0 if success else 1)] with its two
    [except] clauses, both of which exit with status 1. *)
Definition exit_of (interrupted : string) (r : result bool) : Z * World :=
  match r with
  | Ret success w' => ((if success then 0 else 1)%Z, w')
  | Raise KeyboardInterrupt w' =>
      (1%Z, add_log INFO (String PyStr.LF interrupted) w')
  | Raise e w' =>
      (1%Z, add_log ERROR ("Unexpected error: " +:+ exn_str e) w')
  end.

End Sys.

(** ** recon.py *)
Module Recon.
Import Sys.

(** The immutable attributes of a [ReconPipeline]; [current_step] is the
    counter in the [World]. *)
Record ReconPipeline := mkPipeline {
  target : string;
  output_dir : string;
  screenshots_dir : string;
  js_out_dir : string;
  required_tools : list string;
  total_steps : nat
}.

(** The object [ReconPipeline.__init__] builds. *)
Definition pipeline (target : string) : ReconPipeline :=
  {| target := target;
     output_dir := "output";
     screenshots_dir := "screenshots";
     js_out_dir := path_join "output" "js_out";
     required_tools :=
       ["subfinder"; "amass"; "dnsx"; "naabu"; "httpx";
        "nuclei"; "gau"; "unfurl"; "ffuf"; "gowitness"; "curl"];
     total_steps := 21 |}.

(** [ReconPipeline.__init__]: it also resets [current_step]. *)
Definition init (target : string) : M ReconPipeline := fun w =>
  Ret (pipeline target) (set_step 0 w).

Section WithEnv.
Variable E : Env.

Definition log_step (self : ReconPipeline) (step_name : string) : M unit :=
  fun w =>
    let n := S (current_step w) in
    logger INFO ("[" +:+ PyStr.str_of_nat n +:+ "/" +:+
                 PyStr.str_of_nat (total_steps self) +:+
                 "] Running " +:+ step_name +:+ "...")
           (set_step n w).

(** [if output_file:] is false for [None] and for the empty string. *)
Definition given (output_file : option string) : option string :=
  match output_file with
  | Some p => if PyStr.truthy p then Some p else None
  | None => None
  end.

Definition on_CalledProcessError (e : exn) : option (M (bool * string)) :=
  match e with
  | CalledProcessError _ err => Some (mret (false, err))
  | _ => None
  end.

Definition run_command (self : ReconPipeline) (command : list string)
    (output_file : option string) (check : bool) : M (bool * string) :=
  try_except
    (match given output_file with
     | Some p =>
         open_w p;;
         subprocess_run E command (Some p) check;;
         mret (true, "Command executed successfully")
     | None =>
         r ← subprocess_run E command None check;
         mret (true, stdout r)
     end)
    on_CalledProcessError.

Definition run_shell_command (self : ReconPipeline) (command : string)
    (output_file : option string) : M (bool * string) :=
  try_except
    (match given output_file with
     | Some p =>
         open_w p;;
         subprocess_run E ["bash"; "-c"; command] (Some p) true;;
         mret (true, "Command executed successfully")
     | None =>
         r ← subprocess_run E ["bash"; "-c"; command] None true;
         mret (true, stdout r)
     end)
    on_CalledProcessError.

Fixpoint check_tools_loop (tools missing_tools : list string)
  : M (list string) :=
  match tools with
  | [] => mret missing_tools
  | tool :: rest =>
      fun w =>
        if negb (which E (fs w) tool)
        then check_tools_loop rest (missing_tools ++ [tool]) w
        else (logger INFO ("[✓] " +:+ tool +:+ " found");;
              check_tools_loop rest missing_tools) w
  end.

Definition check_tools (self : ReconPipeline) : M bool :=
  logger INFO "[+] Checking required tools...";;
  missing_tools ← check_tools_loop (required_tools self) [];
  match missing_tools with
  | _ :: _ =>
      logger ERROR ("❌ Missing required tools: " +:+
                    PyStr.join ", " missing_tools);;
      logger ERROR "Please run install.py first to install all required tools.";;
      mret false
  | [] =>
      logger INFO "[✓] All required tools are available";;
      mret true
  end.

(** [except Exception] does not catch [KeyboardInterrupt]. *)
Definition on_Exception {A} (h : exn -> M A) (e : exn) : option (M A) :=
  match e with
  | KeyboardInterrupt => None
  | _ => Some (h e)
  end.

Fixpoint create_directories_loop (directories : list string) : M bool :=
  match directories with
  | [] => mret true
  | directory :: rest =>
      ok ← try_except
             (mkdir_p directory;;
              logger INFO ("[✓] Created directory: " +:+ directory +:+ "/");;
              mret true)
             (on_Exception (fun e =>
                logger ERROR ("Failed to create directory " +:+ directory +:+
                              ": " +:+ exn_str e);;
                mret false));
      if ok : bool then create_directories_loop rest else mret false
  end.

Definition create_directories (self : ReconPipeline) : M bool :=
  logger INFO "[+] Creating directories...";;
  create_directories_loop
    [output_dir self; screenshots_dir self; js_out_dir self].

(** [path.exists() and path.stat().st_size > 0]; a directory entry has a
    non-zero size. *)
Definition has_content (f : gmap string Node) (p : string) : bool :=
  match f !! p with
  | Some (File c) => PyStr.truthy c
  | Some Dir => true
  | None => false
  end.

Definition check_file_created (file_path : string) : M bool := fun w =>
  if has_content (fs w) file_path
  then (logger INFO ("[✓] " +:+ file_path +:+ " created successfully");;
        mret true) w
  else (logger WARNING ("[!] " +:+ file_path +:+ " is empty or not created");;
        mret false) w.


(** [f"{self.output_dir}/<name>"] *)
Definition out (self : ReconPipeline) (name : string) : string :=
  output_dir self +:+ "/" +:+ name.

Definition run_recon (self : ReconPipeline) : M bool :=
  logger INFO ("🚀 Starting reconnaissance on: " +:+ target self);;
  (* Pre-flight checks *)
  ok ← check_tools self;
  if negb ok then mret false else
  ok ← create_directories self;
  if negb ok then mret false else
  logger INFO ("📁 Output directory: " +:+ output_dir self);;
  logger INFO ("📸 Screenshots directory: " +:+ screenshots_dir self);;
  (* Step 1 *)
  log_step self "subfinder";;
  r ← run_command self
         ["subfinder"; "-d"; target self; "-all"; "-silent"]
         (Some (out self "01_subfinder.txt")) true;
  if negb r.1 then (logger ERROR ("Subfinder failed: " +:+ r.2);; mret false) else
  check_file_created (out self "01_subfinder.txt");;
  (* Step 2 *)
  log_step self "amass passive";;
  r ← run_command self
         ["amass"; "enum"; "-passive"; "-d"; target self]
         (Some (out self "02_amass_passive.txt")) true;
  if negb r.1 then (logger ERROR ("Amass passive failed: " +:+ r.2);; mret false) else
  check_file_created (out self "02_amass_passive.txt");;
  (* Step 3 *)
  log_step self "merge and de-duplicate subdomains";;
  r ← run_shell_command self
         ("cat " +:+ out self "01_subfinder.txt" +:+ " " +:+ out self "02_amass_passive.txt" +:+ " | sort -u")
         (Some (out self "03_subs_uniq.txt"));
  if negb r.1 then (logger ERROR ("Merge failed: " +:+ r.2);; mret false) else
  check_file_created (out self "03_subs_uniq.txt");;
  (* Step 4 *)
  log_step self "DNS resolution";;
  r ← run_command self
         ["dnsx"; "-l"; out self "03_subs_uniq.txt"; "-a"; "-aaaa"; "-cname"; "-ns"; "-resp"]
         (Some (out self "04_dnsx_resolved.txt")) true;
  if negb r.1 then (logger ERROR ("DNSx failed: " +:+ r.2);; mret false) else
  check_file_created (out self "04_dnsx_resolved.txt");;
  (* Step 5 *)
  log_step self "extract resolved hosts";;
  r ← run_shell_command self
         ("awk '{print $1}' " +:+ out self "04_dnsx_resolved.txt" +:+ " | sort -u")
         (Some (out self "05_hosts_resolved.txt"));
  if negb r.1 then (logger ERROR ("Host extraction failed: " +:+ r.2);; mret false) else
  check_file_created (out self "05_hosts_resolved.txt");;
  (* Step 6 *)
  log_step self "naabu top 1000 ports scan";;
  r ← run_command self
         ["naabu"; "-list"; out self "05_hosts_resolved.txt"; "-p"; "top-1000"; "-rate"; "2000"]
         (Some (out self "06_naabu_top1k.txt")) true;
  if negb r.1 then (logger ERROR ("Naabu top 1000 failed: " +:+ r.2);; mret false) else
  check_file_created (out self "06_naabu_top1k.txt");;
  (* Step 7 *)
  log_step self "naabu full TCP sweep";;
  r ← run_command self
         ["naabu"; "-list"; out self "05_hosts_resolved.txt"; "-p"; "-"; "-rate"; "500"]
         (Some (out self "07_naabu_full.txt")) true;
  if negb r.1 then (logger ERROR ("Naabu full sweep failed: " +:+ r.2);; mret false) else
  check_file_created (out self "07_naabu_full.txt");;
  (* Step 8 *)
  log_step self "merge open ports";;
  r ← run_shell_command self
         ("cat " +:+ out self "06_naabu_top1k.txt" +:+ " " +:+ out self "07_naabu_full.txt" +:+ " | sort -u")
         (Some (out self "08_open_ports.txt"));
  if negb r.1 then (logger ERROR ("Port merge failed: " +:+ r.2);; mret false) else
  check_file_created (out self "08_open_ports.txt");;
  (* Step 9 *)
  log_step self "httpx from subdomains";;
  r ← run_command self
         ["httpx"; "-l"; out self "03_subs_uniq.txt"; "-status-code"; "-title"; "-tech-detect"; "-follow-redirects"]
         (Some (out self "09_httpx_subs.txt")) true;
  if negb r.1 then (logger ERROR ("HTTPx subdomains failed: " +:+ r.2);; mret false) else
  check_file_created (out self "09_httpx_subs.txt");;
  (* Step 10 *)
  log_step self "httpx from open ports";;
  r ← run_command self
         ["httpx"; "-l"; out self "08_open_ports.txt"; "-status-code"; "-title"; "-tech-detect"; "-follow-redirects"]
         (Some (out self "10_httpx_ports.txt")) true;
  if negb r.1 then (logger ERROR ("HTTPx ports failed: " +:+ r.2);; mret false) else
  check_file_created (out self "10_httpx_ports.txt");;
  (* Step 11 *)
  log_step self "merge live URLs";;
  r ← run_shell_command self
         ("cat " +:+ out self "09_httpx_subs.txt" +:+ " " +:+ out self "10_httpx_ports.txt" +:+ " | awk '{print $1}' | sort -u")
         (Some (out self "11_live_urls.txt"));
  if negb r.1 then (logger ERROR ("URL merge failed: " +:+ r.2);; mret false) else
  check_file_created (out self "11_live_urls.txt");;
  (* Step 12 *)
  log_step self "gowitness screenshots";;
  r ← run_command self
         ["gowitness"; "file"; "-f"; out self "11_live_urls.txt"; "-t"; "5"; "--timeout"; "10"; "--log-level"; "warn"; "--destination"; "screenshots"; "--json"; "screenshots/gowitness.json"]
         None true;
  if negb r.1 then (logger ERROR ("Gowitness failed: " +:+ r.2);; mret false) else
  logger INFO "[✓] Screenshots captured";;
  (* Step 13 *)
  log_step self "CNAME takeover candidates";;
  r ← run_shell_command self
         ("awk '/CNAME/ {print $1,$5}' " +:+ out self "04_dnsx_resolved.txt")
         (Some (out self "12_cname_candidates.txt"));
  if negb r.1 then (logger ERROR ("CNAME extraction failed: " +:+ r.2);; mret false) else
  check_file_created (out self "12_cname_candidates.txt");;
  (* Step 14 *)
  log_step self "nuclei high-severity web scan";;
  r ← run_command self
         ["nuclei"; "-l"; out self "11_live_urls.txt"; "-severity"; "critical,high,medium"; "-rl"; "50"; "-c"; "50"]
         (Some (out self "13_nuclei_web.txt")) true;
  if negb r.1 then (logger ERROR ("Nuclei web scan failed: " +:+ r.2);; mret false) else
  check_file_created (out self "13_nuclei_web.txt");;
  (* Step 15 *)
  log_step self "nuclei takeover scan";;
  r ← run_command self
         ["nuclei"; "-t"; "http/takeovers/"; "-l"; out self "03_subs_uniq.txt"; "-rl"; "30"; "-c"; "30"]
         (Some (out self "14_nuclei_takeover.txt")) true;
  if negb r.1 then (logger ERROR ("Nuclei takeover scan failed: " +:+ r.2);; mret false) else
  check_file_created (out self "14_nuclei_takeover.txt");;
  (* Step 16 *)
  log_step self "GAU historical endpoints";;
  r ← run_command self
         ["gau"; "--providers"; "wayback,otx,urlscan"; target self]
         (Some (out self "15_gau.txt")) true;
  if negb r.1 then (logger ERROR ("GAU failed: " +:+ r.2);; mret false) else
  check_file_created (out self "15_gau.txt");;
  (* Step 17 *)
  log_step self "extract parameters";;
  r ← run_shell_command self
         ("cat " +:+ out self "15_gau.txt" +:+ " | unfurl --unique keys")
         (Some (out self "16_params.txt"));
  if negb r.1 then (logger ERROR ("Parameter extraction failed: " +:+ r.2);; mret false) else
  check_file_created (out self "16_params.txt");;
  (* Step 18 *)
  log_step self "ffuf directory fuzzing";;
  r ← run_command self
         ["ffuf"; "-u"; "https://" +:+ target self +:+ "/FUZZ"; "-w"; "/usr/share/wordlists/dirb/common.txt"; "-mc"; "200,204,301,302,307,401,403"; "-o"; out self "17_ffuf_dirs.txt"; "-of"; "txt"]
         None true;
  if negb r.1 then (logger ERROR ("FFUF directory fuzzing failed: " +:+ r.2);; mret false) else
  check_file_created (out self "17_ffuf_dirs.txt");;
  (* Step 19 *)
  log_step self "ffuf parameter fuzzing";;
  r ← run_command self
         ["ffuf"; "-u"; "https://" +:+ target self +:+ "/search?FUZZ=test"; "-w"; out self "16_params.txt"; "-mc"; "all"; "-o"; out self "18_ffuf_params.txt"; "-of"; "txt"]
         None true;
  if negb r.1 then (logger ERROR ("FFUF parameter fuzzing failed: " +:+ r.2);; mret false) else
  check_file_created (out self "18_ffuf_params.txt");;
  (* Step 20 *)
  log_step self "httpx JS scraping";;
  r ← run_command self
         ["httpx"; "-l"; out self "11_live_urls.txt"; "-path"; "discovery"; "-store-response-dir"; out self "js_out"; "-match-regex"; "\.js($|\?)"]
         (Some (out self "19_js_endpoints.txt")) true;
  if negb r.1 then (logger ERROR ("HTTPx JS scraping failed: " +:+ r.2);; mret false) else
  check_file_created (out self "19_js_endpoints.txt");;
  (* Step 21 *)
  log_step self "robots.txt check";;
  r ← run_command self
         ["curl"; "-s"; "https://" +:+ target self +:+ "/robots.txt"]
         (Some (out self "20_robots.txt")) true;
  if negb r.1 then (logger ERROR ("Robots.txt check failed: " +:+ r.2);; mret false) else
  check_file_created (out self "20_robots.txt");;
  logger INFO (String PyStr.LF "🎉 Recon complete! Results in ./output and ./screenshots");;
  mret true.

(** [main], after [parser.parse_args()] has produced [args.target]. *)
Definition main (target : string) : World -> Z * World := fun w =>
  if negb (PyStr.truthy target) || negb (PyStr.contains "." target) then
    (1%Z, add_log ERROR "❌ Invalid target format. Please provide a valid domain (e.g., example.com)" w)
  else
    exit_of "⚠️  Reconnaissance interrupted by user"
      ((pipeline ← init target; run_recon pipeline) w).

(** *** The same program as a table

    Each of the 21 blocks of [run_recon] is the same five lines around
    one invocation; [stages] lists what differs and [stage_then] is the
    block. *)
Inductive Invocation :=
| Command (argv : list string) (output_file : option string)
| Shell (command : string) (output_file : option string).

Inductive After :=
| CheckFile (path : string)
| Note (msg : string).

Record Stage := mkStage {
  step_name : string;
  invocation : Invocation;
  failure : string;
  after : After
}.

Definition invoke (self : ReconPipeline) (i : Invocation) : M (bool * string) :=
  match i with
  | Command argv o => run_command self argv o true
  | Shell c o => run_shell_command self c o
  end.

Definition report (a : After) : M bool :=
  match a with
  | CheckFile p => check_file_created p
  | Note msg => logger INFO msg;; mret true
  end.

Definition stage_then (self : ReconPipeline) (st : Stage) (rest : M bool)
  : M bool :=
  log_step self (step_name st);;
  r ← invoke self (invocation st);
  if negb r.1 then (logger ERROR (failure st +:+ " failed: " +:+ r.2);; mret false) else
  report (after st);;
  rest.

(** One block on its own: [true] when control reaches the next block. *)
Definition run_stage (self : ReconPipeline) (st : Stage) : M bool :=
  stage_then self st (mret true).

Definition stages (self : ReconPipeline) : list Stage :=
  [
    mkStage "subfinder"
      (Command
         ["subfinder"; "-d"; target self; "-all"; "-silent"]
         (Some (out self "01_subfinder.txt")))
      "Subfinder" (CheckFile (out self "01_subfinder.txt"));
    mkStage "amass passive"
      (Command
         ["amass"; "enum"; "-passive"; "-d"; target self]
         (Some (out self "02_amass_passive.txt")))
      "Amass passive" (CheckFile (out self "02_amass_passive.txt"));
    mkStage "merge and de-duplicate subdomains"
      (Shell
         ("cat " +:+ out self "01_subfinder.txt" +:+ " " +:+ out self "02_amass_passive.txt" +:+ " | sort -u")
         (Some (out self "03_subs_uniq.txt")))
      "Merge" (CheckFile (out self "03_subs_uniq.txt"));
    mkStage "DNS resolution"
      (Command
         ["dnsx"; "-l"; out self "03_subs_uniq.txt"; "-a"; "-aaaa"; "-cname"; "-ns"; "-resp"]
         (Some (out self "04_dnsx_resolved.txt")))
      "DNSx" (CheckFile (out self "04_dnsx_resolved.txt"));
    mkStage "extract resolved hosts"
      (Shell
         ("awk '{print $1}' " +:+ out self "04_dnsx_resolved.txt" +:+ " | sort -u")
         (Some (out self "05_hosts_resolved.txt")))
      "Host extraction" (CheckFile (out self "05_hosts_resolved.txt"));
    mkStage "naabu top 1000 ports scan"
      (Command
         ["naabu"; "-list"; out self "05_hosts_resolved.txt"; "-p"; "top-1000"; "-rate"; "2000"]
         (Some (out self "06_naabu_top1k.txt")))
      "Naabu top 1000" (CheckFile (out self "06_naabu_top1k.txt"));
    mkStage "naabu full TCP sweep"
      (Command
         ["naabu"; "-list"; out self "05_hosts_resolved.txt"; "-p"; "-"; "-rate"; "500"]
         (Some (out self "07_naabu_full.txt")))
      "Naabu full sweep" (CheckFile (out self "07_naabu_full.txt"));
    mkStage "merge open ports"
      (Shell
         ("cat " +:+ out self "06_naabu_top1k.txt" +:+ " " +:+ out self "07_naabu_full.txt" +:+ " | sort -u")
         (Some (out self "08_open_ports.txt")))
      "Port merge" (CheckFile (out self "08_open_ports.txt"));
    mkStage "httpx from subdomains"
      (Command
         ["httpx"; "-l"; out self "03_subs_uniq.txt"; "-status-code"; "-title"; "-tech-detect"; "-follow-redirects"]
         (Some (out self "09_httpx_subs.txt")))
      "HTTPx subdomains" (CheckFile (out self "09_httpx_subs.txt"));
    mkStage "httpx from open ports"
      (Command
         ["httpx"; "-l"; out self "08_open_ports.txt"; "-status-code"; "-title"; "-tech-detect"; "-follow-redirects"]
         (Some (out self "10_httpx_ports.txt")))
      "HTTPx ports" (CheckFile (out self "10_httpx_ports.txt"));
    mkStage "merge live URLs"
      (Shell
         ("cat " +:+ out self "09_httpx_subs.txt" +:+ " " +:+ out self "10_httpx_ports.txt" +:+ " | awk '{print $1}' | sort -u")
         (Some (out self "11_live_urls.txt")))
      "URL merge" (CheckFile (out self "11_live_urls.txt"));
    mkStage "gowitness screenshots"
      (Command
         ["gowitness"; "file"; "-f"; out self "11_live_urls.txt"; "-t"; "5"; "--timeout"; "10"; "--log-level"; "warn"; "--destination"; "screenshots"; "--json"; "screenshots/gowitness.json"]
         None)
      "Gowitness" (Note "[✓] Screenshots captured");
    mkStage "CNAME takeover candidates"
      (Shell
         ("awk '/CNAME/ {print $1,$5}' " +:+ out self "04_dnsx_resolved.txt")
         (Some (out self "12_cname_candidates.txt")))
      "CNAME extraction" (CheckFile (out self "12_cname_candidates.txt"));
    mkStage "nuclei high-severity web scan"
      (Command
         ["nuclei"; "-l"; out self "11_live_urls.txt"; "-severity"; "critical,high,medium"; "-rl"; "50"; "-c"; "50"]
         (Some (out self "13_nuclei_web.txt")))
      "Nuclei web scan" (CheckFile (out self "13_nuclei_web.txt"));
    mkStage "nuclei takeover scan"
      (Command
         ["nuclei"; "-t"; "http/takeovers/"; "-l"; out self "03_subs_uniq.txt"; "-rl"; "30"; "-c"; "30"]
         (Some (out self "14_nuclei_takeover.txt")))
      "Nuclei takeover scan" (CheckFile (out self "14_nuclei_takeover.txt"));
    mkStage "GAU historical endpoints"
      (Command
         ["gau"; "--providers"; "wayback,otx,urlscan"; target self]
         (Some (out self "15_gau.txt")))
      "GAU" (CheckFile (out self "15_gau.txt"));
    mkStage "extract parameters"
      (Shell
         ("cat " +:+ out self "15_gau.txt" +:+ " | unfurl --unique keys")
         (Some (out self "16_params.txt")))
      "Parameter extraction" (CheckFile (out self "16_params.txt"));
    mkStage "ffuf directory fuzzing"
      (Command
         ["ffuf"; "-u"; "https://" +:+ target self +:+ "/FUZZ"; "-w"; "/usr/share/wordlists/dirb/common.txt"; "-mc"; "200,204,301,302,307,401,403"; "-o"; out self "17_ffuf_dirs.txt"; "-of"; "txt"]
         None)
      "FFUF directory fuzzing" (CheckFile (out self "17_ffuf_dirs.txt"));
    mkStage "ffuf parameter fuzzing"
      (Command
         ["ffuf"; "-u"; "https://" +:+ target self +:+ "/search?FUZZ=test"; "-w"; out self "16_params.txt"; "-mc"; "all"; "-o"; out self "18_ffuf_params.txt"; "-of"; "txt"]
         None)
      "FFUF parameter fuzzing" (CheckFile (out self "18_ffuf_params.txt"));
    mkStage "httpx JS scraping"
      (Command
         ["httpx"; "-l"; out self "11_live_urls.txt"; "-path"; "discovery"; "-store-response-dir"; out self "js_out"; "-match-regex"; "\.js($|\?)"]
         (Some (out self "19_js_endpoints.txt")))
      "HTTPx JS scraping" (CheckFile (out self "19_js_endpoints.txt"));
    mkStage "robots.txt check"
      (Command
         ["curl"; "-s"; "https://" +:+ target self +:+ "/robots.txt"]
         (Some (out self "20_robots.txt")))
      "Robots.txt check" (CheckFile (out self "20_robots.txt"))
  ].

Definition complete : M bool :=
  logger INFO (String PyStr.LF "🎉 Recon complete! Results in ./output and ./screenshots");;
  mret true.

Definition run_stages (self : ReconPipeline) (l : list Stage) : M bool :=
  fold_right (stage_then self) complete l.

Definition preflight (self : ReconPipeline) (body : M bool) : M bool :=
  logger INFO ("🚀 Starting reconnaissance on: " +:+ target self);;
  ok ← check_tools self;
  if negb ok then mret false else
  ok ← create_directories self;
  if negb ok then mret false else
  logger INFO ("📁 Output directory: " +:+ output_dir self);;
  logger INFO ("📸 Screenshots directory: " +:+ screenshots_dir self);;
  body.

(** The command line of a stage, as handed to [subprocess.run]. *)
Definition argv_of (st : Stage) : list string :=
  match invocation st with
  | Command argv _ => argv
  | Shell c _ => ["bash"; "-c"; c]
  end.

(** The file the runner itself opens for the stage, if any. *)
Definition redirect_of (st : Stage) : option string :=
  match invocation st with
  | Command _ o => given o
  | Shell _ o => given o
  end.

(** *** What a stage writes

    The runner opens the redirect target itself.  Two tools are told where
    to write instead: [ffuf] through [-o] and [gowitness] through [--json];
    [output_args] reads those values off a command line. *)
Fixpoint option_values (flags : list string) (argv : list string) : list string :=
  match argv with
  | a :: rest =>
      match rest with
      | v :: _ =>
          if existsb (String.eqb a) flags
          then v :: option_values flags rest
          else option_values flags rest
      | [] => []
      end
  | [] => []
  end.

Definition output_args (argv : list string) : list string :=
  option_values ["-o"; "--json"] argv.

(** The file a stage is there to produce: the one its block checks, and
    for the screenshot stage, which checks none, the manifest it asks for. *)
Definition artifact (st : Stage) : option string :=
  match after st with
  | CheckFile p => Some p
  | Note _ => head (output_args (argv_of st))
  end.

Definition artifacts (self : ReconPipeline) : list string :=
  omap artifact (stages self).

(** What the runner asks of the system in one stage whose child ran and
    returned [rc]. *)
Definition stage_events (st : Stage) (rc : Z) : list Event :=
  match redirect_of st with
  | Some p => [EvOpenW p; EvExec (argv_of st) rc]
  | None => [EvExec (argv_of st) rc]
  end.

(** The two lines a block logs when its child returned zero. *)
Definition progress_line (self : ReconPipeline) (n : nat) (st : Stage)
  : Level * string :=
  (INFO, "[" +:+ PyStr.str_of_nat n +:+ "/" +:+
         PyStr.str_of_nat (total_steps self) +:+
         "] Running " +:+ step_name st +:+ "...").

Definition report_line (f : gmap string Node) (a : After) : Level * string :=
  match a with
  | CheckFile p =>
      if has_content f p
      then (INFO, "[✓] " +:+ p +:+ " created successfully")
      else (WARNING, "[!] " +:+ p +:+ " is empty or not created")
  | Note msg => (INFO, msg)
  end.

(** The exit status of the [k]-th stage's child (from 1), when it ran. *)
Definition stage_status (w : World) (k : nat) : option Z :=
  statuses (trace w) !! (k - 1)%nat.

(** The first [n] blocks, without the closing line. *)
Definition run_block (self : ReconPipeline) (l : list Stage) : M bool :=
  fold_right (stage_then self) (mret true) l.

(** The world in which stage [k] (from 1) of a run of [main] starts, if
    the run gets there: after the pre-flight checks and stages [1..k-1]. *)
Definition before_stage (target : string) (k : nat) (w : World) : World :=
  final ((self ← init target;
          preflight self (run_block self (take (k - 1) (stages self)))) w).

(** The three worlds a block can leave behind, written out: after its
    progress line, after the runner opened the redirect target, and after
    the child ran. *)
Definition stepped (self : ReconPipeline) (st : Stage) (w : World) : World :=
  let n := S (current_step w) in
  add_log (progress_line self n st).1 (progress_line self n st).2 (set_step n w).

Definition opened_world (st : Stage) (w : World) : World :=
  match redirect_of st with
  | Some p => emit (EvOpenW p) (set_fs (<[p := File ""]> (fs w)) w)
  | None => w
  end.

Definition child (self : ReconPipeline) (st : Stage) (w : World)
  : CompletedProcess :=
  exec E (argv_of st) (fs (opened_world st (stepped self st w))).

Definition ran_world (self : ReconPipeline) (st : Stage) (w : World) : World :=
  let w1 := opened_world st (stepped self st w) in
  let r := child self st w in
  let f1 := match redirect_of st with
            | Some p => write_file (fs w1) (p, stdout r)
            | None => fs w1
            end in
  let w2 := emit (EvExec (argv_of st) (returncode r))
              (set_fs (apply_writes (writes r) f1) w1) in
  if (returncode r =? 0)%Z
  then add_log (report_line (fs w2) (after st)).1
               (report_line (fs w2) (after st)).2 w2
  else add_log ERROR (failure st +:+ " failed: " +:+ stderr r) w2.

(** The events of a run of stages that all returned zero. *)
Definition passed (l : list Stage) : list Event :=
  flat_map (fun st => stage_events st 0) l.

(** Contracts of the external tools that some theorems assume.

    [respects_artifacts]: a tool writes to one of the pipeline's artifacts
    only when that path is handed to it as its output option.

    [honours_output]: a tool that returns zero has written the files
    named by its output options. *)
Definition respects_artifacts (self : ReconPipeline) : Prop :=
  forall argv f p c,
    In (p, c) (writes (exec E argv f)) ->
    In p (artifacts self) ->
    In p (output_args argv).

Definition honours_output : Prop :=
  forall argv f p,
    returncode (exec E argv f) = 0%Z ->
    In p (output_args argv) ->
    exists c, In (p, c) (writes (exec E argv f)).

Definition completed (w : World) : World :=
  add_log INFO (String PyStr.LF "🎉 Recon complete! Results in ./output and ./screenshots") w.

(** The ways a run of [run_recon] started in [w] can go: the pre-flight
    checks stop it, or all blocks pass, or the blocks up to some stage
    pass and that stage stops the run. *)
Inductive run_shape (self : ReconPipeline) (w : World) : result bool -> Prop :=
| shape_preflight r :
    (forall w', r <> Ret true w') ->
    statuses (trace (final r)) = statuses (trace w) ->
    opened (trace (final r)) = opened (trace w) ->
    run_shape self w r
| shape_complete w1 w2 :
    preflight self (mret true) w = Ret true w1 ->
    run_block self (stages self) w1 = Ret true w2 ->
    trace w2 = trace w1 ++ passed (stages self) ->
    run_shape self w (Ret true (completed w2))
| shape_stopped w1 l1 st l2 wk :
    preflight self (mret true) w = Ret true w1 ->
    stages self = l1 ++ st :: l2 ->
    run_block self l1 w1 = Ret true wk ->
    trace wk = trace w1 ++ passed l1 ->
    (forall w', run_stage self st wk <> Ret true w') ->
    run_shape self w (run_stage self st wk).

(** *** What a stage reads

    The tools take their input files after [-l], [-list], [-w] and [-f];
    the shell stages name theirs in the command text. *)
Definition input_args (argv : list string) : list string :=
  option_values ["-l"; "-list"; "-w"; "-f"] argv.

Definition reads (st : Stage) (p : string) : bool :=
  match invocation st with
  | Command argv _ => existsb (String.eqb p) (input_args argv)
  | Shell command _ => PyStr.contains p command
  end.

(** *** Exit statuses handed to the stages

    The statuses a run leaves in its history when the stages, in order,
    return the statuses of [l]: those up to and including the first that
    is not zero. *)
Fixpoint until_failure (l : list Z) : list Z :=
  match l with
  | [] => []
  | rc :: rest => if (rc =? 0)%Z then rc :: until_failure rest else [rc]
  end.

(** What a stage needs of the file system to start its child: the file
    it redirects to can be opened, and its program is found. *)
Definition ready (f : gmap string Node) (st : Stage) : Prop :=
  (forall p, redirect_of st = Some p ->
     is_dir f p = false /\ parent_ok f p = true) /\
  exists cmd args, argv_of st = cmd :: args /\ which E f cmd = true.

(** [f'] has the regular files of [f] and the same directories. *)
Definition extends (f f' : gmap string Node) : Prop :=
  (forall q, is_file f q = true -> is_file f' q = true) /\
  (forall q, is_dir f' q = is_dir f q).

End WithEnv.

(** The 18 artifacts the runner opens itself, and the three files it
    leaves to the tools: the manifest asked of [gowitness] with [--json]
    and the two reports asked of [ffuf] with [-o]. *)
Definition runner_written : list string :=
  ["output/01_subfinder.txt"; "output/02_amass_passive.txt";
   "output/03_subs_uniq.txt"; "output/04_dnsx_resolved.txt";
   "output/05_hosts_resolved.txt"; "output/06_naabu_top1k.txt";
   "output/07_naabu_full.txt"; "output/08_open_ports.txt";
   "output/09_httpx_subs.txt"; "output/10_httpx_ports.txt";
   "output/11_live_urls.txt";
   "output/12_cname_candidates.txt"; "output/13_nuclei_web.txt";
   "output/14_nuclei_takeover.txt"; "output/15_gau.txt";
   "output/16_params.txt"; "output/19_js_endpoints.txt";
   "output/20_robots.txt"].

Definition tool_written : list string :=
  ["screenshots/gowitness.json"; "output/17_ffuf_dirs.txt";
   "output/18_ffuf_params.txt"].

End Recon.

(** ** install.py *)
Module Install.
Import Sys.

Record ReconInstaller := mkInstaller {
  go_tools : list (string * string);
  apt_packages : list string;
  directories : list string
}.

(** [ReconInstaller.__init__] *)
Definition init : ReconInstaller :=
  {| go_tools :=
       [("subfinder", "github.com/projectdiscovery/subfinder/v2/cmd/subfinder@latest");
        ("amass", "github.com/owasp-amass/amass/v4/...@latest");
        ("dnsx", "github.com/projectdiscovery/dnsx/cmd/dnsx@latest");
        ("naabu", "github.com/projectdiscovery/naabu/v2/cmd/naabu@latest");
        ("httpx", "github.com/projectdiscovery/httpx/cmd/httpx@latest");
        ("nuclei", "github.com/projectdiscovery/nuclei/v3/cmd/nuclei@latest");
        ("gau", "github.com/lc/gau/v2/cmd/gau@latest");
        ("unfurl", "github.com/tomnomnom/unfurl@latest");
        ("gowitness", "github.com/jaeles-project/gowitness@latest")];
     apt_packages :=
       ["golang-go"; "git"; "curl"; "jq"; "python3-pip"; "chromium";
        "build-essential"; "pkg-config"];
     directories := ["output"; "output/js_out"; "screenshots"] |}.

Section WithEnv.
Variable E : Env.

Definition run_command (command : list string) (check : bool)
  : M (bool * string) :=
  try_except
    (result ← subprocess_run E command None check;
     mret (true, stdout result))
    Recon.on_CalledProcessError.

Definition check_command_exists (command : string) : M bool := fun w =>
  Ret (which E (fs w) command) w.

(** The inner loop of [get_tool_version]: the match in the first line
    that mentions a version and has one. *)
Fixpoint first_version (lines : list string) : option string :=
  match lines with
  | [] => None
  | line :: rest =>
      if PyStr.contains "version" (PyStr.lower line) || PyStr.contains "v" line
      then match PyStr.re_search_version line with
           | Some m => Some m
           | None => first_version rest
           end
      else first_version rest
  end.

(** [output.strip()[:50] + "..." if len(output.strip()) > 50 else output.strip()] *)
Definition shorten (output : string) : string :=
  let s := PyStr.strip output in
  if (50 <? String.length s)%nat then PyStr.take 50 s +:+ "..." else s.

(** What [get_tool_version] returns once it has accepted [output]. *)
Definition version_of (output : string) : string :=
  match first_version (PyStr.split PyStr.LF (PyStr.strip output)) with
  | Some v => v
  | None => shorten output
  end.

Fixpoint get_tool_version_loop (tool_name : string) (version_flags : list string)
  : M (option string) :=
  match version_flags with
  | [] => mret None
  | flag :: rest =>
      r ← run_command [tool_name; flag] false;
      if r.1 && PyStr.truthy (PyStr.strip r.2)
      then mret (Some (version_of r.2))
      else get_tool_version_loop tool_name rest
  end.

Definition version_flags : list string := ["--version"; "-version"; "-v"; "version"].

Definition get_tool_version (tool_name : string) : M (option string) :=
  get_tool_version_loop tool_name version_flags.

(** Truth value of an [Optional[str]]. *)
Definition truthy_opt (v : option string) : bool :=
  match v with Some s => PyStr.truthy s | None => false end.

Definition shown (v : option string) : string :=
  match v with Some s => s | None => "None" end.

Fixpoint update_system_packages_loop (commands : list (list string)) : M bool :=
  match commands with
  | [] =>
      logger INFO "[‚úì] System packages updated successfully";;
      mret true
  | cmd :: rest =>
      r ← run_command cmd true;
      if negb r.1 then
        logger ERROR ("Failed to run: " +:+ PyStr.join " " cmd);;
        logger ERROR ("Error: " +:+ r.2);;
        mret false
      else update_system_packages_loop rest
  end.

Definition update_system_packages (self : ReconInstaller) : M bool :=
  logger INFO "[+] Updating APT packages...";;
  update_system_packages_loop [["apt"; "update"]; ["apt"; "upgrade"; "-y"]].

Definition check_apt_package_installed (package : string) : M bool :=
  r ← run_command ["dpkg"; "-l"; package] false;
  mret (r.1 && PyStr.contains package r.2).

Definition force_install_apt_packages (self : ReconInstaller) : M bool :=
  logger INFO "[+] Force installing APT packages...";;
  logger INFO ("[+] Force installing packages: " +:+
               PyStr.join ", " (apt_packages self));;
  r ← run_command (["apt"; "install"; "-y"; "--reinstall"] ++ apt_packages self) true;
  if negb r.1 then
    logger ERROR ("Failed to install APT packages: " +:+ r.2);;
    mret false
  else
    logger INFO "[‚úì] APT packages force installed successfully";;
    mret true.

Fixpoint missing_packages_loop (packages missing_packages : list string)
  : M (list string) :=
  match packages with
  | [] => mret missing_packages
  | package :: rest =>
      present ← check_apt_package_installed package;
      if negb present then
        logger INFO ("[+] " +:+ package +:+ " not found, will install");;
        missing_packages_loop rest (missing_packages ++ [package])
      else
        logger INFO ("[‚úì] " +:+ package +:+ " already installed");;
        missing_packages_loop rest missing_packages
  end.

Definition install_apt_packages (self : ReconInstaller) : M bool :=
  logger INFO "[+] Installing dependencies...";;
  missing_packages ← missing_packages_loop (apt_packages self) [];
  match missing_packages with
  | [] =>
      logger INFO "[‚úì] All APT packages are already installed";;
      mret true
  | _ :: _ =>
      logger INFO ("[+] Installing missing packages: " +:+
                   PyStr.join ", " missing_packages);;
      r ← run_command (["apt"; "install"; "-y"] ++ missing_packages) true;
      if negb r.1 then
        logger ERROR ("Failed to install APT packages: " +:+ r.2);;
        mret false
      else
        logger INFO "[‚úì] APT packages installed successfully";;
        mret true
  end.

Definition setup_go_environment (self : ReconInstaller) : M bool :=
  logger INFO "[+] Setting up Go environment...";;
  found ← check_command_exists "go";
  if negb found then
    logger ERROR "Go is not installed. Please install it first.";;
    mret false
  else
  r ← run_command ["go"; "version"] true;
  when r.1 (logger INFO ("[‚úì] " +:+ PyStr.strip r.2));;
  let home := HOME E in
  let go_path := path_join home "go" in
  let go_bin := path_join go_path "bin" in
  mkdir go_path;;
  mkdir go_bin;;
  when (negb (PyStr.contains go_bin (PATH E)))
    (logger WARNING ("[!] " +:+ go_bin +:+ " is not in PATH. Please add it to your PATH:");;
     logger WARNING ("    export PATH=$PATH:" +:+ go_bin);;
     logger WARNING ("    Or add to ~/.bashrc: echo 'export PATH=$PATH:" +:+
                     go_bin +:+ "' >> ~/.bashrc"));;
  mret true.

(** The "Verify installation" lines shared by the two tool loops. *)
Definition log_installed (tool_name : string) (version : option string) : M unit :=
  if truthy_opt version
  then logger INFO ("[‚úì] Installed " +:+ tool_name +:+ " " +:+ shown version)
  else logger WARNING ("[!] " +:+ tool_name +:+ " installed but version check failed").

Fixpoint force_install_go_tools_loop (tools : list (string * string)) : M bool :=
  match tools with
  | [] => mret true
  | (tool_name, tool_path) :: rest =>
      logger INFO ("[+] Force installing " +:+ tool_name +:+ "...");;
      r ← run_command ["go"; "install"; "-v"; tool_path] true;
      if negb r.1 then
        logger ERROR ("Failed to install " +:+ tool_name +:+ ": " +:+ r.2);;
        mret false
      else
        version ← get_tool_version tool_name;
        log_installed tool_name version;;
        force_install_go_tools_loop rest
  end.

Definition force_install_go_tools (self : ReconInstaller) : M bool :=
  logger INFO "[+] Force installing Go-based tools...";;
  force_install_go_tools_loop (go_tools self).

Fixpoint install_go_tools_loop (tools : list (string * string)) : M bool :=
  match tools with
  | [] => mret true
  | (tool_name, tool_path) :: rest =>
      existing_version ← get_tool_version tool_name;
      if truthy_opt existing_version then
        logger INFO ("[‚úì] " +:+ tool_name +:+ " " +:+ shown existing_version +:+
                     " already installed");;
        install_go_tools_loop rest
      else
        logger INFO ("[+] Installing " +:+ tool_name +:+ "...");;
        logger INFO ("[+] Force installing " +:+ tool_name +:+ "...");;
        r ← run_command ["go"; "install"; "-v"; tool_path] true;
        if negb r.1 then
          logger ERROR ("Failed to install " +:+ tool_name +:+ ": " +:+ r.2);;
          mret false
        else
          version ← get_tool_version tool_name;
          log_installed tool_name version;;
          install_go_tools_loop rest
  end.

Definition install_go_tools (self : ReconInstaller) : M bool :=
  logger INFO "[+] Installing Go-based tools...";;
  install_go_tools_loop (go_tools self).

Definition update_nuclei_templates (self : ReconInstaller) : M bool :=
  logger INFO "[+] Updating Nuclei templates...";;
  r ← run_command ["nuclei"; "-update-templates"] true;
  if negb r.1 then
    logger ERROR ("Failed to update Nuclei templates: " +:+ r.2);;
    mret false
  else
    logger INFO "[‚úì] Nuclei templates updated successfully";;
    mret true.

Fixpoint create_directories_loop (dirs : list string) : M bool :=
  match dirs with
  | [] => mret true
  | directory :: rest =>
      ok ← try_except
             (mkdir_p directory;;
              logger INFO ("[‚úì] Created directory: " +:+ directory +:+ "/");;
              mret true)
             (Recon.on_Exception (fun e =>
                logger ERROR ("Failed to create directory " +:+ directory +:+
                              ": " +:+ exn_str e);;
                mret false));
      if ok : bool then create_directories_loop rest else mret false
  end.

Definition create_directories (self : ReconInstaller) : M bool :=
  logger INFO "[+] Creating directories...";;
  create_directories_loop (directories self).

Fixpoint verify_go_tools_loop (tools : list (string * string)) (all_good : bool)
  : M bool :=
  match tools with
  | [] => mret all_good
  | (tool_name, _) :: rest =>
      version ← get_tool_version tool_name;
      if truthy_opt version then
        logger INFO ("[‚úì] " +:+ tool_name +:+ ": " +:+ shown version);;
        verify_go_tools_loop rest all_good
      else
        logger ERROR ("[‚úó] " +:+ tool_name +:+ ": Not found or version check failed");;
        verify_go_tools_loop rest false
  end.

Fixpoint verify_other_tools_loop (tools : list string) : M unit :=
  match tools with
  | [] => mret tt
  | tool :: rest =>
      found ← check_command_exists tool;
      (if found : bool return M unit then
         version ← get_tool_version tool;
         if truthy_opt version
         then logger INFO ("[‚úì] " +:+ tool +:+ ": " +:+ shown version)
         else logger INFO ("[‚úì] " +:+ tool +:+ ": Installed")
       else logger WARNING ("[!] " +:+ tool +:+ ": Not found in PATH"));;
      verify_other_tools_loop rest
  end.

Definition verify_installations (self : ReconInstaller) : M bool :=
  logger INFO "[+] Verifying installations...";;
  all_good ← verify_go_tools_loop (go_tools self) true;
  verify_other_tools_loop ["ffuf"; "curl"; "jq"; "git"];;
  mret all_good.

Definition on_FileNotFoundError (e : exn) : option (M bool) :=
  match e with
  | FileNotFoundError _ => Some (mret false)
  | _ => None
  end.

(** One of the two probes of [check_kali_linux]: does the file exist and
    mention the distribution. *)
Definition mentions_kali (path : string) : M bool :=
  try_except
    (content ← read_file path;
     mret (PyStr.contains "kali" (PyStr.lower content)))
    on_FileNotFoundError.

Definition check_kali_linux (self : ReconInstaller) : M bool :=
  hit ← mentions_kali "/etc/os-release";
  if hit : bool then mret true else
  (* Alternative check for Kali *)
  hit ← mentions_kali "/etc/issue";
  if hit : bool then mret true else
  mret false.

Definition steps (self : ReconInstaller) (force : bool)
  : list (string * M bool) :=
  [("Update system packages", update_system_packages self)] ++
  [if force
   then ("Force install APT packages", force_install_apt_packages self)
   else ("Install APT packages", install_apt_packages self)] ++
  [("Setup Go environment", setup_go_environment self)] ++
  [if force
   then ("Force install Go tools", force_install_go_tools self)
   else ("Install Go tools", install_go_tools self)] ++
  [("Update Nuclei templates", update_nuclei_templates self);
   ("Create directories", create_directories self);
   ("Verify installations", verify_installations self)].

Fixpoint run_steps (l : list (string * M bool)) : M bool :=
  match l with
  | [] => mret true
  | (step_name, step_func) :: rest =>
      logger INFO (String PyStr.LF "--- " +:+ step_name +:+ " ---");;
      ok ← step_func;
      if negb ok then
        logger ERROR ("‚ùå Installation failed at: " +:+ step_name);;
        mret false
      else run_steps rest
  end.

Definition install (self : ReconInstaller) (force : bool) : M bool :=
  logger INFO "üöÄ Starting Automated Recon Pipeline Installation...";;
  when force
    (logger INFO "üîß Force installation mode enabled - will reinstall all tools");;
  (* Check if running on Kali Linux *)
  kali ← check_kali_linux self;
  if negb kali then
    logger ERROR "‚ùå This tool is designed specifically for Kali Linux";;
    logger ERROR "Please run this script on a Kali Linux system";;
    mret false
  else
  (* Check if running as root (required for apt operations) *)
  if negb (euid E =? 0)%Z then
    logger ERROR "This script must be run as root (use sudo)";;
    mret false
  else
  ok ← run_steps (steps self force);
  if negb ok then mret false else
  logger INFO (String PyStr.LF "üéâ Installation complete!");;
  logger INFO "üí° Next steps:";;
  logger INFO "   1. Add $HOME/go/bin to your PATH if not already done";;
  logger INFO "   2. Run: export PATH=$PATH:$HOME/go/bin";;
  logger INFO "   3. Or add to ~/.bashrc: echo 'export PATH=$PATH:$HOME/go/bin' >> ~/.bashrc";;
  logger INFO "   4. Start building your recon pipeline!";;
  mret true.

(** [main], after [parser.parse_args()] has produced [args.force]. *)
Definition main (force : bool) : World -> Z * World := fun w =>
  exit_of "‚ö†Ô∏è  Installation interrupted by user" (install init force w).

(** What the successive version probes of [tool_name] print, were they
    all made: each probe runs on the file system the previous one left. *)
Fixpoint probe_outputs (tool_name : string) (flags : list string)
    (f : gmap string Node) : list string :=
  match flags with
  | [] => []
  | flag :: rest =>
      let r := exec E [tool_name; flag] f in
      stdout r :: probe_outputs tool_name rest (apply_writes (writes r) f)
  end.

(** The test [get_tool_version] applies to what a probe printed. *)
Definition accepted (output : string) : bool := PyStr.truthy (PyStr.strip output).

(** The two probes of [check_kali_linux], read off the file system. *)
Definition file_mentions_kali (f : gmap string Node) (path : string) : bool :=
  match f !! path with
  | Some (File content) => PyStr.contains "kali" (PyStr.lower content)
  | _ => false
  end.

Definition identifies_kali (f : gmap string Node) : bool :=
  file_mentions_kali f "/etc/os-release" || file_mentions_kali f "/etc/issue".

(** The packages of [packages] that [dpkg -l] does not show, in order,
    and the file system the probes leave: each probe runs on the file
    system the previous one left. *)
Fixpoint probe_packages (packages : list string) (f : gmap string Node)
  : list string * gmap string Node :=
  match packages with
  | [] => ([], f)
  | package :: rest =>
      let r := exec E ["dpkg"; "-l"; package] f in
      let '(missing, f') := probe_packages rest (apply_writes (writes r) f) in
      (if PyStr.contains package (stdout r) then missing else package :: missing, f')
  end.

End WithEnv.
End Install.

(** ** Concrete hosts and tool behaviours

    Small worlds on which the two programs can be run by computation. *)
Module Scenario.
Import Sys.

Definition with_programs (names : list string) (f : gmap string Node)
  : gmap string Node :=
  fold_left (fun m b => <["/usr/bin/" +:+ b := File "ELF"]> m) names f.

(** A host on which the pre-flight checks of the runner pass. *)
Definition recon_host : gmap string Node :=
  with_programs
    ["subfinder"; "amass"; "dnsx"; "naabu"; "httpx"; "nuclei"; "gau";
     "unfurl"; "ffuf"; "gowitness"; "curl"; "bash"] ∅.

Definition example : string := "example.com".

Definition one_line : string := "found" +:+ String PyStr.LF "".

Definition search : string := "/usr/local/bin:/usr/bin".

(** Every program returns 0 and prints one line; none writes a file of
    its own. *)
Definition quiet : Env :=
  mkEnv search "/root" 0 (fun _ _ => mkProc 0 one_line "" []).

(** Every program returns 0, prints one line and writes the files named
    by its output options. *)
Definition obliging : Env :=
  mkEnv search "/root" 0 (fun argv _ =>
    mkProc 0 one_line ""
      (map (fun p => (p, one_line)) (Recon.output_args argv))).

(** As [obliging], except that only [-o] is acted on: [gowitness] leaves
    no manifest. *)
Definition no_manifest : Env :=
  mkEnv search "/root" 0 (fun argv _ =>
    mkProc 0 one_line ""
      (map (fun p => (p, one_line)) (Recon.option_values ["-o"] argv))).

(** As [obliging], except that [amass] returns 1. *)
Definition amass_fails : Env :=
  mkEnv search "/root" 0 (fun argv _ =>
    mkProc (match argv with "amass" :: _ => 1 | _ => 0 end) one_line
      "amass: no data sources"
      (map (fun p => (p, one_line)) (Recon.output_args argv))).

Definition no_stage : Recon.Stage :=
  Recon.mkStage "" (Recon.Shell "" None) "" (Recon.Note "").

(** Stage [k] (from 1) of the table for [example]. *)
Definition stage (k : nat) : Recon.Stage :=
  nth (k - 1) (Recon.stages (Recon.pipeline example)) no_stage.

(** A host with one program, [tool], to be asked for its version. *)
Definition probe_host : gmap string Node := with_programs ["tool"; "dpkg"] ∅.

(** [tool --version] prints two lines, neither of which mentions a
    version. *)
Definition two_lines : Env :=
  mkEnv search "/root" 0 (fun argv _ =>
    match argv with
    | [_; "--version"] =>
        mkProc 0 ("usage: tool [options]" +:+ String PyStr.LF
                  ("run tool -h for help" +:+ String PyStr.LF "")) "" []
    | _ => mkProc 0 "" "" []
    end).

(** [tool --version] prints an empty line; [tool -version] prints its
    version and returns 2. *)
Definition blank_then_version : Env :=
  mkEnv search "/root" 0 (fun argv _ =>
    match argv with
    | [_; "--version"] => mkProc 0 (String PyStr.LF "") "" []
    | [_; "-version"] => mkProc 2 ("tool v1.2.3" +:+ String PyStr.LF "") "" []
    | ["dpkg"; "-l"; _] => mkProc 1 "" "dpkg-query: no packages found" []
    | _ => mkProc 0 "" "" []
    end).

(** A freshly installed Kali host, run as root: the package tools and Go
    are there and every OS package is installed, but none of the nine
    tools has been fetched yet. *)
Definition kali_host : gmap string Node :=
  with_programs ["apt"; "dpkg"; "go"; "git"; "curl"; "jq"]
    (<["/etc/os-release" := File "ID=kali"]> (<["/root" := Dir]> ∅)).

Definition fresh_kali : Env :=
  mkEnv "/usr/bin" "/root" 0 (fun argv _ =>
    match argv with
    | ["dpkg"; "-l"; package] => mkProc 0 ("ii  " +:+ package) "" []
    | ["go"; "version"] => mkProc 0 "go version go1.22.1 linux/amd64" "" []
    | _ => mkProc 0 "" "" []
    end).

(** An Ubuntu host, run as root. *)
Definition ubuntu_host : gmap string Node :=
  with_programs ["apt"; "dpkg"]
    (<["/etc/os-release" := File "ID=ubuntu"]>
       (<["/etc/issue" := File "Ubuntu 24.04 LTS"]> ∅)).

(** A host of the runner on which a first run was interrupted: the
    merged list of subdomains is there, and [bash] is not installed. *)
Definition host_without_bash : gmap string Node :=
  with_programs ["subfinder"; "amass"]
    (<["output/03_subs_uniq.txt" := File one_line]> (<["output" := Dir]> ∅)).

(** The package index cannot be fetched: [apt update] returns 100. *)
Definition no_network : Env :=
  mkEnv "/usr/bin" "/root" 0 (fun argv _ =>
    match argv with
    | ["apt"; "update"] => mkProc 100 "" "E: Failed to fetch" []
    | _ => mkProc 0 "" "" []
    end).

(** As [fresh_kali], except that [dpkg] does not list [curl] and [jq]. *)
Definition lacks_curl_and_jq : Env :=
  mkEnv "/usr/bin" "/root" 0 (fun argv _ =>
    match argv with
    | ["dpkg"; "-l"; package] =>
        if String.eqb package "curl" || String.eqb package "jq"
        then mkProc 1 "" "dpkg-query: no packages found" []
        else mkProc 0 ("ii  " +:+ package) "" []
    | _ => mkProc 0 "" "" []
    end).

(** A host with the eleven tools the pre-flight check asks for, and no
    [bash]. *)
Definition tools_without_bash : gmap string Node :=
  with_programs
    ["subfinder"; "amass"; "dnsx"; "naabu"; "httpx"; "nuclei"; "gau";
     "unfurl"; "ffuf"; "gowitness"; "curl"] ∅.

(** As [recon_host], with a directory where the first artifact goes. *)
Definition artifact_is_a_directory : gmap string Node :=
  <["output/01_subfinder.txt" := Dir]> recon_host.

End Scenario.

Example strip_ex : PyStr.strip (String PyStr.LF " v1.2 " +:+ String PyStr.LF "") = "v1.2".
Proof. reflexivity. Qed.
Example split_ex : PyStr.split PyStr.LF ("a" +:+ String PyStr.LF "b") = ["a"; "b"].
Proof. reflexivity. Qed.
Example re_ex1 : PyStr.re_search_version "Current Version: v2.6.3" = Some "v2.6.3".
Proof. reflexivity. Qed.
Example re_ex2 : PyStr.re_search_version "curl 8.5. x" = Some "8.5.".
Proof. reflexivity. Qed.
Example re_ex3 : PyStr.re_search_version "vv12a3.40.5.6" = Some "3.40.5".
Proof. reflexivity. Qed.
Example str_ex : PyStr.str_of_nat 21 = "21" /\ PyStr.str_of_nat 0 = "0".
Proof. split; reflexivity. Qed.


(** * Facts about the host model *)
Section SysFacts.
Import Sys.

Lemma statuses_app a b : statuses (a ++ b) = statuses a ++ statuses b.
Proof. apply omap_app. Qed.

Lemma opened_app a b : opened (a ++ b) = opened a ++ opened b.
Proof. apply omap_app. Qed.

Lemma commands_app a b : commands (a ++ b) = commands a ++ commands b.
Proof. apply omap_app. Qed.

Lemma made_dirs_app a b : made_dirs (a ++ b) = made_dirs a ++ made_dirs b.
Proof. apply omap_app. Qed.

Lemma is_dir_spec (f : gmap string Node) p : is_dir f p = true <-> f !! p = Some Dir.
Proof.
  unfold is_dir. destruct (f !! p) as [[c|]|]; split; intros H; congruence.
Qed.

Lemma write_file_other (f : gmap string Node) pc q :
  q <> pc.1 -> write_file f pc !! q = f !! q.
Proof.
  intros Hne. unfold write_file. destruct (is_dir f pc.1); [reflexivity|].
  apply lookup_insert_ne. congruence.
Qed.

Lemma write_file_dir (f : gmap string Node) pc q :
  f !! q = Some Dir -> write_file f pc !! q = Some Dir.
Proof.
  intros Hq. unfold write_file. destruct (is_dir f pc.1) eqn:Hd; [exact Hq|].
  rewrite lookup_insert_ne; [exact Hq|].
  intros Heq. apply is_dir_spec in Hq. congruence.
Qed.

Lemma write_file_keeps (f : gmap string Node) pc q :
  is_Some (f !! q) -> is_Some (write_file f pc !! q).
Proof.
  intros Hq. unfold write_file. destruct (is_dir f pc.1); [exact Hq|].
  destruct (decide (pc.1 = q)) as [Heq|Hne].
  - rewrite Heq, lookup_insert_eq. eauto.
  - rewrite lookup_insert_ne; assumption.
Qed.

Lemma write_file_written (f : gmap string Node) pc :
  is_Some (write_file f pc !! pc.1).
Proof.
  unfold write_file. destruct (is_dir f pc.1) eqn:Hd.
  - apply is_dir_spec in Hd. rewrite Hd. eauto.
  - rewrite lookup_insert_eq. eauto.
Qed.

Lemma apply_writes_other ws : forall (f : gmap string Node) q,
  (forall c, ~ In (q, c) ws) -> apply_writes ws f !! q = f !! q.
Proof.
  induction ws as [|[p c] ws IH]; intros f q Hq; [reflexivity|].
  cbn. rewrite IH.
  - apply write_file_other. cbn. intros Heq. apply (Hq c). left. congruence.
  - intros c' Hin. apply (Hq c'). right. exact Hin.
Qed.

Lemma apply_writes_dir ws : forall (f : gmap string Node) q,
  f !! q = Some Dir -> apply_writes ws f !! q = Some Dir.
Proof.
  induction ws as [|pc ws IH]; intros f q Hq; [exact Hq|].
  cbn. apply IH, write_file_dir, Hq.
Qed.

Lemma apply_writes_keeps ws : forall (f : gmap string Node) q,
  is_Some (f !! q) -> is_Some (apply_writes ws f !! q).
Proof.
  induction ws as [|pc ws IH]; intros f q Hq; [exact Hq|].
  cbn. apply IH, write_file_keeps, Hq.
Qed.

Lemma apply_writes_written ws : forall (f : gmap string Node) p c,
  In (p, c) ws -> is_Some (apply_writes ws f !! p).
Proof.
  induction ws as [|pc ws IH]; intros f p c Hin; [destruct Hin|].
  cbn. destruct Hin as [->|Hin].
  - apply apply_writes_keeps. apply (write_file_written f (p, c)).
  - eapply IH, Hin.
Qed.

Lemma is_file_spec (f : gmap string Node) p :
  is_file f p = true <-> exists c, f !! p = Some (File c).
Proof.
  unfold is_file. destruct (f !! p) as [[c|]|]; split;
    try discriminate; eauto; intros [c' H]; discriminate.
Qed.

Lemma write_file_file (f : gmap string Node) pc q :
  is_file f q = true -> is_file (write_file f pc) q = true.
Proof.
  intros Hq. unfold write_file. destruct (is_dir f pc.1); [exact Hq|].
  destruct (decide (pc.1 = q)) as [Heq|Hne].
  - apply is_file_spec. rewrite Heq, lookup_insert_eq. eauto.
  - apply is_file_spec. rewrite lookup_insert_ne by exact Hne.
    apply is_file_spec, Hq.
Qed.

Lemma apply_writes_file ws : forall (f : gmap string Node) q,
  is_file f q = true -> is_file (apply_writes ws f) q = true.
Proof.
  induction ws as [|pc ws IH]; intros f q Hq; [exact Hq|].
  cbn. apply IH, write_file_file, Hq.
Qed.

End SysFacts.


(** * Facts about the stage table *)
Section TableFacts.
Import Sys Recon.
Variable target : string.

Lemma artifacts_eq :
  artifacts (pipeline target) =
  ["output/01_subfinder.txt"; "output/02_amass_passive.txt";
   "output/03_subs_uniq.txt"; "output/04_dnsx_resolved.txt";
   "output/05_hosts_resolved.txt"; "output/06_naabu_top1k.txt";
   "output/07_naabu_full.txt"; "output/08_open_ports.txt";
   "output/09_httpx_subs.txt"; "output/10_httpx_ports.txt";
   "output/11_live_urls.txt"; "screenshots/gowitness.json";
   "output/12_cname_candidates.txt"; "output/13_nuclei_web.txt";
   "output/14_nuclei_takeover.txt"; "output/15_gau.txt";
   "output/16_params.txt"; "output/17_ffuf_dirs.txt";
   "output/18_ffuf_params.txt"; "output/19_js_endpoints.txt";
   "output/20_robots.txt"].
Proof. reflexivity. Qed.

Lemma artifacts_NoDup : NoDup (artifacts (pipeline target)).
Proof. rewrite artifacts_eq. compute_done. Qed.

Lemma own_outputs i st q :
  stages (pipeline target) !! i = Some st ->
  redirect_of st = Some q \/ In q (output_args (argv_of st)) ->
  In q (artifacts (pipeline target)) ->
  artifacts (pipeline target) !! i = Some q.
Proof.
  intros Hst Hq Hin. rewrite artifacts_eq in *.
  do 21 (destruct i as [|i];
    [ injection Hst as <-; cbn in Hq;
      repeat match type of Hq with
             | context [String.eqb target ?l] =>
                 destruct (String.eqb target l); cbn in Hq
             end;
      (destruct Hq as [Hq|Hq];
       [ first [discriminate Hq | injection Hq as <-; reflexivity]
       | repeat (destruct Hq as [<-|Hq];
                 [first [reflexivity
                        | exfalso; cbn in Hin; intuition discriminate]|]);
         exfalso; exact Hq ])
    | ]).
  discriminate.
Qed.

Lemma redirect_is_artifact i st q :
  stages (pipeline target) !! i = Some st ->
  redirect_of st = Some q ->
  artifacts (pipeline target) !! i = Some q.
Proof.
  intros Hst Hq. rewrite artifacts_eq.
  do 21 (destruct i as [|i];
    [ injection Hst as <-; cbn in Hq;
      first [discriminate Hq | injection Hq as <-; reflexivity]
    | ]).
  discriminate.
Qed.

(** What one stage writes is never the artifact of another. *)
Lemma foreign_artifact i j st p :
  stages (pipeline target) !! i = Some st ->
  artifacts (pipeline target) !! j = Some p ->
  i <> j ->
  redirect_of st <> Some p /\ ~ In p (output_args (argv_of st)).
Proof.
  intros Hst Hp Hij.
  assert (Hin : In p (artifacts (pipeline target))).
  { apply list_elem_of_In. eapply list_elem_of_lookup_2, Hp. }
  assert (Hown : redirect_of st = Some p \/ In p (output_args (argv_of st)) -> False).
  { intros H. apply Hij.
    eapply NoDup_lookup; [apply artifacts_NoDup| |exact Hp].
    eapply own_outputs; eassumption. }
  split; intros H; apply Hown; auto.
Qed.

Lemma after_of_stage i st :
  stages (pipeline target) !! i = Some st ->
  (i <> 11 -> exists p, after st = CheckFile p /\
                        artifacts (pipeline target) !! i = Some p) /\
  (i = 11 -> after st = Note "[✓] Screenshots captured").
Proof.
  intros Hst. rewrite artifacts_eq.
  do 21 (destruct i as [|i];
    [ injection Hst as <-; split;
      [ intros Hi; first [exfalso; apply Hi; reflexivity
                         | eexists; split; reflexivity]
      | intros Hi; first [discriminate Hi | reflexivity] ]
    | ]).
  discriminate.
Qed.

Lemma stages_length : length (stages (pipeline target)) = 21.
Proof. reflexivity. Qed.

End TableFacts.

(** * Facts about the pipeline runner *)

#[local] Arguments Sys.is_dir : simpl never.
#[local] Arguments Sys.is_file : simpl never.
#[local] Arguments Sys.parent_ok : simpl never.
#[local] Arguments Sys.which : simpl never.
#[local] Arguments Sys.write_file : simpl never.
#[local] Arguments Sys.apply_writes : simpl never.
#[local] Arguments Recon.has_content : simpl never.
#[local] Arguments PyStr.str_of_nat : simpl never.
#[local] Arguments String.append : simpl never.
#[local] Arguments Recon.check_tools : simpl never.
#[local] Arguments Recon.create_directories : simpl never.

(** Unfold the monad as far as the next decision. *)
Ltac mrun :=
  repeat (progress (unfold mbind, Sys.M_bind, mret, Sys.M_ret, Sys.try_except,
                      Sys.logger, Sys.when, Sys.raise; cbn)).

Section ReconFacts.
Import Sys Recon.
Variable E : Env.
Variable self : ReconPipeline.

(** [run_recon] is its pre-flight checks followed by the 21 blocks of the
    table. *)
Lemma run_recon_table :
  run_recon E self = preflight E self (run_stages E self (stages self)).
Proof. reflexivity. Qed.

Lemma stage_then_run_stage st rest w :
  stage_then E self st rest w =
  match run_stage E self st w with
  | Ret true w' => rest w'
  | Ret false w' => Ret false w'
  | Raise e w' => Raise e w'
  end.
Proof.
  unfold run_stage, stage_then.
  unfold mbind, M_bind, mret, M_ret.
  unfold log_step, logger.
  destruct (invoke E self (invocation st) _) as [[b o] w1|e w1]; cbn;
    [|reflexivity].
  destruct b; cbn; [|reflexivity].
  unfold report. destruct (after st); cbn.
  - unfold check_file_created. destruct (has_content _ _); reflexivity.
  - reflexivity.
Qed.

(** A block either stops on an exception before its child ran (when the
    redirect target cannot be opened or the program is not found), or its
    child runs and the block returns whether the status was zero.  Once
    the redirect target has been opened it is known not to be a directory. *)
Lemma run_stage_cases st w :
  (exists e, run_stage E self st w = Raise e (stepped self st w)) \/
  ((forall p, redirect_of st = Some p -> is_dir (fs w) p = false) /\
   ((exists e, run_stage E self st w =
               Raise e (opened_world st (stepped self st w))) \/
    run_stage E self st w =
      Ret (returncode (child E self st w) =? 0)%Z (ran_world E self st w))).
Proof.
  unfold run_stage, stage_then, ran_world, child, opened_world, stepped,
    redirect_of, argv_of, progress_line, log_step, invoke, run_command,
    run_shell_command.
  assert (Hrep : forall w0 : World,
    match report (after st) w0 with
    | Ret _ w' => Ret true w'
    | Raise e w' => Raise e w'
    end = Ret true (add_log (report_line (fs w0) (after st)).1
                            (report_line (fs w0) (after st)).2 w0)).
  { intros w0. unfold report, report_line, check_file_created.
    destruct (after st); mrun; [destruct (has_content _ _)|]; reflexivity. }
  destruct (invocation st) as [argv o|c o]; destruct (given o) as [p|];
    unfold open_w, subprocess_run; mrun.
  - destruct (is_dir _ p) eqn:Hd; mrun; [left; eauto|].
    destruct (parent_ok _ p); mrun; [|left; eauto].
    right. split; [intros q [= <-]; exact Hd|].
    destruct argv as [|cmd args]; mrun; [left; eauto|].
    destruct (which _ _ cmd); mrun; [|left; eauto].
    right.
    destruct (returncode _ =? 0)%Z; mrun; [apply Hrep|reflexivity].
  - destruct argv as [|cmd args]; mrun; [left; eauto|].
    destruct (which _ _ cmd); mrun; [|left; eauto].
    right. split; [discriminate|]. right.
    destruct (returncode _ =? 0)%Z; mrun; [apply Hrep|reflexivity].
  - destruct (is_dir _ p) eqn:Hd; mrun; [left; eauto|].
    destruct (parent_ok _ p); mrun; [|left; eauto].
    right. split; [intros q [= <-]; exact Hd|].
    destruct (which _ _ "bash"); mrun; [|left; eauto].
    right.
    destruct (returncode _ =? 0)%Z; mrun; [apply Hrep|reflexivity].
  - destruct (which _ _ "bash"); mrun; [|left; eauto].
    right. split; [discriminate|]. right.
    destruct (returncode _ =? 0)%Z; mrun; [apply Hrep|reflexivity].
Qed.

Lemma trace_stepped st w : trace (stepped self st w) = trace w.
Proof. reflexivity. Qed.

Lemma fs_stepped st w : fs (stepped self st w) = fs w.
Proof. reflexivity. Qed.

Lemma trace_opened_world st w :
  trace (opened_world st w) =
  trace w ++ match redirect_of st with Some p => [EvOpenW p] | None => [] end.
Proof.
  unfold opened_world. destruct (redirect_of st); cbn; [reflexivity|].
  symmetry. apply app_nil_r.
Qed.

Lemma trace_ran_world st w :
  trace (ran_world E self st w) =
  trace w ++ stage_events st (returncode (child E self st w)).
Proof.
  unfold ran_world, stage_events, opened_world, child.
  destruct (returncode _ =? 0)%Z; destruct (redirect_of st); cbn;
    rewrite <- ?app_assoc; reflexivity.
Qed.

Lemma fs_ran_world st w :
  fs (ran_world E self st w) =
  apply_writes (writes (child E self st w))
    match redirect_of st with
    | Some p => write_file (<[p := File ""]> (fs w)) (p, stdout (child E self st w))
    | None => fs w
    end.
Proof.
  unfold ran_world, opened_world, child.
  destruct (returncode _ =? 0)%Z; destruct (redirect_of st); reflexivity.
Qed.

Lemma statuses_stage_events st rc : statuses (stage_events st rc) = [rc].
Proof. unfold stage_events. destruct (redirect_of st); reflexivity. Qed.

Lemma statuses_passed l : statuses (passed l) = replicate (length l) 0%Z.
Proof.
  induction l as [|st l IH]; [reflexivity|].
  cbn [passed flat_map]. rewrite statuses_app, statuses_stage_events.
  fold (passed l). rewrite IH. reflexivity.
Qed.

(** Running [l1 ++ l2] is running [l1] and, when every block of it passed,
    going on with [l2]. *)
Lemma fold_stage_app fin l1 l2 : forall w,
  fold_right (stage_then E self) fin (l1 ++ l2) w =
  match run_block E self l1 w with
  | Ret true w1 => fold_right (stage_then E self) fin l2 w1
  | Ret false w1 => Ret false w1
  | Raise e w1 => Raise e w1
  end.
Proof.
  induction l1 as [|st l1 IH]; intros w; [reflexivity|].
  cbn [app fold_right run_block]. rewrite !stage_then_run_stage.
  destruct (run_stage E self st w) as [[|] w1|e w1]; [|reflexivity..].
  apply IH.
Qed.

(** How a sequence of blocks ends: all of them passed, or the first one
    that did not pass decides. *)
Lemma run_block_cases l : forall w,
  (exists w', run_block E self l w = Ret true w' /\
              trace w' = trace w ++ passed l) \/
  (exists l1 st l2 w1,
      l = l1 ++ st :: l2 /\
      run_block E self l1 w = Ret true w1 /\
      trace w1 = trace w ++ passed l1 /\
      run_block E self l w = run_stage E self st w1 /\
      forall w', run_stage E self st w1 <> Ret true w').
Proof.
  induction l as [|st l IH]; intros w.
  - left. exists w. split; [reflexivity|]. symmetry. apply app_nil_r.
  - cbn [run_block fold_right]. rewrite stage_then_run_stage.
    destruct (run_stage_cases st w) as [[e He]|[_ [[e He]|He]]].
    + right. exists [], st, l, w. rewrite He.
      repeat split; [symmetry; apply app_nil_r|discriminate].
    + right. exists [], st, l, w. rewrite He.
      repeat split; [symmetry; apply app_nil_r|discriminate].
    + rewrite He. destruct (returncode _ =? 0)%Z eqn:Hrc.
      * apply Z.eqb_eq in Hrc.
        assert (Ht : trace (ran_world E self st w) = trace w ++ stage_events st 0)
          by (rewrite trace_ran_world, Hrc; reflexivity).
        destruct (IH (ran_world E self st w))
          as [(w' & Hw' & Htr)|(l1 & st' & l2 & w1 & -> & Hb & Htr & Hr & Hne)].
        -- left. exists w'. split; [exact Hw'|].
           rewrite Htr, Ht. cbn [passed flat_map]. apply eq_sym, app_assoc.
        -- right. exists (st :: l1), st', l2, w1.
           split; [reflexivity|].
           split.
           { cbn [run_block fold_right]. rewrite stage_then_run_stage, He.
             exact Hb. }
           split.
           { rewrite Htr, Ht. cbn [passed flat_map]. apply eq_sym, app_assoc. }
           split; [exact Hr|exact Hne].
      * right. exists [], st, l, w. rewrite He.
        repeat split; [symmetry; apply app_nil_r|discriminate].
Qed.


(** *** What a stage leaves on disk *)

Lemma log_ran_world st w :
  log (ran_world E self st w) =
  log w ++ [progress_line self (S (current_step w)) st;
            if (returncode (child E self st w) =? 0)%Z
            then report_line (fs (ran_world E self st w)) (after st)
            else (ERROR, failure st +:+ " failed: " +:+ stderr (child E self st w))].
Proof.
  unfold ran_world, child, stepped, opened_world.
  destruct (returncode _ =? 0)%Z; destruct (redirect_of st); cbn;
    rewrite <- app_assoc; cbn;
    try destruct (report_line _ _); reflexivity.
Qed.

Lemma ran_world_frame st w p :
  (forall c, ~ In (p, c) (writes (child E self st w))) ->
  redirect_of st <> Some p ->
  fs (ran_world E self st w) !! p = fs w !! p.
Proof.
  intros Hw Hr. rewrite fs_ran_world, apply_writes_other by exact Hw.
  destruct (redirect_of st) as [q|]; [|reflexivity].
  assert (p <> q) by congruence.
  rewrite write_file_other by (cbn; assumption).
  apply lookup_insert_ne. congruence.
Qed.

(** What a stage whose child ran leaves on disk: directories stay,
    files stay files, the redirect target is a file, and a tool that
    honours its output options has left the files they name. *)
Lemma ran_world_keeps st w :
  (forall p, redirect_of st = Some p -> is_dir (fs w) p = false) ->
  (forall q, fs w !! q = Some Dir -> fs (ran_world E self st w) !! q = Some Dir) /\
  (forall q, is_file (fs w) q = true -> is_file (fs (ran_world E self st w)) q = true) /\
  (forall q, is_Some (fs w !! q) -> is_Some (fs (ran_world E self st w) !! q)) /\
  (forall q, redirect_of st = Some q -> is_file (fs (ran_world E self st w)) q = true) /\
  (honours_output E -> returncode (child E self st w) = 0%Z ->
   forall q, In q (output_args (argv_of st)) ->
     is_Some (fs (ran_world E self st w) !! q)).
Proof.
  intros Hd. rewrite fs_ran_world. repeat split.
  - intros q Hq. apply apply_writes_dir.
    destruct (redirect_of st) as [p|]; [|exact Hq].
    apply write_file_dir. rewrite lookup_insert_ne; [exact Hq|].
    intros Heq. specialize (Hd p eq_refl). apply is_dir_spec in Hq. congruence.
  - intros q Hq. apply apply_writes_file.
    destruct (redirect_of st) as [p|]; [|exact Hq].
    apply write_file_file. apply is_file_spec.
    destruct (decide (p = q)) as [->|Hne].
    + rewrite lookup_insert_eq. eauto.
    + rewrite lookup_insert_ne by exact Hne. apply is_file_spec, Hq.
  - intros q Hq. apply apply_writes_keeps.
    destruct (redirect_of st) as [p|]; [|exact Hq].
    apply write_file_keeps.
    destruct (decide (p = q)) as [->|Hne].
    + rewrite lookup_insert_eq. eauto.
    + rewrite lookup_insert_ne by exact Hne. exact Hq.
  - intros q ->. apply apply_writes_file, write_file_file, is_file_spec.
    rewrite lookup_insert_eq. eauto.
  - intros Hh Hrc q Hq.
    destruct (Hh (argv_of st) _ q Hrc Hq) as [c Hc].
    eapply apply_writes_written, Hc.
Qed.

Lemma run_block_keeps l : forall w w',
  run_block E self l w = Ret true w' ->
  (forall q, fs w !! q = Some Dir -> fs w' !! q = Some Dir) /\
  (forall q, is_file (fs w) q = true -> is_file (fs w') q = true) /\
  (forall q, is_Some (fs w !! q) -> is_Some (fs w' !! q)) /\
  (forall st q, In st l -> redirect_of st = Some q -> is_file (fs w') q = true) /\
  (honours_output E -> forall st q, In st l ->
     In q (output_args (argv_of st)) -> is_Some (fs w' !! q)).
Proof.
  induction l as [|st l IH]; intros w w' Hrun.
  - injection Hrun as <-. repeat split; auto; intros;
      match goal with H : In _ [] |- _ => destruct H end.
  - cbn [run_block fold_right] in Hrun. rewrite stage_then_run_stage in Hrun.
    destruct (run_stage_cases st w) as [[e He]|[Hd [[e He]|He]]];
      rewrite He in Hrun; try discriminate Hrun.
    destruct (returncode _ =? 0)%Z eqn:Hrc; [|discriminate Hrun].
    apply Z.eqb_eq in Hrc.
    destruct (ran_world_keeps st w Hd) as (K1 & K2 & K3 & K4 & K5).
    destruct (IH _ _ Hrun) as (I1 & I2 & I3 & I4 & I5).
    repeat split.
    + intros q Hq. apply I1, K1, Hq.
    + intros q Hq. apply I2, K2, Hq.
    + intros q Hq. apply I3, K3, Hq.
    + intros st' q [<-|Hin] Hq; [apply I2, K4, Hq|eapply I4; eassumption].
    + intros Hh st' q [<-|Hin] Hq; [apply I3, K5; assumption|eapply I5; eassumption].
Qed.
(** *** Pre-flight checks *)

Lemma check_tools_loop_ret tools : forall missing w,
  exists m w', check_tools_loop E tools missing w = Ret m w' /\
               fs w' = fs w /\ trace w' = trace w.
Proof.
  induction tools as [|tool tools IH]; intros missing w.
  - exists missing, w. repeat split.
  - cbn [check_tools_loop]. destruct (negb (which E (fs w) tool)).
    + apply IH.
    + mrun. destruct (IH missing (add_log INFO ("[✓] " +:+ tool +:+ " found") w))
        as (m & w' & Hr & Hf & Ht).
      exists m, w'. repeat split; assumption.
Qed.

Lemma check_tools_ret w :
  exists b w', check_tools E self w = Ret b w' /\
               fs w' = fs w /\ trace w' = trace w.
Proof.
  unfold check_tools. mrun.
  destruct (check_tools_loop_ret (required_tools self) []
              (add_log INFO "[+] Checking required tools..." w))
    as (m & w' & Hr & Hf & Ht).
  rewrite Hr. destruct m; mrun; eexists _, _; repeat split; assumption.
Qed.

Lemma mkdirs_lookup ps : forall (f : gmap string Node) q,
  fold_left (fun f q => <[q := Dir]> f) ps f !! q =
  if bool_decide (q ∈ ps) then Some Dir else f !! q.
Proof.
  induction ps as [|p ps IH]; intros f q; [reflexivity|].
  cbn [fold_left]. rewrite IH.
  destruct (bool_decide (q ∈ ps)) eqn:Hin.
  - apply bool_decide_eq_true in Hin.
    rewrite bool_decide_eq_true_2; [reflexivity|right; exact Hin].
  - apply bool_decide_eq_false in Hin.
    destruct (decide (p = q)) as [->|Hne].
    + rewrite lookup_insert_eq.
      rewrite bool_decide_eq_true_2; [reflexivity|left].
    + rewrite lookup_insert_ne by exact Hne.
      rewrite bool_decide_eq_false_2; [reflexivity|].
      intros Hq. apply elem_of_cons in Hq as [?|?]; [congruence|contradiction].
Qed.

(** [mkdir_p] either makes the directory and its ancestors, or raises and
    changes nothing. *)
Lemma mkdir_p_cases p w :
  (exists q, mkdir_p p w = Raise (FileExistsError q) w) \/
  (exists w', mkdir_p p w = Ret tt w' /\
     trace w' = trace w ++ [EvMkdir p] /\
     log w' = log w /\
     forall q, fs w' !! q =
       if bool_decide (q ∈ path_prefixes "" true (PyStr.split "/" p))
       then Some Dir else fs w !! q).
Proof.
  unfold mkdir_p. destruct (List.find _ _) as [q|].
  - left. eauto.
  - right. eexists. split; [reflexivity|]. cbn. repeat split.
    intros q. apply mkdirs_lookup.
Qed.

Lemma create_directories_loop_spec dirs : forall w,
  exists b w', create_directories_loop dirs w = Ret b w' /\
    statuses (trace w') = statuses (trace w) /\
    opened (trace w') = opened (trace w) /\
    (b = true ->
     trace w' = trace w ++ map EvMkdir dirs /\
     (forall q, fs w !! q = Some Dir -> fs w' !! q = Some Dir) /\
     (forall d q, d ∈ dirs ->
        q ∈ path_prefixes "" true (PyStr.split "/" d) ->
        fs w' !! q = Some Dir)).
Proof.
  induction dirs as [|d dirs IH]; intros w.
  - exists true, w. repeat split.
    + symmetry. apply app_nil_r.
    + auto.
    + intros d q Hd. apply elem_of_nil in Hd. destruct Hd.
  - cbn [create_directories_loop]. mrun.
    destruct (mkdir_p_cases d w) as [[q Hq]|(w1 & Hw1 & Ht & Hl & Hf)].
    + rewrite Hq. mrun. eexists false, _. repeat split; discriminate.
    + rewrite Hw1. mrun.
      destruct (IH (add_log INFO ("[✓] Created directory: " +:+ d +:+ "/") w1))
        as (b & w' & Hr & Hs & Ho & Hok).
      cbn in Hs, Ho. rewrite Hr. exists b, w'.
      split; [reflexivity|].
      split; [rewrite Hs, Ht, statuses_app; cbn; apply app_nil_r|].
      split; [rewrite Ho, Ht, opened_app; cbn; apply app_nil_r|].
      intros Hb. destruct (Hok Hb) as (Htr & Hkeep & Hmade). cbn in Htr, Hkeep.
      assert (Hk1 : forall q, fs w !! q = Some Dir -> fs w1 !! q = Some Dir).
      { intros q Hq. rewrite Hf. destruct (bool_decide _); [reflexivity|exact Hq]. }
      split; [rewrite Htr, Ht, <- app_assoc; reflexivity|].
      split; [intros q Hq; apply Hkeep, Hk1, Hq|].
      intros d' q Hd Hq. apply elem_of_cons in Hd as [->|Hin].
      * apply Hkeep. rewrite Hf.
        rewrite bool_decide_eq_true_2; [reflexivity|exact Hq].
      * eapply Hmade; eassumption.
Qed.

Lemma create_directories_spec w :
  exists b w', create_directories self w = Ret b w' /\
    statuses (trace w') = statuses (trace w) /\
    opened (trace w') = opened (trace w) /\
    (b = true ->
     trace w' = trace w ++ map EvMkdir
                  [output_dir self; screenshots_dir self; js_out_dir self] /\
     (forall d q, d ∈ [output_dir self; screenshots_dir self; js_out_dir self] ->
        q ∈ path_prefixes "" true (PyStr.split "/" d) ->
        fs w' !! q = Some Dir)).
Proof.
  unfold create_directories, mbind, M_bind, logger.
  destruct (create_directories_loop_spec
              [output_dir self; screenshots_dir self; js_out_dir self]
              (add_log INFO "[+] Creating directories..." w))
    as (b & w' & Hr & Hs & Ho & Hok).
  exists b, w'. split; [exact Hr|]. split; [exact Hs|]. split; [exact Ho|].
  intros Hb. destruct (Hok Hb) as (Htr & _ & Hmade). split; assumption.
Qed.

Lemma preflight_bind body w :
  preflight E self body w =
  match preflight E self (mret true) w with
  | Ret true w1 => body w1
  | Ret false w1 => Ret false w1
  | Raise e w1 => Raise e w1
  end.
Proof.
  unfold preflight. mrun.
  destruct (check_tools E self _) as [[|] w1|e w1]; mrun; try reflexivity.
  destruct (create_directories self w1) as [[|] w2|e w2]; mrun; reflexivity.
Qed.

(** The pre-flight checks start no process and open no file; when they
    pass they have made the three directories. *)
Lemma preflight_spec w :
  exists r, preflight E self (mret true) w = r /\
    statuses (trace (final r)) = statuses (trace w) /\
    opened (trace (final r)) = opened (trace w) /\
    forall w1, r = Ret true w1 ->
      trace w1 = trace w ++ map EvMkdir
                   [output_dir self; screenshots_dir self; js_out_dir self] /\
      (forall d q, d ∈ [output_dir self; screenshots_dir self; js_out_dir self] ->
         q ∈ path_prefixes "" true (PyStr.split "/" d) ->
         fs w1 !! q = Some Dir).
Proof.
  eexists. split; [reflexivity|].
  unfold preflight. mrun.
  destruct (check_tools_ret (add_log INFO ("🚀 Starting reconnaissance on: " +:+ target self) w))
    as (b & w1 & Hr & Hf & Ht).
  rewrite Hr. cbn in Ht. destruct b; mrun.
  2:{ rewrite Ht. repeat split; discriminate. }
  destruct (create_directories_spec w1) as (b & w2 & Hr2 & Hs & Ho & Hok).
  rewrite Hr2. rewrite Ht in Hs, Ho.
  destruct b; mrun.
  2:{ repeat split; try assumption; discriminate. }
  split; [exact Hs|]. split; [exact Ho|].
  intros w3 [= <-]. cbn.
  destruct (Hok eq_refl) as (Htr & Hmade). rewrite Ht in Htr.
  split; [exact Htr|exact Hmade].
Qed.


(** *** Whole runs *)

Lemma run_stages_block l w :
  run_stages E self l w =
  match run_block E self l w with
  | Ret true w1 => Ret true (completed w1)
  | Ret false w1 => Ret false w1
  | Raise e w1 => Raise e w1
  end.
Proof.
  unfold run_stages. rewrite <- (app_nil_r l) at 1.
  rewrite fold_stage_app.
  destruct (run_block E self l w) as [[|] w1|e w1]; reflexivity.
Qed.

(** A block that did not pass: either no child ran, or exactly one more
    child ran and returned non-zero. *)
Lemma run_stage_stopped st w :
  (forall w', run_stage E self st w <> Ret true w') ->
  (exists e w', run_stage E self st w = Raise e w' /\
      statuses (trace w') = statuses (trace w)) \/
  (run_stage E self st w = Ret false (ran_world E self st w) /\
   returncode (child E self st w) <> 0%Z).
Proof.
  intros Hne.
  destruct (run_stage_cases st w) as [[e He]|[_ [[e He]|He]]].
  - left. exists e, (stepped self st w). split; [exact He|reflexivity].
  - left. exists e, (opened_world st (stepped self st w)). split; [exact He|].
    rewrite trace_opened_world, statuses_app.
    destruct (redirect_of st); cbn; apply app_nil_r.
  - right. destruct (returncode _ =? 0)%Z eqn:Hrc.
    + exfalso. eapply Hne, He.
    + split; [exact He|]. apply Z.eqb_neq, Hrc.
Qed.

Lemma run_recon_shape w : run_shape E self w (run_recon E self w).
Proof.
  rewrite run_recon_table, preflight_bind.
  destruct (preflight_spec w) as (r & Hr & Hs & Ho & Hok).
  rewrite Hr. destruct r as [[|] w1|e w1].
  - rewrite run_stages_block.
    destruct (run_block_cases (stages self) w1)
      as [(w2 & Hw2 & Htr)|(l1 & st & l2 & wk & Hl & Hb & Htr & Hrun & Hne)].
    + rewrite Hw2. eapply shape_complete; eassumption.
    + rewrite Hrun.
      replace (match run_stage E self st wk with
               | Ret true w2 => Ret true (completed w2)
               | Ret false w2 => Ret false w2
               | Raise e w2 => Raise e w2
               end) with (run_stage E self st wk).
      * eapply shape_stopped; eassumption.
      * destruct (run_stage E self st wk) as [[|] w2|e w2]; try reflexivity.
        exfalso. eapply Hne. reflexivity.
  - apply shape_preflight; [discriminate|exact Hs|exact Ho].
  - apply shape_preflight; [discriminate|exact Hs|exact Ho].
Qed.

End ReconFacts.

(** * Facts about [main] of the runner *)
Section MainFacts.
Import Sys Recon.
Variable E : Env.

Lemma contains_dot_truthy target :
  PyStr.contains "." target = true -> PyStr.truthy target = true.
Proof. destruct target; [discriminate|reflexivity]. Qed.

Lemma main_valid target w :
  PyStr.contains "." target = true ->
  main E target w =
  exit_of "⚠️  Reconnaissance interrupted by user"
    (run_recon E (pipeline target) (set_step 0 w)).
Proof.
  intros Hdot. unfold main. rewrite Hdot, (contains_dot_truthy _ Hdot).
  reflexivity.
Qed.

Lemma main_invalid target w :
  PyStr.contains "." target = false ->
  main E target w =
  (1%Z, add_log ERROR "❌ Invalid target format. Please provide a valid domain (e.g., example.com)" w).
Proof.
  intros Hdot. unfold main. rewrite Hdot, orb_true_r. reflexivity.
Qed.

Lemma exit_of_trace m r : trace (exit_of m r).2 = trace (final r).
Proof. destruct r as [[|] w|[] w]; reflexivity. Qed.

Lemma exit_of_fs m r : fs (exit_of m r).2 = fs (final r).
Proof. destruct r as [[|] w|[] w]; reflexivity. Qed.

Lemma exit_of_zero m r : (exit_of m r).1 = 0%Z <-> exists w, r = Ret true w.
Proof.
  destruct r as [[|] w|[] w]; cbn; split;
    try discriminate; eauto; intros [w' H]; discriminate.
Qed.

Lemma exit_of_code m r : (exit_of m r).1 = 0%Z \/ (exit_of m r).1 = 1%Z.
Proof. destruct r as [[|] w|[] w]; cbn; auto. Qed.

Lemma preflight_statuses self w w1 :
  preflight E self (mret true) w = Ret true w1 ->
  statuses (trace w1) = statuses (trace w) /\
  opened (trace w1) = opened (trace w).
Proof.
  intros H. destruct (preflight_spec E self w) as (r & Hr & Hs & Ho & _).
  rewrite H in Hr. subst r. split; assumption.
Qed.

(** The statuses a run of [main] leaves in the trace: 21 zeros and exit
    status 0, or fewer than 21 zeros, possibly followed by one non-zero
    status, and exit status 1. *)
Lemma main_statuses target f :
  let r := main E target (boot f) in
  (r.1 = 0%Z /\ statuses (trace r.2) = replicate 21 0%Z) \/
  (r.1 = 1%Z /\ exists n, n < 21 /\
     (statuses (trace r.2) = replicate n 0%Z \/
      exists rc, rc <> 0%Z /\ statuses (trace r.2) = replicate n 0%Z ++ [rc])).
Proof.
  cbn zeta. destruct (PyStr.contains "." target) eqn:Hdot.
  2:{ rewrite (main_invalid _ _ Hdot). right. split; [reflexivity|].
      exists 0. split; [lia|]. left. reflexivity. }
  rewrite (main_valid _ _ Hdot).
  change (set_step 0 (boot f)) with (boot f).
  rewrite exit_of_trace.
  destruct (run_recon_shape E (pipeline target) (boot f))
    as [r Hne Hs Ho|w1 w2 Hpre Hblock Htr|w1 l1 st l2 wk Hpre Hl Hblock Htr Hne].
  - right. split.
    + destruct (exit_of_code "⚠️  Reconnaissance interrupted by user" r) as [H0|H1];
        [|exact H1].
      apply exit_of_zero in H0 as [w' ->]. exfalso. eapply Hne. reflexivity.
    + exists 0. split; [lia|]. left. rewrite Hs. reflexivity.
  - left. split; [reflexivity|]. cbn [final completed add_log trace].
    rewrite Htr, statuses_app, statuses_passed, stages_length.
    destruct (preflight_statuses _ _ _ Hpre) as [-> _]. reflexivity.
  - assert (Hlen : length l1 < 21).
    { pose proof (stages_length target) as H. rewrite Hl, length_app in H.
      cbn in H. lia. }
    destruct (preflight_statuses _ _ _ Hpre) as [Hs1 _].
    assert (Hk : statuses (trace wk) = replicate (length l1) 0%Z).
    { rewrite Htr, statuses_app, statuses_passed, Hs1. reflexivity. }
    right. destruct (run_stage_stopped E _ st wk Hne)
      as [(e & w' & He & Hs)|[He Hrc]]; rewrite He.
    + split; [destruct e; reflexivity|].
      exists (length l1). split; [exact Hlen|]. left.
      cbn [final]. rewrite Hs. exact Hk.
    + split; [reflexivity|].
      exists (length l1). split; [exact Hlen|]. right.
      exists (returncode (child E (pipeline target) st wk)). split; [exact Hrc|].
      cbn [final]. rewrite trace_ran_world, statuses_app, statuses_stage_events, Hk.
      reflexivity.
Qed.

Lemma before_stage_boot target k f :
  before_stage E target k (boot f) =
  final (preflight E (pipeline target)
           (run_block E (pipeline target) (take (k - 1) (stages (pipeline target))))
           (boot f)).
Proof. reflexivity. Qed.

(** When the [k]-th child ran and returned non-zero, the run is the blocks
    [1..k-1] passing and block [k] failing. *)
Lemma main_failed_stage target f k rc :
  1 <= k ->
  stage_status (main E target (boot f)).2 k = Some rc ->
  rc <> 0%Z ->
  exists w1 l1 st l2 wk,
    preflight E (pipeline target) (mret true) (boot f) = Ret true w1 /\
    stages (pipeline target) = l1 ++ st :: l2 /\
    length l1 = k - 1 /\
    run_block E (pipeline target) l1 w1 = Ret true wk /\
    main E target (boot f) = (1%Z, ran_world E (pipeline target) st wk) /\
    returncode (child E (pipeline target) st wk) = rc /\
    statuses (trace (ran_world E (pipeline target) st wk)) = replicate (k - 1) 0%Z ++ [rc].
Proof.
  unfold stage_status. intros Hk Hst Hrc.
  destruct (PyStr.contains "." target) eqn:Hdot.
  2:{ rewrite (main_invalid _ _ Hdot) in Hst. discriminate Hst. }
  rewrite (main_valid _ _ Hdot) in *.
  change (set_step 0 (boot f)) with (boot f) in *.
  rewrite exit_of_trace in Hst.
  destruct (run_recon_shape E (pipeline target) (boot f))
    as [r Hne Hs Ho|w1 w2 Hpre Hblock Htr|w1 l1 st l2 wk Hpre Hl Hblock Htr Hne].
  - rewrite Hs in Hst. discriminate Hst.
  - exfalso. cbn [final completed add_log trace] in Hst.
    rewrite Htr, statuses_app, statuses_passed in Hst.
    destruct (preflight_statuses _ _ _ Hpre) as [Hs1 _]. rewrite Hs1 in Hst.
    cbn [statuses boot trace omap app] in Hst.
    apply lookup_replicate in Hst as [-> _]. apply Hrc. reflexivity.
  - destruct (preflight_statuses _ _ _ Hpre) as [Hs1 _].
    assert (Hsk : statuses (trace wk) = replicate (length l1) 0%Z).
    { rewrite Htr, statuses_app, statuses_passed, Hs1. reflexivity. }
    destruct (run_stage_stopped E _ st wk Hne)
      as [(e & w' & He & Hs)|[He Hrc']]; rewrite He in *.
    + exfalso. cbn [final] in Hst. rewrite Hs, Hsk in Hst.
      apply lookup_replicate in Hst as [-> _]. apply Hrc. reflexivity.
    + cbn [final] in Hst.
      rewrite trace_ran_world, statuses_app, statuses_stage_events, Hsk in Hst.
      assert (Hidx : k - 1 = length l1).
      { destruct (decide (k - 1 < length l1)) as [Hlt|Hge].
        - rewrite lookup_app_l in Hst by (rewrite length_replicate; exact Hlt).
          apply lookup_replicate in Hst as [-> _]. exfalso. apply Hrc. reflexivity.
        - rewrite lookup_app_r in Hst by (rewrite length_replicate; lia).
          rewrite length_replicate in Hst.
          destruct (k - 1 - length l1) as [|n] eqn:Hd; [lia|].
          discriminate Hst. }
      rewrite Hidx in Hst.
      rewrite lookup_app_r in Hst by (rewrite length_replicate; lia).
      rewrite length_replicate, Nat.sub_diag in Hst. injection Hst as Hst.
      exists w1, l1, st, l2, wk. repeat split; try assumption.
      * symmetry. exact Hidx.
      * rewrite trace_ran_world, statuses_app, statuses_stage_events, Hsk, Hidx, Hst.
        reflexivity.
Qed.

Lemma passed_opened target :
  opened (passed (stages (pipeline target))) = runner_written.
Proof. reflexivity. Qed.

Lemma passed_made_dirs target :
  made_dirs (passed (stages (pipeline target))) = [].
Proof. reflexivity. Qed.

Lemma redirects_of_stages target :
  omap redirect_of (stages (pipeline target)) = runner_written.
Proof. reflexivity. Qed.

Lemma dot_not_flag target :
  PyStr.contains "." target = true ->
  String.eqb target "-o" = false /\ String.eqb target "--json" = false.
Proof.
  intros Hdot. split; apply String.eqb_neq; intros ->; discriminate Hdot.
Qed.

Lemma passed_output_args target :
  PyStr.contains "." target = true ->
  flat_map output_args (map argv_of (stages (pipeline target))) = tool_written.
Proof.
  intros Hdot. destruct (dot_not_flag target Hdot) as [Ho Hj].
  cbn. rewrite Ho, Hj. reflexivity.
Qed.

Lemma commands_passed l : commands (passed l) = map argv_of l.
Proof.
  induction l as [|st l IH]; [reflexivity|].
  cbn [passed flat_map map]. rewrite commands_app. fold (passed l). rewrite IH.
  unfold stage_events. destruct (redirect_of st); reflexivity.
Qed.

Lemma made_dirs_mkdirs l : made_dirs (map EvMkdir l) = l.
Proof. induction l as [|d l IH]; [reflexivity|]. cbn. f_equal. exact IH. Qed.

Lemma opened_mkdirs l : opened (map EvMkdir l) = [].
Proof. induction l as [|d l IH]; [reflexivity|exact IH]. Qed.

Lemma commands_mkdirs l : commands (map EvMkdir l) = [].
Proof. induction l as [|d l IH]; [reflexivity|exact IH]. Qed.

Lemma commands_stage_events st rc : commands (stage_events st rc) = [argv_of st].
Proof. unfold stage_events. destruct (redirect_of st); reflexivity. Qed.

(** The children of a run are the commands of the stages, in table order:
    the [k]-th child that ran is the process of stage [k]. *)
Lemma children_are_stage_commands target f :
  commands (trace (main E target (boot f)).2) `prefix_of`
  map argv_of (stages (pipeline target)).
Proof.
  destruct (PyStr.contains "." target) eqn:Hdot.
  2:{ rewrite (main_invalid _ _ Hdot). apply prefix_nil. }
  rewrite (main_valid _ _ Hdot).
  change (set_step 0 (boot f)) with (boot f).
  rewrite exit_of_trace.
  assert (Hpre1 : forall w1,
    preflight E (pipeline target) (mret true) (boot f) = Ret true w1 ->
    commands (trace w1) = []).
  { intros w1 Hpre.
    destruct (preflight_spec E (pipeline target) (boot f)) as (r & Hr & _ & _ & Hok).
    rewrite Hpre in Hr. subst r. destruct (Hok w1 eq_refl) as [-> _].
    apply commands_mkdirs. }
  destruct (run_recon_shape E (pipeline target) (boot f))
    as [r Hne Hs Ho|w1 w2 Hpre Hblock Htr|w1 l1 st l2 wk Hpre Hl Hblock Htr Hne].
  - assert (Hc : length (commands (trace (final r))) = length (statuses (trace (final r)))).
    { unfold commands, statuses. generalize (trace (final r)).
      induction l as [|[]]; cbn; auto. }
    rewrite Hs in Hc. destruct (commands (trace (final r))); [apply prefix_nil|discriminate Hc].
  - cbn [final completed add_log trace].
    rewrite Htr, commands_app, commands_passed, (Hpre1 _ Hpre). reflexivity.
  - assert (Hk : commands (trace wk) = map argv_of l1).
    { rewrite Htr, commands_app, commands_passed, (Hpre1 _ Hpre). reflexivity. }
    rewrite Hl, map_app. cbn [map].
    destruct (run_stage_cases E (pipeline target) st wk) as [[e He]|[_ [[e He]|He]]];
      rewrite He; cbn [final].
    + rewrite trace_stepped, Hk. apply prefix_app_r. reflexivity.
    + rewrite trace_opened_world, trace_stepped, commands_app, Hk.
      destruct (redirect_of st); cbn; rewrite app_nil_r; apply prefix_app_r; reflexivity.
    + rewrite trace_ran_world, commands_app, commands_stage_events, Hk.
      apply prefix_app, prefix_cons, prefix_nil.
Qed.

End MainFacts.

(** * The claims about the pipeline runner *)
Section RunnerClaims.
Import Sys Recon.
Variable E : Env.

(** C1.  When the child of stage [k] ran and returned a non-zero status,
    [main] exits with status 1, no stage after [k] has a child in the
    trace, and, for tools that write to an artifact only when it is their
    output option, every artifact of the stages [1..k-1] holds at the end
    of the run what it held when stage [k] started. *)
Theorem failing_stage_aborts_the_run target f k rc :
  1 <= k <= 21 ->
  stage_status (main E target (boot f)).2 k = Some rc ->
  rc <> 0%Z ->
  (main E target (boot f)).1 = 1%Z /\
  (forall j, k < j -> stage_status (main E target (boot f)).2 j = None) /\
  (respects_artifacts E (pipeline target) ->
   forall j p, 1 <= j < k ->
     artifacts (pipeline target) !! (j - 1) = Some p ->
     fs (main E target (boot f)).2 !! p =
     fs (before_stage E target k (boot f)) !! p).
Proof.
  intros [Hk1 Hk21] Hst Hrc.
  destruct (main_failed_stage E target f k rc Hk1 Hst Hrc)
    as (w1 & l1 & st & l2 & wk & Hpre & Hl & Hlen & Hblock & Hmain & Hchild & Hstat).
  rewrite Hmain. cbn [fst snd]. split; [reflexivity|]. split.
  - intros j Hj. unfold stage_status. rewrite Hstat.
    apply lookup_ge_None. rewrite length_app, length_replicate. cbn. lia.
  - intros Hresp j p Hj Hp.
    rewrite before_stage_boot, preflight_bind, Hpre.
    rewrite Hl, <- Hlen, take_app_length, Hblock. cbn [final].
    assert (Hst' : stages (pipeline target) !! (k - 1) = Some st).
    { rewrite Hl, <- Hlen. apply list_lookup_middle. reflexivity. }
    destruct (foreign_artifact target (k - 1) (j - 1) st p Hst' Hp ltac:(lia))
      as [Hred Hout].
    apply ran_world_frame; [|exact Hred].
    intros c Hin. apply Hout. eapply Hresp; [exact Hin|].
    apply list_elem_of_In. eapply list_elem_of_lookup_2, Hp.
Qed.

(** The exit status and the statuses observed in the history: [main]
    exits with status 0 exactly when each of the 21 stages has a child in
    the trace and that child returned 0.  A stage whose child did not run
    (the pre-flight checks failed, an earlier stage failed, its program
    could not be started) has no status; by [children_are_stage_commands]
    the [k]-th child is the process of stage [k].  What the exit status is
    for given statuses of the processes is settled in the last part of
    this file. *)
Lemma exit_zero_iff_every_stage_zero target f :
  (main E target (boot f)).1 = 0%Z <->
  forall k, 1 <= k <= 21 -> stage_status (main E target (boot f)).2 k = Some 0%Z.
Proof.
  unfold stage_status.
  destruct (main_statuses E target f) as [[H0 Hs]|(H1 & n & Hn & Hs)].
  - split; [|intros _; exact H0]. intros _ k Hk. rewrite Hs.
    apply lookup_replicate. split; [reflexivity|lia].
  - split; [intros H0; rewrite H0 in H1; discriminate|].
    intros Hall. exfalso. specialize (Hall (S n) ltac:(lia)).
    replace (S n - 1) with n in Hall by lia.
    destruct Hs as [Hs|(rc & Hrc & Hs)]; rewrite Hs in Hall.
    + apply lookup_replicate in Hall. lia.
    + rewrite lookup_app_r in Hall by (rewrite length_replicate; lia).
      rewrite length_replicate, Nat.sub_diag in Hall. cbn in Hall. congruence.
Qed.

(** C3, as amended.  For a block whose child ran: whether control goes
    on to the next block is decided by the exit status alone.  After a
    zero status, each stage other than the twelfth logs one line about its
    artifact, at level INFO when the file has content and at level
    WARNING when it is empty or missing; the twelfth (screenshots) checks
    no file and logs a fixed INFO line.  A non-zero status is logged at
    level ERROR. *)
Theorem output_check_is_advisory target k st w b w' :
  1 <= k <= 21 ->
  stages (pipeline target) !! (k - 1) = Some st ->
  run_stage E (pipeline target) st w = Ret b w' ->
  let rc := returncode (child E (pipeline target) st w) in
  let progress := progress_line (pipeline target) (S (current_step w)) st in
  (b = true <-> rc = 0%Z) /\
  (rc = 0%Z -> k <> 12 ->
   exists p,
     artifacts (pipeline target) !! (k - 1) = Some p /\
     log w' = log w ++
       [progress;
        if has_content (fs w') p
        then (INFO, "[✓] " +:+ p +:+ " created successfully")
        else (WARNING, "[!] " +:+ p +:+ " is empty or not created")]) /\
  (rc = 0%Z -> k = 12 ->
   log w' = log w ++ [progress; (INFO, "[✓] Screenshots captured")]) /\
  (rc <> 0%Z ->
   log w' = log w ++
     [progress;
      (ERROR, failure st +:+ " failed: " +:+ stderr (child E (pipeline target) st w))]).
Proof.
  intros Hk Hst Hrun. cbn zeta.
  destruct (run_stage_cases E (pipeline target) st w) as [[e He]|[Hd [[e He]|He]]];
    rewrite He in Hrun; try discriminate Hrun.
  injection Hrun as <- <-.
  destruct (after_of_stage target (k - 1) st Hst) as [Hfile Hnote].
  split; [apply Z.eqb_eq|].
  split; [|split].
  - intros Hrc Hk12. destruct Hfile as (p & Hafter & Hart); [lia|].
    exists p. split; [exact Hart|].
    rewrite log_ran_world, Hrc, Hafter. reflexivity.
  - intros Hrc Hk12. rewrite log_ran_world, Hrc, Hnote by lia. reflexivity.
  - intros Hrc. rewrite log_ran_world.
    apply Z.eqb_neq in Hrc. rewrite Hrc. reflexivity.
Qed.


(** C7.  A target without a dot makes [main] exit with status 1 with no
    process started, no directory made and no file touched; a target with
    a dot always reaches [run_recon], so the dot is all that is checked. *)
Theorem target_without_dot_is_rejected target w :
  (PyStr.contains "." target = false ->
   (main E target w).1 = 1%Z /\
   trace (main E target w).2 = trace w /\
   fs (main E target w).2 = fs w) /\
  (PyStr.contains "." target = true ->
   main E target w =
   exit_of "⚠️  Reconnaissance interrupted by user"
     (run_recon E (pipeline target) (set_step 0 w))).
Proof.
  split; intros Hdot.
  - rewrite (main_invalid _ _ _ Hdot). repeat split.
  - apply main_valid, Hdot.
Qed.

(** C10.  Running stage [N] from any world: the only path the runner
    opens for writing is the artifact of stage [N]; the artifact [p] of an
    earlier stage [M] is not opened; and, for tools that write to an
    artifact only when it is their output option, [p] holds afterwards
    what it held before. *)
Theorem later_stage_leaves_earlier_artifacts target M N stN p w :
  1 <= M -> M < N -> N <= 21 ->
  stages (pipeline target) !! (N - 1) = Some stN ->
  artifacts (pipeline target) !! (M - 1) = Some p ->
  exists ev,
    trace (final (run_stage E (pipeline target) stN w)) = trace w ++ ev /\
    (forall q, In (EvOpenW q) ev -> artifacts (pipeline target) !! (N - 1) = Some q) /\
    ~ In (EvOpenW p) ev /\
    (respects_artifacts E (pipeline target) ->
     fs (final (run_stage E (pipeline target) stN w)) !! p = fs w !! p).
Proof.
  intros HM HMN HN Hst Hp.
  destruct (foreign_artifact target (N - 1) (M - 1) stN p Hst Hp ltac:(lia))
    as [Hred Hout].
  assert (Hopen : forall q,
    In (EvOpenW q) (match redirect_of stN with Some r => [EvOpenW r] | None => [] end) ->
    artifacts (pipeline target) !! (N - 1) = Some q).
  { intros q Hq. destruct (redirect_of stN) as [r|] eqn:Hr; [|destruct Hq].
    destruct Hq as [[= <-]|[]]. eapply redirect_is_artifact; eassumption. }
  assert (Hnot : ~ In (EvOpenW p)
    (match redirect_of stN with Some r => [EvOpenW r] | None => [] end)).
  { intros Hq. destruct (redirect_of stN) as [r|] eqn:Hr; [|destruct Hq].
    destruct Hq as [[= <-]|[]]. apply Hred. reflexivity. }
  destruct (run_stage_cases E (pipeline target) stN w) as [[e He]|[Hd [[e He]|He]]];
    rewrite He; cbn [final].
  - exists []. split; [symmetry; apply app_nil_r|].
    split; [intros q []|]. split; [intros []|]. intros _. reflexivity.
  - eexists. split; [rewrite trace_opened_world; reflexivity|].
    split; [exact Hopen|]. split; [exact Hnot|]. intros _.
    unfold opened_world. destruct (redirect_of stN) as [r|]; [|reflexivity].
    cbn. apply lookup_insert_ne. congruence.
  - exists (stage_events stN (returncode (child E (pipeline target) stN w))).
    split; [apply trace_ran_world|].
    split.
    { intros q Hq. apply Hopen. unfold stage_events in Hq.
      destruct (redirect_of stN); cbn in Hq |- *; intuition discriminate. }
    split.
    { intros Hq. apply Hnot. unfold stage_events in Hq.
      destruct (redirect_of stN); cbn in Hq |- *; intuition discriminate. }
    intros Hresp. apply ran_world_frame; [|exact Hred].
    intros c Hin. apply Hout. eapply Hresp; [exact Hin|].
    apply list_elem_of_In. eapply list_elem_of_lookup_2, Hp.
Qed.



End RunnerClaims.

(** * Facts about the installer *)
Section InstallFacts.
Import Sys Install.
Variable E : Env.

Lemma which_apply_writes ws f cmd :
  which E f cmd = true -> which E (apply_writes ws f) cmd = true.
Proof.
  unfold which. rewrite !existsb_exists.
  intros (d & Hd & Hf). exists d. split; [exact Hd|].
  apply apply_writes_file, Hf.
Qed.

(** With [check=False] a command that can be started always reports
    success, whatever its exit status. *)
Lemma run_command_unchecked cmd args w :
  which E (fs w) cmd = true ->
  run_command E (cmd :: args) false w =
  Ret (true, stdout (exec E (cmd :: args) (fs w)))
      (emit (EvExec (cmd :: args) (returncode (exec E (cmd :: args) (fs w))))
         (set_fs (apply_writes (writes (exec E (cmd :: args) (fs w))) (fs w)) w)).
Proof.
  intros Hw. unfold run_command, subprocess_run. mrun. rewrite Hw. reflexivity.
Qed.

(** A command that is not on the search path makes [run_command] raise,
    with or without [check]: only [CalledProcessError] is caught. *)
Lemma run_command_missing cmd args check w :
  which E (fs w) cmd = false ->
  run_command E (cmd :: args) check w = Raise (FileNotFoundError cmd) w.
Proof.
  intros Hw. unfold run_command, subprocess_run. mrun. rewrite Hw. reflexivity.
Qed.

Lemma run_command_unchecked_true command w b o w' :
  run_command E command false w = Ret (b, o) w' -> b = true.
Proof.
  unfold run_command, subprocess_run. mrun.
  destruct command as [|cmd args]; mrun; [discriminate|].
  destruct (which E (fs w) cmd); mrun; [|discriminate].
  intros [= <- _ _]. reflexivity.
Qed.

Lemma get_tool_version_missing tool w :
  which E (fs w) tool = false ->
  get_tool_version E tool w = Raise (FileNotFoundError tool) w.
Proof.
  intros Hw. unfold get_tool_version, version_flags.
  cbn [get_tool_version_loop]. unfold mbind, M_bind.
  rewrite run_command_missing by exact Hw. reflexivity.
Qed.

(** The probes are made in the order of the flags and stop at the first
    accepted output: [n] probes ran, the first [n - 1] were rejected. *)
Lemma get_tool_version_loop_order tool flags : forall w,
  which E (fs w) tool = true ->
  let outs := probe_outputs E tool flags (fs w) in
  exists w' n,
    get_tool_version_loop E tool flags w =
      Ret (version_of <$> List.find accepted outs) w' /\
    commands (trace w') =
      commands (trace w) ++ map (fun flag => [tool; flag]) (take n flags) /\
    n <= length flags /\
    Forall (fun o => accepted o = false) (take (n - 1) outs) /\
    (List.find accepted outs = None -> n = length flags) /\
    (forall o, List.find accepted outs = Some o ->
       1 <= n /\ outs !! (n - 1) = Some o).
Proof.
  induction flags as [|flag flags IH]; intros w Hw; cbn zeta.
  - exists w, 0. repeat split; try reflexivity.
    + symmetry. apply app_nil_r.
    + constructor.
    + discriminate.
    + discriminate.
  - cbn [get_tool_version_loop probe_outputs List.find]. unfold mbind, M_bind.
    rewrite run_command_unchecked by exact Hw. cbn [fst snd andb].
    fold (accepted (stdout (exec E [tool; flag] (fs w)))).
    destruct (accepted (stdout (exec E [tool; flag] (fs w)))) eqn:Hacc.
    + eexists _, 1. split; [reflexivity|].
      split; [cbn; rewrite commands_app; reflexivity|].
      split; [cbn; lia|]. split; [constructor|].
      split; [discriminate|]. intros o [= <-]. split; [lia|reflexivity].
    + match goal with |- context [get_tool_version_loop E tool flags ?w1] =>
        destruct (IH w1) as (w' & n & Hr & Hc & Hn & Hrej & Hnone & Hsome) end.
      { cbn. apply which_apply_writes, Hw. }
      cbn [fs set_fs emit] in Hr, Hrej, Hnone, Hsome.
      exists w', (S n). split; [exact Hr|].
      split; [rewrite Hc; cbn; rewrite commands_app, <- app_assoc; reflexivity|].
      split; [cbn; lia|].
      split.
      { replace (S n - 1) with n by lia. destruct n as [|n]; [constructor|].
        cbn [take]. constructor; [exact Hacc|].
        replace (S n - 1) with n in Hrej by lia. exact Hrej. }
      split; [intros Hf; cbn; f_equal; apply Hnone, Hf|].
      intros o Ho. destruct (Hsome o Ho) as [Hn1 Hlook].
      split; [lia|]. replace (S n - 1) with (S (n - 1)) by lia. exact Hlook.
Qed.

Lemma first_version_found lines v :
  first_version lines = Some v ->
  exists line, In line lines /\
    (PyStr.contains "version" (PyStr.lower line) || PyStr.contains "v" line) = true /\
    PyStr.re_search_version line = Some v.
Proof.
  induction lines as [|line lines IH]; [discriminate|].
  cbn [first_version].
  destruct (PyStr.contains "version" (PyStr.lower line) || PyStr.contains "v" line) eqn:Hm.
  - destruct (PyStr.re_search_version line) as [m|] eqn:Hs.
    + intros [= <-]. exists line. repeat split; [left; reflexivity|exact Hm|exact Hs].
    + intros H. destruct (IH H) as (l & Hin & Hl). exists l. split; [right; exact Hin|exact Hl].
  - intros H. destruct (IH H) as (l & Hin & Hl). exists l. split; [right; exact Hin|exact Hl].
Qed.

(** What [get_tool_version] makes of an accepted output: the first
    pattern match found in a line that mentions a version, or else the
    whole stripped output, cut to 50 characters and three dots when it is
    longer. *)
Lemma version_of_cases output :
  (exists line,
     In line (PyStr.split PyStr.LF (PyStr.strip output)) /\
     (PyStr.contains "version" (PyStr.lower line) || PyStr.contains "v" line) = true /\
     PyStr.re_search_version line = Some (version_of output)) \/
  (first_version (PyStr.split PyStr.LF (PyStr.strip output)) = None /\
   version_of output =
     if (50 <? String.length (PyStr.strip output))%nat
     then PyStr.take 50 (PyStr.strip output) +:+ "..."
     else PyStr.strip output).
Proof.
  unfold version_of.
  destruct (first_version _) as [v|] eqn:Hv.
  - left. apply first_version_found, Hv.
  - right. split; reflexivity.
Qed.

Lemma verify_go_tools_loop_false l : forall w b w',
  verify_go_tools_loop E l false w = Ret b w' -> b = false.
Proof.
  induction l as [|[tool path] l IH]; intros w b w'.
  - intros [= <- _]. reflexivity.
  - cbn [verify_go_tools_loop]. unfold mbind, M_bind.
    destruct (get_tool_version E tool w) as [v w1|e w1]; [|discriminate].
    destruct (truthy_opt v); mrun; apply IH.
Qed.

Lemma verify_go_tools_loop_none tool path rest all_good w w1 :
  get_tool_version E tool w = Ret None w1 ->
  verify_go_tools_loop E ((tool, path) :: rest) all_good w =
  verify_go_tools_loop E rest false
    (add_log ERROR ("[‚úó] " +:+ tool +:+ ": Not found or version check failed") w1).
Proof.
  intros H. cbn [verify_go_tools_loop]. unfold mbind, M_bind. rewrite H.
  reflexivity.
Qed.

Lemma check_apt_package_installed_spec package w :
  which E (fs w) "dpkg" = true ->
  check_apt_package_installed E package w =
  Ret (PyStr.contains package (stdout (exec E ["dpkg"; "-l"; package] (fs w))))
      (emit (EvExec ["dpkg"; "-l"; package]
               (returncode (exec E ["dpkg"; "-l"; package] (fs w))))
         (set_fs (apply_writes (writes (exec E ["dpkg"; "-l"; package] (fs w)))
                    (fs w)) w)).
Proof.
  intros Hw. unfold check_apt_package_installed, mbind, M_bind.
  rewrite run_command_unchecked by exact Hw. reflexivity.
Qed.

(** *** The platform and privilege checks *)

Lemma mentions_kali_cases path w :
  mentions_kali path w = Ret (file_mentions_kali (fs w) path) w \/
  exists e, mentions_kali path w = Raise e w.
Proof.
  unfold mentions_kali, file_mentions_kali, read_file. mrun.
  destruct (fs w !! path) as [[c|]|]; mrun; eauto.
Qed.

Lemma check_kali_linux_cases self w :
  check_kali_linux self w = Ret (identifies_kali (fs w)) w \/
  exists e, check_kali_linux self w = Raise e w.
Proof.
  unfold check_kali_linux, identifies_kali, mbind, M_bind.
  destruct (mentions_kali_cases "/etc/os-release" w) as [->|[e ->]]; [|eauto].
  destruct (file_mentions_kali (fs w) "/etc/os-release"); [left; reflexivity|].
  destruct (mentions_kali_cases "/etc/issue" w) as [->|[e ->]]; [|eauto].
  destruct (file_mentions_kali (fs w) "/etc/issue"); left; reflexivity.
Qed.

End InstallFacts.

(** * The claims about the installer *)
Section InstallerClaims.
Import Sys Install.
Variable E : Env.

(** C5.  When neither [/etc/os-release] nor [/etc/issue] mentions the
    distribution, or the effective user is not root, [main] exits with
    status 1 having started no process at all (so no [apt], [go install]
    or [nuclei] command), made no directory and left the file system as
    it was. *)
Theorem wrong_host_or_user_runs_nothing f force :
  identifies_kali f = false \/ euid E <> 0%Z ->
  (main E force (boot f)).1 = 1%Z /\
  trace (main E force (boot f)).2 = [] /\
  fs (main E force (boot f)).2 = f.
Proof.
  intros Hpre. unfold main. rewrite exit_of_trace, exit_of_fs.
  assert (Hrun : exists w', fs w' = f /\ trace w' = [] /\
            (install E init force (boot f) = Ret false w' \/
             exists e, install E init force (boot f) = Raise e w')).
  { unfold install.
    match goal with
    | |- context [mbind ?k (run_steps ?s)] => generalize (mbind k (run_steps s))
    end.
    intros rest. unfold mbind, M_bind, logger.
    set (w0 := add_log INFO _ (boot f)).
    assert (Hw1 : exists w1, when force (fun w => Ret tt (add_log INFO "üîß Force installation mode enabled - will reinstall all tools" w)) w0 = Ret tt w1 /\ fs w1 = f /\ trace w1 = []).
    { destruct force; eexists; repeat split. }
    destruct Hw1 as (w1 & -> & Hf1 & Ht1).
    destruct (check_kali_linux_cases init w1) as [->|[e ->]].
    2:{ exists w1. split; [exact Hf1|]. split; [exact Ht1|].
        right. exists e. reflexivity. }
    rewrite Hf1.
    destruct (identifies_kali f) eqn:Hk; cbn [negb].
    2:{ eexists. split; [|split; [|left; reflexivity]]; assumption. }
    destruct (euid E =? 0)%Z eqn:He; cbn [negb].
    1:{ exfalso. apply Z.eqb_eq in He. destruct Hpre as [?|Hne]; [discriminate|].
        apply Hne, He. }
    eexists. split; [|split; [|left; reflexivity]]; assumption. }
  destruct Hrun as (w' & Hf & Ht & [->|[e ->]]); cbn [final].
  - repeat split; assumption.
  - rewrite Hf, Ht. repeat split. destruct e; reflexivity.
Qed.



(** C9, as amended.  With [check=False], [run_command] never returns
    [False], and for a command that can be started it returns [True] with
    the child's standard output whatever the exit status; so
    [get_tool_version] accepts the first probe whose standard output is
    not blank (non-empty once stripped), and
    [check_apt_package_installed] is the substring test on what [dpkg -l]
    printed. *)
Theorem unchecked_commands_report_success :
  (forall command w b o w',
     run_command E command false w = Ret (b, o) w' -> b = true) /\
  (forall cmd args w,
     which E (fs w) cmd = true ->
     exists w',
       run_command E (cmd :: args) false w =
       Ret (true, stdout (exec E (cmd :: args) (fs w))) w') /\
  (forall tool w,
     which E (fs w) tool = true ->
     exists w',
       get_tool_version E tool w =
       Ret (version_of <$>
              List.find (fun o => PyStr.truthy (PyStr.strip o))
                (probe_outputs E tool version_flags (fs w))) w') /\
  (forall package w,
     which E (fs w) "dpkg" = true ->
     exists w',
       check_apt_package_installed E package w =
       Ret (PyStr.contains package
              (stdout (exec E ["dpkg"; "-l"; package] (fs w)))) w').
Proof.
  split; [apply (run_command_unchecked_true E)|].
  split.
  { intros cmd args w Hw. eexists. apply (run_command_unchecked E), Hw. }
  split.
  { intros tool w Hw.
    destruct (get_tool_version_loop_order E tool version_flags w Hw)
      as (w1 & n & Hr & _). exists w1. exact Hr. }
  intros package w Hw. eexists. apply (check_apt_package_installed_spec E), Hw.
Qed.

End InstallerClaims.

(** * The claims on concrete runs *)
Section Instances.
Import Sys Scenario.

Lemma amass_fails_respects :
  Recon.respects_artifacts amass_fails (Recon.pipeline example).
Proof.
  intros argv f p c Hin _. cbn in Hin.
  apply in_map_iff in Hin as (q & Hq & Hin). injection Hq as <- _. exact Hin.
Qed.

Lemma obliging_respects :
  Recon.respects_artifacts obliging (Recon.pipeline example).
Proof.
  intros argv f p c Hin _. cbn in Hin.
  apply in_map_iff in Hin as (q & Hq & Hin). injection Hq as <- _. exact Hin.
Qed.

Lemma obliging_honours : Recon.honours_output obliging.
Proof.
  intros argv f p _ Hp. exists one_line. cbn.
  apply in_map_iff. exists p. split; [reflexivity|exact Hp].
Qed.

(** C1 on a run in which [amass], the second stage, returns 1. *)
Lemma failing_stage_aborts_the_run_witness :
  (Recon.main amass_fails example (boot recon_host)).1 = 1%Z /\
  Recon.stage_status (Recon.main amass_fails example (boot recon_host)).2 3 = None /\
  fs (Recon.main amass_fails example (boot recon_host)).2 !! "output/01_subfinder.txt" =
  fs (Recon.before_stage amass_fails example 2 (boot recon_host)) !! "output/01_subfinder.txt".
Proof.
  destruct (failing_stage_aborts_the_run amass_fails example recon_host 2 1)
    as (H1 & H2 & H3).
  - lia.
  - vm_compute. reflexivity.
  - lia.
  - split; [exact H1|]. split; [apply H2; lia|].
    apply (H3 amass_fails_respects 1); [lia|reflexivity].
Defined.

(** C3 on the first [ffuf] stage with a tool that writes no report: the
    block passes and logs a warning. *)
Lemma output_check_is_advisory_witness :
  Recon.run_stage quiet (Recon.pipeline example) (stage 18) (boot recon_host) =
    Ret true (final (Recon.run_stage quiet (Recon.pipeline example) (stage 18) (boot recon_host))) /\
  log (final (Recon.run_stage quiet (Recon.pipeline example) (stage 18) (boot recon_host))) =
    [(INFO, "[1/21] Running ffuf directory fuzzing...");
     (WARNING, "[!] output/17_ffuf_dirs.txt is empty or not created")].
Proof.
  assert (Hrun :
    Recon.run_stage quiet (Recon.pipeline example) (stage 18) (boot recon_host) =
    Ret true (final (Recon.run_stage quiet (Recon.pipeline example) (stage 18) (boot recon_host))))
    by (vm_compute; reflexivity).
  split; [exact Hrun|].
  destruct (output_check_is_advisory quiet example 18 (stage 18) (boot recon_host)
              true _ ltac:(lia) eq_refl Hrun) as (_ & Hfile & _ & _).
  destruct (Hfile eq_refl ltac:(lia)) as (p & Hp & Hlog).
  rewrite Hlog. vm_compute in Hp. injection Hp as <-.
  vm_compute. reflexivity.
Defined.

(** C7 on [localhost] and on [example.com]. *)
Lemma target_without_dot_is_rejected_witness :
  ((Recon.main quiet "localhost" (boot recon_host)).1 = 1%Z /\
   trace (Recon.main quiet "localhost" (boot recon_host)).2 = trace (boot recon_host) /\
   fs (Recon.main quiet "localhost" (boot recon_host)).2 = fs (boot recon_host)) /\
  Recon.main quiet example (boot recon_host) =
  exit_of "⚠️  Reconnaissance interrupted by user"
    (Recon.run_recon quiet (Recon.pipeline example) (set_step 0 (boot recon_host))).
Proof.
  split.
  - apply (proj1 (target_without_dot_is_rejected quiet "localhost" (boot recon_host))).
    reflexivity.
  - apply (proj2 (target_without_dot_is_rejected quiet example (boot recon_host))).
    reflexivity.
Defined.

(** C10 on stages 1 and 2, from the world in which stage 2 starts. *)
Lemma later_stage_leaves_earlier_artifacts_witness :
  exists ev,
    trace (final (Recon.run_stage obliging (Recon.pipeline example) (stage 2)
                    (Recon.before_stage obliging example 2 (boot recon_host)))) =
    trace (Recon.before_stage obliging example 2 (boot recon_host)) ++ ev /\
    ~ In (EvOpenW "output/01_subfinder.txt") ev /\
    fs (final (Recon.run_stage obliging (Recon.pipeline example) (stage 2)
                 (Recon.before_stage obliging example 2 (boot recon_host))))
      !! "output/01_subfinder.txt" = Some (File one_line).
Proof.
  destruct (later_stage_leaves_earlier_artifacts obliging example 1 2 (stage 2)
              "output/01_subfinder.txt"
              (Recon.before_stage obliging example 2 (boot recon_host)))
    as (ev & Ht & _ & Hn & Hf).
  - lia.
  - lia.
  - lia.
  - reflexivity.
  - reflexivity.
  - exists ev. split; [exact Ht|]. split; [exact Hn|].
    rewrite (Hf obliging_respects). vm_compute. reflexivity.
Defined.


(** C3, the claim as stated fails at stage 12: [gowitness] returns zero and
    leaves no manifest, the run goes on to exit status 0, and no line of
    the log is a warning. *)
Lemma missing_manifest_logs_no_warning :
  (Recon.main no_manifest example (boot recon_host)).1 = 0%Z /\
  Recon.stage_status (Recon.main no_manifest example (boot recon_host)).2 12 = Some 0%Z /\
  fs (Recon.main no_manifest example (boot recon_host)).2 !! "screenshots/gowitness.json" = None /\
  forallb (fun l => match l.1 with WARNING => false | _ => true end)
    (log (Recon.main no_manifest example (boot recon_host)).2) = true.
Proof. vm_compute. repeat split. Qed.



(** C5 on an Ubuntu host. *)
Lemma wrong_host_or_user_runs_nothing_witness :
  (Install.main fresh_kali false (boot ubuntu_host)).1 = 1%Z /\
  trace (Install.main fresh_kali false (boot ubuntu_host)).2 = [] /\
  fs (Install.main fresh_kali false (boot ubuntu_host)).2 = ubuntu_host.
Proof.
  apply (wrong_host_or_user_runs_nothing fresh_kali ubuntu_host false).
  left. vm_compute. reflexivity.
Defined.


(** C9 on the same tool, whose second probe returns 2, and on a [dpkg]
    that prints nothing. *)
Lemma unchecked_commands_report_success_witness :
  Install.run_command blank_then_version ["tool"; "-version"] false (boot probe_host) =
    Ret (true, "tool v1.2.3" +:+ String PyStr.LF "")
      (final (Install.run_command blank_then_version ["tool"; "-version"] false
                (boot probe_host))) /\
  returncode (exec blank_then_version ["tool"; "-version"] probe_host) = 2%Z /\
  (exists w', Install.get_tool_version blank_then_version "tool" (boot probe_host) =
              Ret (Some "v1.2.3") w') /\
  (exists w', Install.check_apt_package_installed blank_then_version "git" (boot probe_host) =
              Ret false w').
Proof.
  destruct (unchecked_commands_report_success blank_then_version)
    as (Htrue & Hrun & Hver & Hapt).
  assert (H1 : Install.run_command blank_then_version ["tool"; "-version"] false (boot probe_host) =
    Ret (true, "tool v1.2.3" +:+ String PyStr.LF "")
      (final (Install.run_command blank_then_version ["tool"; "-version"] false
                (boot probe_host)))).
  { destruct (Hrun "tool" ["-version"] (boot probe_host)) as [w' Hw'].
    - vm_compute. reflexivity.
    - rewrite Hw'. reflexivity. }
  pose proof (Htrue _ _ _ _ _ H1) as _.
  split; [exact H1|]. split; [reflexivity|].
  split.
  - destruct (Hver "tool" (boot probe_host)) as [w' Hw'].
    + vm_compute. reflexivity.
    + exists w'. rewrite Hw'. f_equal.
  - destruct (Hapt "git" (boot probe_host)) as [w' Hw'].
    + vm_compute. reflexivity.
    + exists w'. rewrite Hw'. f_equal.
Defined.


(** C9, the claim as stated fails on blank output: the first probe prints
    a non-empty string (one newline) and is passed over; the second probe
    is the one accepted. *)
Lemma blank_output_is_not_accepted :
  exists w',
    Install.get_tool_version blank_then_version "tool" (boot probe_host) =
      Ret (Some "v1.2.3") w' /\
    commands (trace w') = [["tool"; "--version"]; ["tool"; "-version"]] /\
    stdout (exec blank_then_version ["tool"; "--version"] probe_host) <> "" /\
    returncode (exec blank_then_version ["tool"; "--version"] probe_host) = 0%Z.
Proof.
  eexists. vm_compute. split; [reflexivity|]. split; [reflexivity|].
  split; [discriminate|reflexivity].
Qed.

(** C6, where the code goes wrong.  On a fresh Kali host, as root and
    without [--force], every step up to the Go tools passes; the presence
    probe of the first tool then raises [FileNotFoundError] because
    [subfinder] is not on the search path yet, [main] reports an
    unexpected error and exits with status 1, and no [go install]
    command has been run. *)
Theorem absent_tool_is_never_installed :
  (Install.main fresh_kali false (boot kali_host)).1 = 1%Z /\
  commands (trace (Install.main fresh_kali false (boot kali_host)).2) =
    [["apt"; "update"]; ["apt"; "upgrade"; "-y"];
     ["dpkg"; "-l"; "golang-go"]; ["dpkg"; "-l"; "git"];
     ["dpkg"; "-l"; "curl"]; ["dpkg"; "-l"; "jq"];
     ["dpkg"; "-l"; "python3-pip"]; ["dpkg"; "-l"; "chromium"];
     ["dpkg"; "-l"; "build-essential"]; ["dpkg"; "-l"; "pkg-config"];
     ["go"; "version"]] /\
  last (log (Install.main fresh_kali false (boot kali_host)).2) =
    Some (ERROR, "Unexpected error: [Errno 2] No such file or directory: 'subfinder'") /\
  which fresh_kali kali_host "subfinder" = false.
Proof. vm_compute. repeat split. Qed.

End Instances.

(** * Further properties of the runner *)
Section RunnerProperties.
Import Sys Recon.
Variable E : Env.

Lemma check_tools_loop_spec tools : forall missing w,
  check_tools_loop E tools missing w =
  Ret (missing ++ List.filter (fun t => negb (which E (fs w) t)) tools)
      (mkWorld (fs w) (trace w)
         (log w ++ map (fun t => (INFO, "[✓] " +:+ t +:+ " found"))
                     (List.filter (which E (fs w)) tools))
         (current_step w)).
Proof.
  induction tools as [|tool tools IH]; intros missing w.
  - cbn. rewrite !app_nil_r. destruct w; reflexivity.
  - cbn [check_tools_loop List.filter].
    destruct (which E (fs w) tool) eqn:Hw; cbn [negb].
    + mrun. rewrite IH. cbn. rewrite <- app_assoc. reflexivity.
    + rewrite IH. rewrite <- app_assoc. reflexivity.
Qed.

Lemma forallb_filter_negb {A} (f : A -> bool) l :
  forallb f l =
  match List.filter (fun x => negb (f x)) l with [] => true | _ => false end.
Proof.
  induction l as [|x l IH]; [reflexivity|].
  cbn. destruct (f x); cbn; [exact IH|reflexivity].
Qed.

Lemma check_tools_result self w :
  exists w',
    check_tools E self w = Ret (forallb (which E (fs w)) (required_tools self)) w' /\
    fs w' = fs w /\ trace w' = trace w /\ current_step w' = current_step w.
Proof.
  unfold check_tools. unfold mbind at 1, M_bind at 1, logger at 1.
  unfold mbind at 1, M_bind at 1. rewrite check_tools_loop_spec.
  cbn [app fs add_log trace log current_step].
  rewrite forallb_filter_negb.
  destruct (List.filter (fun t => negb (which E (fs w) t)) (required_tools self));
    mrun; eexists; repeat split.
Qed.

(** X1.  [check_tools] returns whether every required tool is on the
    search path.  It starts no process and changes no file; it logs one
    line for each tool found and then either the line that all are
    available or, at level ERROR, the list of the missing tools in table
    order and the advice to run the installer. *)
Theorem check_tools_lists_what_is_missing self w :
  let present := List.filter (which E (fs w)) (required_tools self) in
  let missing := List.filter (fun t => negb (which E (fs w) t)) (required_tools self) in
  exists w',
    check_tools E self w = Ret (forallb (which E (fs w)) (required_tools self)) w' /\
    fs w' = fs w /\ trace w' = trace w /\ current_step w' = current_step w /\
    log w' =
      log w ++ [(INFO, "[+] Checking required tools...")] ++
      map (fun t => (INFO, "[✓] " +:+ t +:+ " found")) present ++
      match missing with
      | [] => [(INFO, "[✓] All required tools are available")]
      | _ :: _ =>
          [(ERROR, "❌ Missing required tools: " +:+ PyStr.join ", " missing);
           (ERROR, "Please run install.py first to install all required tools.")]
      end.
Proof.
  cbn zeta. unfold check_tools. unfold mbind at 1, M_bind at 1, logger at 1.
  unfold mbind at 1, M_bind at 1. rewrite check_tools_loop_spec.
  cbn [app fs add_log trace log current_step].
  rewrite forallb_filter_negb.
  destruct (List.filter (fun t => negb (which E (fs w) t)) (required_tools self));
    mrun; eexists; (split; [reflexivity|]); cbn;
    repeat split; rewrite <- ?app_assoc; reflexivity.
Qed.


(** X2.  When one of the required tools is not on the search path, [main]
    exits with status 1 before anything else happens: no directory is
    made, no file is opened, no process is started. *)
Theorem missing_tool_stops_the_run_at_once target f tool :
  In tool (required_tools (pipeline target)) ->
  which E f tool = false ->
  (main E target (boot f)).1 = 1%Z /\
  trace (main E target (boot f)).2 = [] /\
  fs (main E target (boot f)).2 = f.
Proof.
  intros Hin Hw.
  destruct (PyStr.contains "." target) eqn:Hdot.
  2:{ rewrite (main_invalid _ _ _ Hdot). repeat split. }
  rewrite (main_valid _ _ _ Hdot).
  change (set_step 0 (boot f)) with (boot f).
  destruct (check_tools_result (pipeline target)
              (add_log INFO ("🚀 Starting reconnaissance on: " +:+
                             Recon.target (pipeline target)) (boot f)))
    as (w' & Hr & Hf & Ht & _).
  assert (Hall : forallb (which E f) (required_tools (pipeline target)) = false).
  { apply not_true_is_false. intros Hall.
    rewrite forallb_forall in Hall. rewrite (Hall tool Hin) in Hw. discriminate. }
  cbn [fs add_log boot] in Hr. rewrite Hall in Hr.
  assert (Hrun : run_recon E (pipeline target) (boot f) = Ret false w').
  { rewrite run_recon_table. unfold preflight, mbind, M_bind, logger.
    rewrite Hr. reflexivity. }
  rewrite Hrun. cbn. repeat split; assumption.
Qed.

Lemma is_file_insert_dir (f : gmap string Node) p : is_file (<[p := Dir]> f) p = false.
Proof. unfold is_file. rewrite lookup_insert_eq. reflexivity. Qed.

Lemma is_file_insert_ne (f : gmap string Node) p q n :
  p <> q -> is_file (<[p := n]> f) q = is_file f q.
Proof. intros Hne. unfold is_file. rewrite lookup_insert_ne by exact Hne. reflexivity. Qed.

Lemma mkdir_p_unfold p ps w :
  path_prefixes "" true (PyStr.split "/" p) = ps ->
  mkdir_p p w =
  match List.find (is_file (fs w)) ps with
  | Some q => Raise (FileExistsError q) w
  | None =>
      Ret tt (emit (EvMkdir p)
                (set_fs (fold_left (fun f q => <[q := Dir]> f) ps (fs w)) w))
  end.
Proof. intros <-. reflexivity. Qed.


(** *** The progress counter *)

Lemma create_directories_loop_step dirs : forall w,
  current_step (final (create_directories_loop dirs w)) = current_step w.
Proof.
  induction dirs as [|d dirs IH]; intros w; [reflexivity|].
  cbn [create_directories_loop]. unfold mbind, M_bind, try_except, logger, mret, M_ret.
  unfold mkdir_p. destruct (List.find _ _); cbn; [reflexivity|].
  rewrite IH. reflexivity.
Qed.

Lemma preflight_step self w :
  current_step (final (preflight E self (mret true) w)) = current_step w.
Proof.
  unfold preflight. unfold mbind at 1, M_bind at 1, logger at 1.
  unfold mbind at 1, M_bind at 1.
  destruct (check_tools_result self
              (add_log INFO ("🚀 Starting reconnaissance on: " +:+ target self) w))
    as (w1 & Hr & _ & _ & Hs).
  rewrite Hr. destruct (forallb _ _); cbn [negb]; [|exact Hs].
  unfold create_directories. unfold mbind, M_bind, logger, mret, M_ret.
  pose proof (create_directories_loop_step
                [output_dir self; screenshots_dir self; js_out_dir self]
                (add_log INFO "[+] Creating directories..." w1)) as Hd.
  destruct (create_directories_loop _ _) as [[|] w2|e w2]; cbn in Hd |- *;
    rewrite Hd; exact Hs.
Qed.

Lemma step_ran_world self st w :
  current_step (ran_world E self st w) = S (current_step w).
Proof.
  unfold ran_world, opened_world, stepped.
  destruct (returncode _ =? 0)%Z; destruct (redirect_of st); reflexivity.
Qed.

Lemma step_run_stage self st w :
  current_step (final (run_stage E self st w)) = S (current_step w).
Proof.
  destruct (run_stage_cases E self st w) as [[e He]|[_ [[e He]|He]]];
    rewrite He; cbn [final].
  - reflexivity.
  - unfold opened_world. destruct (redirect_of st); reflexivity.
  - apply step_ran_world.
Qed.

Lemma step_run_block self l : forall w w',
  run_block E self l w = Ret true w' ->
  current_step w' = current_step w + length l.
Proof.
  induction l as [|st l IH]; intros w w' Hrun.
  - injection Hrun as <-. cbn. lia.
  - cbn [run_block fold_right] in Hrun. rewrite stage_then_run_stage in Hrun.
    pose proof (step_run_stage self st w) as Hs.
    destruct (run_stage E self st w) as [[|] w1|e w1]; try discriminate Hrun.
    cbn [final] in Hs. rewrite (IH _ _ Hrun), Hs. cbn. lia.
Qed.

Lemma exit_of_step m r : current_step (exit_of m r).2 = current_step (final r).
Proof. destruct r as [[|] w|[] w]; reflexivity. Qed.

(** X4.  The progress counter of a run counts the stages begun: it
    never exceeds [total_steps] (21), it is at least the number of
    children that ran, and it is 21 when [main] exits with status 0. *)
Theorem progress_counter_counts_stages target f :
  current_step (main E target (boot f)).2 <= total_steps (pipeline target) /\
  length (statuses (trace (main E target (boot f)).2)) <=
    current_step (main E target (boot f)).2 /\
  ((main E target (boot f)).1 = 0%Z ->
   current_step (main E target (boot f)).2 = 21).
Proof.
  change (total_steps (pipeline target)) with 21.
  destruct (PyStr.contains "." target) eqn:Hdot.
  2:{ rewrite (main_invalid _ _ _ Hdot). cbn. repeat split; try lia; discriminate. }
  rewrite (main_valid _ _ _ Hdot).
  change (set_step 0 (boot f)) with (boot f).
  rewrite exit_of_step, exit_of_trace.
  rewrite run_recon_table, preflight_bind.
  pose proof (preflight_step (pipeline target) (boot f)) as Hp.
  destruct (preflight_spec E (pipeline target) (boot f)) as (r & Hr & Hs & _ & _).
  rewrite Hr in Hp |- *. cbn [boot current_step trace] in Hp, Hs.
  change (statuses []) with (@nil Z) in Hs.
  destruct r as [[|] w1|e w1]; cbn [final] in Hp, Hs |- *.
  2,3: rewrite Hs, Hp; cbn; repeat split; try lia;
       try (destruct e; discriminate); discriminate.
  rewrite run_stages_block.
  destruct (run_block_cases E (pipeline target) (stages (pipeline target)) w1)
    as [(w2 & Hw2 & Htr)|(l1 & st & l2 & wk & Hl & Hb & Htr & Hrun & Hne)].
  - rewrite Hw2. cbn [final completed add_log current_step trace].
    rewrite (step_run_block _ _ _ _ Hw2), Hp, Htr, statuses_app, Hs,
      statuses_passed, stages_length.
    cbn. repeat split; lia.
  - rewrite Hrun.
    assert (Hlen : length l1 < 21).
    { pose proof (stages_length target) as H. rewrite Hl, length_app in H.
      cbn in H. lia. }
    assert (Hfin : final (match run_stage E (pipeline target) st wk with
                          | Ret true w2 => Ret true (completed w2)
                          | Ret false w2 => Ret false w2
                          | Raise e w2 => Raise e w2
                          end) = final (run_stage E (pipeline target) st wk)).
    { destruct (run_stage E (pipeline target) st wk) as [[|] w2|e w2];
        try reflexivity. exfalso. eapply Hne. reflexivity. }
    rewrite Hfin, step_run_stage, (step_run_block _ _ _ _ Hb), Hp.
    split; [cbn; lia|]. split.
    + destruct (run_stage_stopped E _ st wk Hne)
        as [(e & w' & He & Hst)|[He Hrc]]; rewrite He; cbn [final].
      * rewrite Hst, Htr, statuses_app, Hs, statuses_passed. cbn [app].
        rewrite length_replicate. lia.
      * rewrite trace_ran_world, Htr, !statuses_app, Hs, statuses_passed,
          statuses_stage_events. cbn [app].
        rewrite length_app, length_replicate. cbn. lia.
    + intros H0. exfalso.
      destruct (run_stage E (pipeline target) st wk) as [[|] w2|e w2] eqn:He.
      * eapply Hne. reflexivity.
      * discriminate H0.
      * destruct e; discriminate H0.
Qed.

(** X5.  A shell stage opens its output file before it starts [bash].
    When [bash] is not on the search path (the pre-flight checks do not
    look for it), [run_shell_command] raises [FileNotFoundError], which it
    does not catch, and the output file is left empty, whatever it held
    before; no other file changes and no process runs. *)
Theorem shell_stage_without_bash_empties_its_output self command p w :
  PyStr.truthy p = true ->
  is_dir (fs w) p = false ->
  parent_ok (fs w) p = true ->
  which E (<[p := File ""]> (fs w)) "bash" = false ->
  exists w',
    run_shell_command E self command (Some p) w = Raise (FileNotFoundError "bash") w' /\
    fs w' !! p = Some (File "") /\
    (forall q, q <> p -> fs w' !! q = fs w !! q) /\
    commands (trace w') = commands (trace w).
Proof.
  intros Hp Hd Hpar Hw.
  unfold run_shell_command, given. rewrite Hp.
  unfold open_w, subprocess_run. mrun. rewrite Hd, Hpar. mrun. rewrite Hw. mrun.
  eexists. split; [reflexivity|]. cbn. split; [apply lookup_insert_eq|].
  split; [intros q Hq; apply lookup_insert_ne; congruence|].
  rewrite commands_app. apply app_nil_r.
Qed.

(** X6.  The target reaches the tools as an argument only: the progress
    names, the failure labels, the files checked and opened, and the text
    of every shell command are the same for all targets, and a command
    stage keeps its program and the number of its arguments. *)
Theorem target_is_only_an_argument t1 t2 i st1 st2 :
  stages (pipeline t1) !! i = Some st1 ->
  stages (pipeline t2) !! i = Some st2 ->
  step_name st1 = step_name st2 /\
  failure st1 = failure st2 /\
  after st1 = after st2 /\
  redirect_of st1 = redirect_of st2 /\
  match invocation st1, invocation st2 with
  | Shell c1 o1, Shell c2 o2 => c1 = c2 /\ o1 = o2
  | Command a1 o1, Command a2 o2 =>
      head a1 = head a2 /\ length a1 = length a2 /\ o1 = o2
  | _, _ => False
  end.
Proof.
  intros H1 H2.
  do 21 (destruct i as [|i];
    [ injection H1 as <-; injection H2 as <-; repeat split | ]).
  discriminate.
Qed.

(** X8.  No stage reads an artifact that a later stage produces: an
    artifact named among the input files of stage [i] (after [-l],
    [-list], [-w] or [-f], or in the text of a shell command) is the
    artifact of a stage before [i]. *)
Theorem stages_read_only_earlier_artifacts target i j st p :
  stages (pipeline target) !! i = Some st ->
  artifacts (pipeline target) !! j = Some p ->
  reads st p = true ->
  j < i.
Proof.
  intros Hst Hp Hr. rewrite artifacts_eq in Hp.
  do 21 (destruct i as [|i];
    [ injection Hst as <-;
      unfold reads, input_args in Hr; cbn in Hr;
      repeat match type of Hr with
             | context [String.eqb target ?l] =>
                 destruct (String.eqb target l); cbn in Hr
             end;
      do 21 (destruct j as [|j];
        [ injection Hp as <-; first [discriminate Hr | lia] | ]);
      discriminate Hp
    | ]).
  discriminate.
Qed.
Lemma opened_stage_events st rc :
  opened (stage_events st rc) =
  match redirect_of st with Some p => [p] | None => [] end.
Proof. unfold stage_events. destruct (redirect_of st); reflexivity. Qed.

Lemma omap_cons_eq {A B} (g : A -> option B) x l :
  omap g (x :: l) =
  match g x with Some y => y :: omap g l | None => omap g l end.
Proof. reflexivity. Qed.

Lemma length_omap_le {A B} (g : A -> option B) l :
  length (omap g l) <= length l.
Proof.
  induction l as [|x l IH]; [reflexivity|].
  rewrite omap_cons_eq. destruct (g x); cbn [length]; lia.
Qed.

Lemma opened_passed l : opened (passed l) = omap redirect_of l.
Proof.
  induction l as [|st l IH]; [reflexivity|].
  cbn [passed flat_map]. rewrite opened_app. fold (passed l).
  rewrite IH, opened_stage_events, omap_cons_eq.
  destruct (redirect_of st); reflexivity.
Qed.

(** X7.  Whatever the tools do and however the run ends, the commands
    that were started are the commands of the stage table, in its order,
    up to the point the run reached, and the files the runner opened for
    writing are the first of its 18 own artifacts, in order: it never
    starts a command or opens a path that is not in the table. *)
Theorem run_follows_the_stage_table target f :
  commands (trace (main E target (boot f)).2) `prefix_of`
    map argv_of (stages (pipeline target)) /\
  opened (trace (main E target (boot f)).2) `prefix_of` runner_written /\
  length (opened (trace (main E target (boot f)).2)) <=
    length (commands (trace (main E target (boot f)).2)) + 1.
Proof.
  destruct (PyStr.contains "." target) eqn:Hdot.
  2:{ rewrite (main_invalid _ _ _ Hdot). cbn [snd boot trace].
      repeat split; [apply prefix_nil|apply prefix_nil|cbn; lia]. }
  rewrite (main_valid _ _ _ Hdot).
  change (set_step 0 (boot f)) with (boot f).
  rewrite exit_of_trace.
  assert (Hpre1 : forall w1,
    preflight E (pipeline target) (mret true) (boot f) = Ret true w1 ->
    commands (trace w1) = [] /\ opened (trace w1) = []).
  { intros w1 Hpre.
    destruct (preflight_spec E (pipeline target) (boot f)) as (r & Hr & _ & _ & Hok).
    rewrite Hpre in Hr. subst r. destruct (Hok w1 eq_refl) as [-> _].
    split; [apply commands_mkdirs|apply opened_mkdirs]. }
  rewrite <- (redirects_of_stages target).
  destruct (run_recon_shape E (pipeline target) (boot f))
    as [r Hne Hs Ho|w1 w2 Hpre Hblock Htr|w1 l1 st l2 wk Hpre Hl Hblock Htr Hne].
  - assert (Hc : length (commands (trace (final r))) = length (statuses (trace (final r)))).
    { unfold commands, statuses. generalize (trace (final r)).
      induction l as [|[]]; cbn; auto. }
    rewrite Hs in Hc. rewrite Ho. cbn [boot trace opened omap statuses] in *.
    destruct (commands (trace (final r))); [|discriminate Hc].
    repeat split; [apply prefix_nil|apply prefix_nil|cbn; lia].
  - cbn [final completed add_log trace].
    destruct (Hpre1 _ Hpre) as [Hc1 Ho1].
    rewrite Htr, commands_app, opened_app, commands_passed, opened_passed, Hc1, Ho1.
    cbn [app]. repeat split; [reflexivity|reflexivity|].
    rewrite length_map. pose proof (length_omap_le redirect_of (stages (pipeline target))).
    lia.
  - destruct (Hpre1 _ Hpre) as [Hc1 Ho1].
    assert (Hk : commands (trace wk) = map argv_of l1).
    { rewrite Htr, commands_app, commands_passed, Hc1. reflexivity. }
    assert (Hko : opened (trace wk) = omap redirect_of l1).
    { rewrite Htr, opened_app, opened_passed, Ho1. reflexivity. }
    pose proof (length_omap_le redirect_of l1) as Hlen.
    rewrite Hl, map_app, omap_app, omap_cons_eq. cbn [map].
    destruct (run_stage_cases E (pipeline target) st wk) as [[e He]|[_ [[e He]|He]]];
      rewrite He; cbn [final].
    + rewrite trace_stepped, Hk, Hko, length_map.
      split; [apply prefix_app_r; reflexivity|].
      split; [apply prefix_app_r; reflexivity|lia].
    + rewrite trace_opened_world, trace_stepped, commands_app, opened_app, Hk, Hko.
      destruct (redirect_of st) as [p|].
      * change (commands [EvOpenW p]) with (@nil (list string)).
        change (opened [EvOpenW p]) with [p].
        rewrite app_nil_r, length_app, length_map. cbn [length].
        split; [apply prefix_app_r; reflexivity|].
        split; [apply prefix_app, prefix_cons, prefix_nil|lia].
      * change (commands []) with (@nil (list string)).
        change (opened []) with (@nil string).
        rewrite !app_nil_r, length_map.
        split; [apply prefix_app_r; reflexivity|].
        split; [apply prefix_app_r; reflexivity|lia].
    + rewrite trace_ran_world, commands_app, opened_app, commands_stage_events,
        opened_stage_events, Hk, Hko.
      rewrite !length_app, length_map. cbn [length].
      split; [apply prefix_app, prefix_cons, prefix_nil|].
      destruct (redirect_of st) as [p|].
      * split; [apply prefix_app, prefix_cons, prefix_nil|cbn [length]; lia].
      * rewrite app_nil_r.
        split; [apply prefix_app_r; reflexivity|cbn [length]; lia].
Qed.
End RunnerProperties.

(** * Further properties: the version text of the installer *)
Section VersionText.
Import PyStr Install.

Lemma append_cons c (a b : string) : String c a +:+ b = String c (a +:+ b).
Proof. reflexivity. Qed.

Lemma append_nil (b : string) : "" +:+ b = b.
Proof. reflexivity. Qed.

Lemma append_empty_r (s : string) : s +:+ "" = s.
Proof.
  induction s as [|c s IH]; [reflexivity|]. rewrite append_cons, IH. reflexivity.
Qed.

Lemma append_assoc (a b c : string) : (a +:+ b) +:+ c = a +:+ (b +:+ c).
Proof.
  induction a as [|x a IH]; [reflexivity|]. rewrite !append_cons, IH. reflexivity.
Qed.

Lemma length_append (a b : string) :
  String.length (a +:+ b) = String.length a + String.length b.
Proof.
  induction a as [|x a IH]; [reflexivity|]. rewrite append_cons. cbn.
  rewrite IH. reflexivity.
Qed.

Lemma prefix_append (m r : string) : String.prefix m (m +:+ r) = true.
Proof.
  induction m as [|c m IH]; [destruct r; reflexivity|].
  rewrite append_cons. cbn. destruct (ascii_dec c c); [exact IH|congruence].
Qed.

Lemma contains_prefix (m s : string) :
  String.prefix m s = true -> contains m s = true.
Proof. intros H. destruct s; cbn [contains]; rewrite H; reflexivity. Qed.

Lemma contains_tail (m : string) c s :
  contains m s = true -> contains m (String c s) = true.
Proof. intros H. cbn [contains]. rewrite H. apply orb_true_r. Qed.

Lemma span_digits_spec s :
  s = (span_digits s).1 +:+ (span_digits s).2 /\
  all_digits (span_digits s).1 = true.
Proof.
  induction s as [|c s [IH1 IH2]]; [split; reflexivity|].
  cbn. destruct (isdigit c) eqn:Hc; [|split; reflexivity].
  destruct (span_digits s) as [d r]. cbn in *. rewrite Hc, IH2.
  split; [rewrite append_cons; f_equal; exact IH1|reflexivity].
Qed.

Lemma leading_v_spec (s : string) :
  let vs := match s with
            | String "v"%char r => ("v", r)
            | _ => (EmptyString, s)
            end in
  s = vs.1 +:+ vs.2 /\ (vs.1 = "" \/ vs.1 = "v").
Proof.
  destruct s as [|c r]; [split; [reflexivity|left; reflexivity]|].
  destruct c as [[] [] [] [] [] [] [] []]; cbn; split; auto.
Qed.

(** The shape of a match of the version pattern anchored at the start of
    [s]: an optional [v], digits, a dot, digits, and optionally a dot
    with further digits; it is a prefix of [s]. *)
Lemma re_version_at_shape s m :
  re_version_at s = Some m ->
  exists v d1 d2 tail r,
    m = v +:+ d1 +:+ "." +:+ d2 +:+ tail /\ s = m +:+ r /\
    (v = "" \/ v = "v") /\
    is_empty d1 = false /\ all_digits d1 = true /\
    is_empty d2 = false /\ all_digits d2 = true /\
    (tail = "" \/ exists d3, tail = "." +:+ d3 /\ all_digits d3 = true).
Proof.
  unfold re_version_at.
  pose proof (leading_v_spec s) as Hv. cbn zeta in Hv.
  destruct (match s with
            | String "v"%char r => ("v", r)
            | _ => (EmptyString, s)
            end) as [v s1].
  cbn [fst snd] in Hv. destruct Hv as [Hs Hv].
  pose proof (span_digits_spec s1) as [H1 D1].
  destruct (span_digits s1) as [d1 r1]. cbn [fst snd] in H1, D1.
  destruct (is_empty d1) eqn:E1; [discriminate|].
  destruct r1 as [|c1 r2]; [discriminate|].
  destruct (Ascii.eqb c1 ".") eqn:Ec.
  2:{ intros H. exfalso. revert H.
      destruct c1 as [[] [] [] [] [] [] [] []]; try discriminate; discriminate Ec. }
  apply Ascii.eqb_eq in Ec. subst c1.
  pose proof (span_digits_spec r2) as [H2 D2].
  destruct (span_digits r2) as [d2 r3]. cbn [fst snd] in H2, D2.
  destruct (is_empty d2) eqn:E2; [discriminate|].
  assert (Hdot : forall r4,
    r3 = String "." r4 ->
    forall d3 r5, span_digits r4 = (d3, r5) ->
    r4 = d3 +:+ r5 /\ all_digits d3 = true).
  { intros r4 _ d3 r5 H. pose proof (span_digits_spec r4) as [Ha Hb].
    rewrite H in Ha, Hb. auto. }
  destruct r3 as [|c3 r4].
  - intros [= <-]. exists v, d1, d2, "", "".
    rewrite !append_empty_r. repeat split; auto.
    rewrite Hs, H1, H2, append_empty_r. reflexivity.
  - destruct (Ascii.eqb c3 ".") eqn:Ec3.
    + apply Ascii.eqb_eq in Ec3. subst c3.
      destruct (span_digits r4) as [d3 r5] eqn:H3.
      destruct (Hdot r4 eq_refl d3 r5 H3) as [H4 D3].
      intros [= <-]. exists v, d1, d2, ("." +:+ d3), r5.
      repeat split; auto.
      * rewrite Hs, H1, H2, H4.
        rewrite ?append_assoc, ?append_cons, ?append_nil. reflexivity.
      * right. exists d3. auto.
    + intros H. assert (Hm : m = v +:+ d1 +:+ "." +:+ d2).
      { revert H. destruct c3 as [[] [] [] [] [] [] [] []];
          try (intros [= <-]; reflexivity); discriminate Ec3. }
      subst m. exists v, d1, d2, "", (String c3 r4).
      rewrite !append_empty_r. repeat split; auto.
      rewrite Hs, H1, H2.
      rewrite ?append_assoc, ?append_cons, ?append_nil. reflexivity.
Qed.

Lemma is_empty_append (a b : string) :
  is_empty (a +:+ b) = is_empty a && is_empty b.
Proof. destruct a; reflexivity. Qed.

Lemma re_version_at_prefix s m :
  re_version_at s = Some m -> String.prefix m s = true.
Proof.
  intros H. apply re_version_at_shape in H as (v & d1 & d2 & tail & r & _ & Hs & _).
  rewrite Hs. apply prefix_append.
Qed.

Lemma re_search_version_cases s m :
  re_search_version s = Some m ->
  exists before rest,
    s = before +:+ rest /\ re_version_at rest = Some m /\ contains m s = true.
Proof.
  induction s as [|c s IH].
  - cbn [re_search_version]. destruct (re_version_at "") eqn:Hat; [|discriminate].
    intros [= <-]. exists "", "". split; [reflexivity|]. split; [exact Hat|].
    apply contains_prefix, re_version_at_prefix, Hat.
  - cbn [re_search_version]. destruct (re_version_at (String c s)) eqn:Hat.
    + intros [= <-]. exists "", (String c s). split; [reflexivity|].
      split; [exact Hat|]. apply contains_prefix, re_version_at_prefix, Hat.
    + intros H. destruct (IH H) as (before & rest & Hs & Hr & Hc).
      exists (String c before), rest. rewrite append_cons, <- Hs.
      split; [reflexivity|]. split; [exact Hr|]. apply contains_tail, Hc.
Qed.

Lemma length_take n (s : string) : String.length (take n s) <= n.
Proof.
  revert s. induction n as [|n IH]; intros [|c s]; cbn; try lia.
  specialize (IH s). lia.
Qed.

Lemma first_version_cases (lines : list string) (m : string) :
  first_version lines = Some m ->
  exists before line after,
    lines = before ++ line :: after /\
    first_version before = None /\
    (contains "version" (lower line) || contains "v" line) = true /\
    re_search_version line = Some m.
Proof.
  induction lines as [|line rest IH]; [discriminate|].
  cbn [first_version].
  destruct (contains "version" (lower line) || contains "v" line) eqn:Hk.
  - destruct (re_search_version line) as [m'|] eqn:Hre.
    + intros [= <-]. exists [], line, rest. auto.
    + intros H. destruct (IH H) as (before & l & after & -> & Hb & Hl & Hm).
      exists (line :: before), l, after. split; [reflexivity|].
      split; [|auto]. cbn [first_version]. rewrite Hk, Hre. exact Hb.
  - intros H. destruct (IH H) as (before & l & after & -> & Hb & Hl & Hm).
    exists (line :: before), l, after. split; [reflexivity|].
    split; [|auto]. cbn [first_version]. rewrite Hk. exact Hb.
Qed.

(** X9. A version that [get_tool_version] extracts with its pattern comes
    from the first line of the output that mentions a version (it contains
    [version] in any case, or a [v]) and has a match; it is a piece of
    that line, and it reads: an optional [v], one or more digits, a dot,
    one or more digits, and possibly a further dot with any digits after
    it. *)
Theorem extracted_version_is_a_numbered_piece_of_a_line
    (lines : list string) (m : string) :
  first_version lines = Some m ->
  exists before line after,
    lines = before ++ line :: after /\
    first_version before = None /\
    (contains "version" (lower line) || contains "v" line) = true /\
    contains m line = true /\
    exists v d1 d2 tail,
      m = v +:+ d1 +:+ "." +:+ d2 +:+ tail /\
      (v = "" \/ v = "v") /\
      truthy d1 = true /\ all_digits d1 = true /\
      truthy d2 = true /\ all_digits d2 = true /\
      (tail = "" \/ exists d3, tail = "." +:+ d3 /\ all_digits d3 = true).
Proof.
  intros H.
  destruct (first_version_cases lines m H) as (before & line & after & Hl & Hb & Hk & Hm).
  exists before, line, after. repeat (split; [assumption|]).
  destruct (re_search_version_cases line m Hm) as (b & rest & _ & Hat & Hc).
  split; [exact Hc|].
  destruct (re_version_at_shape rest m Hat)
    as (v & d1 & d2 & tail & r & Hshape & _ & Hv & E1 & D1 & E2 & D2 & Ht).
  exists v, d1, d2, tail. unfold truthy. rewrite E1, E2. auto 10.
Qed.

(** X10. Whatever a probe printed, once [get_tool_version] accepts it (it
    is not blank) the version returned is not the empty string, so the
    callers' test of the result never mistakes an answer for no answer; and
    when no line has a match, what is returned is the stripped output cut to
    50 characters with three dots appended, at most 53 characters. *)
Theorem accepted_output_gives_a_short_nonempty_version (output : string) :
  accepted output = true ->
  truthy (version_of output) = true /\
  (first_version (split LF (strip output)) = None ->
   version_of output = shorten output /\
   String.length (version_of output) <= 53 /\
   (String.length (strip output) <= 50 -> version_of output = strip output)).
Proof.
  unfold accepted, version_of. intros Hacc.
  assert (Hshort : truthy (shorten output) = true /\
                   String.length (shorten output) <= 53 /\
                   (String.length (strip output) <= 50 -> shorten output = strip output)).
  { unfold shorten. cbn zeta.
    destruct (50 <? String.length (strip output))%nat eqn:Hlen.
    - apply Nat.ltb_lt in Hlen. unfold truthy. rewrite is_empty_append.
      rewrite andb_false_r. split; [reflexivity|]. split; [|lia].
      rewrite length_append. pose proof (length_take 50 (strip output)).
      change (String.length "...") with 3. lia.
    - apply Nat.ltb_ge in Hlen. split; [exact Hacc|]. split; [lia|reflexivity]. }
  destruct (first_version (split LF (strip output))) as [m|] eqn:Hfv.
  - split; [|discriminate].
    destruct (first_version_cases _ _ Hfv) as (_ & line & _ & _ & _ & _ & Hm).
    destruct (re_search_version_cases line m Hm) as (_ & rest & _ & Hat & _).
    destruct (re_version_at_shape rest m Hat)
      as (v & d1 & d2 & tail & r & -> & _ & _ & E1 & _).
    unfold truthy. rewrite !is_empty_append, E1, andb_false_r. reflexivity.
  - split; [tauto|]. intros _. split; [reflexivity|]. tauto.
Qed.
End VersionText.

(** * Further properties of the installer *)
Section InstallerProperties.
Import Sys Install.
Variable E : Env.

Lemma missing_packages_loop_spec packages : forall acc w,
  which E (fs w) "dpkg" = true ->
  exists w',
    missing_packages_loop E packages acc w =
      Ret (acc ++ (probe_packages E packages (fs w)).1) w' /\
    fs w' = (probe_packages E packages (fs w)).2 /\
    commands (trace w') =
      commands (trace w) ++ map (fun p => ["dpkg"; "-l"; p]) packages.
Proof.
  induction packages as [|p rest IH]; intros acc w Hw.
  - exists w. cbn. rewrite !app_nil_r. auto.
  - cbn [missing_packages_loop probe_packages]. unfold mbind, M_bind.
    rewrite check_apt_package_installed_spec by exact Hw.
    set (r := exec E ["dpkg"; "-l"; p] (fs w)).
    destruct (probe_packages E rest (apply_writes (writes r) (fs w))) as [m f'] eqn:Hp.
    destruct (PyStr.contains p (stdout r)) eqn:Hc; cbn [negb fst snd]; unfold logger.
    + match goal with |- context [missing_packages_loop E rest acc ?w1] =>
        destruct (IH acc w1) as (w' & Hr & Hf & Hc') end.
      { cbn. apply which_apply_writes, Hw. }
      cbn [fs trace set_fs emit add_log] in Hr, Hf, Hc'. fold r in Hr, Hf, Hc'.
      rewrite Hp in Hr, Hf. exists w'. split; [exact Hr|]. split; [exact Hf|].
      rewrite Hc', commands_app, <- app_assoc. reflexivity.
    + match goal with |- context [missing_packages_loop E rest (acc ++ [p]) ?w1] =>
        destruct (IH (acc ++ [p]) w1) as (w' & Hr & Hf & Hc') end.
      { cbn. apply which_apply_writes, Hw. }
      cbn [fs trace set_fs emit add_log] in Hr, Hf, Hc'. fold r in Hr, Hf, Hc'.
      rewrite Hp in Hr, Hf. exists w'. rewrite <- app_assoc in Hr.
      split; [exact Hr|]. split; [exact Hf|].
      rewrite Hc', commands_app, <- app_assoc. reflexivity.
Qed.

(** X11. In normal mode the package step asks [dpkg -l] about each of the
    packages in turn and then installs, with one [apt install -y], exactly
    those whose name the listing does not contain, in the order of the
    list; when none is missing it runs no [apt] at all and succeeds, and
    otherwise it succeeds exactly when [apt] returns zero. *)
Theorem package_step_installs_exactly_the_unlisted_packages self w :
  which E (fs w) "dpkg" = true ->
  let missing := (probe_packages E (apt_packages self) (fs w)).1 in
  let f1 := (probe_packages E (apt_packages self) (fs w)).2 in
  let probes := map (fun p => ["dpkg"; "-l"; p]) (apt_packages self) in
  (missing = [] ->
   exists w',
     install_apt_packages E self w = Ret true w' /\
     commands (trace w') = commands (trace w) ++ probes) /\
  (missing <> [] -> which E f1 "apt" = true ->
   exists w',
     install_apt_packages E self w =
       Ret (returncode (exec E (["apt"; "install"; "-y"] ++ missing) f1) =? 0)%Z w' /\
     commands (trace w') =
       commands (trace w) ++ probes ++ [["apt"; "install"; "-y"] ++ missing]).
Proof.
  intros Hw. cbn zeta.
  destruct (missing_packages_loop_spec (apt_packages self) []
              (add_log INFO "[+] Installing dependencies..." w) Hw)
    as (w1 & Hr & Hf & Hc).
  cbn [fs trace add_log app] in Hr, Hf, Hc.
  destruct (probe_packages E (apt_packages self) (fs w)) as [missing f1].
  cbn [fst snd] in *.
  assert (Hrun : install_apt_packages E self w =
    match missing with
    | [] =>
        Ret true (add_log INFO "[‚úì] All APT packages are already installed" w1)
    | _ :: _ =>
        (r ← run_command E (["apt"; "install"; "-y"] ++ missing) true;
         if negb r.1 then
           logger ERROR ("Failed to install APT packages: " +:+ r.2);;
           mret false
         else
           logger INFO "[‚úì] APT packages installed successfully";;
           mret true)
          (add_log INFO ("[+] Installing missing packages: " +:+
                         PyStr.join ", " missing) w1)
    end).
  { unfold install_apt_packages. unfold mbind at 1, M_bind at 1, logger at 1.
    unfold mbind at 1, M_bind at 1. rewrite Hr. destruct missing; reflexivity. }
  rewrite Hrun. split.
  - intros ->. eexists. split; [reflexivity|exact Hc].
  - intros Hm Hapt. destruct missing as [|p ps]; [congruence|].
    unfold run_command, subprocess_run. mrun. rewrite Hf, Hapt.
    destruct (returncode (exec E ("apt" :: "install" :: "-y" :: p :: ps) f1) =? 0)%Z eqn:Hrc;
      mrun.
    + eexists. split; [reflexivity|]. cbn. rewrite commands_app, Hc, <- app_assoc.
      reflexivity.
    + eexists. split; [reflexivity|]. cbn. rewrite commands_app, Hc, <- app_assoc.
      reflexivity.
Qed.

(** X12. A tool that is not on the search path makes the version probe
    raise [FileNotFoundError] before anything is run or logged; the
    exception is not caught by [run_command], so the normal-mode tool
    loop and the verification loop, which start with the probe, raise it
    too when they reach such a tool. *)
Theorem absent_tool_makes_the_probe_raise tool w :
  which E (fs w) tool = false ->
  get_tool_version E tool w = Raise (FileNotFoundError tool) w /\
  (forall path rest,
     install_go_tools_loop E ((tool, path) :: rest) w =
     Raise (FileNotFoundError tool) w) /\
  (forall path rest all_good,
     verify_go_tools_loop E ((tool, path) :: rest) all_good w =
     Raise (FileNotFoundError tool) w).
Proof.
  intros Hw. pose proof (get_tool_version_missing E tool w Hw) as H.
  split; [exact H|]. split; intros.
  - cbn [install_go_tools_loop]. unfold mbind, M_bind. rewrite H. reflexivity.
  - cbn [verify_go_tools_loop]. unfold mbind, M_bind. rewrite H. reflexivity.
Qed.

Lemma run_steps_app done : forall rest w w1,
  run_steps done w = Ret true w1 ->
  run_steps (done ++ rest) w = run_steps rest w1.
Proof.
  induction done as [|[name f] done IH]; intros rest w w1.
  - intros [= <-]. reflexivity.
  - cbn [run_steps app]. unfold mbind, M_bind, logger.
    destruct (f _) as [[] w2|e w2]; cbn [negb]; try discriminate.
    apply IH.
Qed.

(** X13. The installation stops at the first step that fails: when the
    steps before it succeeded and the step returns [False], the run logs
    which step failed and returns [False], and when the step raises, the
    exception leaves the loop; in both cases no later step is started. *)
Theorem first_failing_step_ends_the_steps done name (f : M bool) rest w w1 :
  run_steps done w = Ret true w1 ->
  let w2 := add_log INFO (String PyStr.LF "--- " +:+ name +:+ " ---") w1 in
  (forall w3, f w2 = Ret false w3 ->
     run_steps (done ++ (name, f) :: rest) w =
     Ret false (add_log ERROR ("‚ùå Installation failed at: " +:+ name) w3)) /\
  (forall e w3, f w2 = Raise e w3 ->
     run_steps (done ++ (name, f) :: rest) w = Raise e w3) /\
  (forall w3, f w2 = Ret true w3 ->
     run_steps (done ++ (name, f) :: rest) w = run_steps rest w3).
Proof.
  intros Hd w2. rewrite (run_steps_app done _ w w1 Hd).
  cbn [run_steps]. unfold mbind, M_bind, logger. fold w2.
  repeat split; intros; match goal with H : f w2 = _ |- _ => rewrite H end;
    reflexivity.
Qed.

Lemma verify_other_tools_loop_ret tools : forall w,
  exists w', verify_other_tools_loop E tools w = Ret tt w'.
Proof.
  induction tools as [|tool rest IH]; intros w.
  - exists w. reflexivity.
  - cbn [verify_other_tools_loop]. unfold mbind at 1, M_bind at 1.
    unfold mbind at 1, M_bind at 1, check_command_exists.
    destruct (which E (fs w) tool) eqn:Hw.
    + destruct (get_tool_version_loop_order E tool version_flags w Hw)
        as (w1 & n & Hr & _).
      unfold mbind, M_bind. unfold get_tool_version. rewrite Hr.
      destruct (truthy_opt _); unfold logger; apply IH.
    + unfold logger. apply IH.
Qed.

(** X14. The verdict of the verification step is the verdict on the nine
    Go tools alone: the look at [ffuf], [curl], [jq] and [git] that
    follows never raises and never changes the result, whether those
    programs are there or not. *)
Theorem other_tools_never_change_the_verdict self w :
  let w0 := add_log INFO "[+] Verifying installations..." w in
  (forall b w1, verify_go_tools_loop E (go_tools self) true w0 = Ret b w1 ->
     exists w2, verify_installations E self w = Ret b w2) /\
  (forall e w1, verify_go_tools_loop E (go_tools self) true w0 = Raise e w1 ->
     verify_installations E self w = Raise e w1).
Proof.
  intros w0.
  assert (Hv : verify_installations E self w =
    match verify_go_tools_loop E (go_tools self) true w0 with
    | Ret b w1 =>
        match verify_other_tools_loop E ["ffuf"; "curl"; "jq"; "git"] w1 with
        | Ret _ w2 => Ret b w2
        | Raise e w2 => Raise e w2
        end
    | Raise e w1 => Raise e w1
    end) by reflexivity.
  rewrite Hv. split.
  - intros b w1 H. rewrite H.
    destruct (verify_other_tools_loop_ret ["ffuf"; "curl"; "jq"; "git"] w1)
      as (w2 & ->). exists w2. reflexivity.
  - intros e w1 H. rewrite H. reflexivity.
Qed.

(** X15. On a Kali host, as root, a failing [apt update] ends the
    installer at once: the exit status is 1, [apt update] is the only
    command that was run, no directory was made, and the last line of the
    log names the step. *)
Theorem failed_apt_update_ends_the_installer force f :
  file_mentions_kali f "/etc/os-release" = true ->
  euid E = 0%Z ->
  which E f "apt" = true ->
  returncode (exec E ["apt"; "update"] f) <> 0%Z ->
  (main E force (boot f)).1 = 1%Z /\
  commands (trace (main E force (boot f)).2) = [["apt"; "update"]] /\
  made_dirs (trace (main E force (boot f)).2) = [] /\
  last (log (main E force (boot f)).2) =
    Some (ERROR, "‚ùå Installation failed at: Update system packages").
Proof.
  intros Hk Hroot Hapt Hrc.
  assert (Hrun : exists w',
    install E init force (boot f) = Ret false w' /\
    trace w' = [EvExec ["apt"; "update"] (returncode (exec E ["apt"; "update"] f))] /\
    last (log w') = Some (ERROR, "‚ùå Installation failed at: Update system packages")).
  { unfold install. unfold mbind at 1, M_bind at 1, logger at 1.
    unfold mbind at 1, M_bind at 1.
    assert (Hw : forall w, exists w1,
      when force (logger INFO "üîß Force installation mode enabled - will reinstall all tools") w
        = Ret tt w1 /\ fs w1 = fs w /\ trace w1 = trace w).
    { intros w. destruct force; cbn; eauto. }
    destruct (Hw (add_log INFO "üöÄ Starting Automated Recon Pipeline Installation..." (boot f)))
      as (w1 & -> & Hf1 & Ht1).
    cbn [fs trace add_log boot] in Hf1, Ht1.
    unfold mbind at 1, M_bind at 1.
    assert (Hkali : check_kali_linux init w1 = Ret true w1).
    { unfold check_kali_linux, mentions_kali, read_file. unfold file_mentions_kali in Hk.
      rewrite <- Hf1 in Hk. mrun.
      destruct (fs w1 !! "/etc/os-release") as [[c|]|]; try discriminate.
      mrun. rewrite Hk. reflexivity. }
    rewrite Hkali. cbn [negb]. rewrite Hroot. cbn [Z.eqb negb].
    unfold mbind at 1, M_bind at 1.
    unfold steps. cbn [app run_steps].
    unfold mbind at 1, M_bind at 1, logger at 1.
    unfold mbind at 1, M_bind at 1.
    unfold update_system_packages.
    unfold mbind at 1, M_bind at 1, logger at 1.
    cbn [update_system_packages_loop].
    unfold mbind at 1, M_bind at 1.
    unfold run_command, try_except, subprocess_run.
    unfold mbind at 1, M_bind at 1.
    cbn [fs add_log]. rewrite Hf1, Hapt. cbn [andb].
    apply Z.eqb_neq in Hrc. rewrite Hrc. cbn [negb Recon.on_CalledProcessError].
    mrun. eexists. split; [reflexivity|]. cbn. rewrite Ht1. split; [reflexivity|].
    rewrite last_snoc. reflexivity. }
  destruct Hrun as (w' & Hr & Ht & Hl). unfold main. rewrite Hr. cbn [exit_of fst snd].
  rewrite Ht, Hl. repeat split; reflexivity.
Qed.

(** X16. In force mode a tool is fetched with [go install] whether it is
    there or not, but the version probe that follows needs the program on
    the search path: when [go install] returned zero and the tool is still
    not found (the directory [go/bin] is not in [PATH], say), the loop
    raises [FileNotFoundError] after that one command instead of logging
    that the version check failed. *)
Theorem force_installed_tool_must_be_on_the_path tool path rest w :
  which E (fs w) "go" = true ->
  returncode (exec E ["go"; "install"; "-v"; path] (fs w)) = 0%Z ->
  which E (apply_writes (writes (exec E ["go"; "install"; "-v"; path] (fs w))) (fs w))
    tool = false ->
  exists w',
    force_install_go_tools_loop E ((tool, path) :: rest) w =
      Raise (FileNotFoundError tool) w' /\
    commands (trace w') = commands (trace w) ++ [["go"; "install"; "-v"; path]] /\
    fs w' = apply_writes (writes (exec E ["go"; "install"; "-v"; path] (fs w))) (fs w).
Proof.
  intros Hgo Hrc Hw. cbn [force_install_go_tools_loop].
  unfold mbind at 1, M_bind at 1, logger at 1.
  unfold mbind at 1, M_bind at 1.
  unfold run_command, try_except, subprocess_run.
  unfold mbind at 1, M_bind at 1.
  cbn [fs add_log]. rewrite Hgo, Hrc. cbn [Z.eqb negb andb]. unfold mret at 1, M_ret at 1.
  cbn [fst negb]. unfold mbind at 1, M_bind at 1.
  rewrite get_tool_version_missing by exact Hw.
  eexists. split; [reflexivity|]. split; [|reflexivity].
  cbn. rewrite commands_app. reflexivity.
Qed.

Lemma bind_Ret {A B} (m : M A) (k : A -> M B) w a w' :
  m w = Ret a w' -> (m ≫= k) w = k a w'.
Proof. intros H. unfold mbind, M_bind. rewrite H. reflexivity. Qed.

Lemma bind_Raise {A B} (m : M A) (k : A -> M B) w e w' :
  m w = Raise e w' -> (m ≫= k) w = Raise e w'.
Proof. intros H. unfold mbind, M_bind. rewrite H. reflexivity. Qed.

Lemma mkdir_cases p w :
  (mkdir p w = Ret tt (emit (EvMkdir p) (set_fs (<[p := Dir]> (fs w)) w)) /\
   is_file (fs w) p = false) \/
  (exists e, mkdir p w = Raise e w /\
             (e = FileExistsError p \/ e = FileNotFoundError p)).
Proof.
  unfold mkdir, is_file. destruct (fs w !! p) as [[c|]|] eqn:Hp.
  - right. eauto.
  - left. split; [|reflexivity]. rewrite insert_id by exact Hp.
    destruct w; reflexivity.
  - destruct (parent_ok (fs w) p); [left; auto|right; eauto].
Qed.

(** X17. The Go step reports failure only when [go] is not on the search
    path, and then it has run nothing and changed nothing.  Once [go] is
    found, neither a failing [go version] nor a [PATH] without [go/bin]
    makes it fail: it runs [go version] and nothing else, and either
    returns [True] with [~/go] and [~/go/bin] in place as directories, or
    one of the two [mkdir] calls raises (a file is in the way, or the
    parent is missing). *)
Theorem go_step_fails_only_without_go self w :
  let go_path := path_join (HOME E) "go" in
  let go_bin := path_join go_path "bin" in
  (which E (fs w) "go" = false ->
   exists w', setup_go_environment E self w = Ret false w' /\
              trace w' = trace w /\ fs w' = fs w) /\
  (which E (fs w) "go" = true ->
   exists w',
     commands (trace w') = commands (trace w) ++ [["go"; "version"]] /\
     ((setup_go_environment E self w = Ret true w' /\
       fs w' !! go_path = Some Dir /\ fs w' !! go_bin = Some Dir) \/
      (exists e p, setup_go_environment E self w = Raise e w' /\
                   (p = go_path \/ p = go_bin) /\
                   (e = FileExistsError p \/ e = FileNotFoundError p)))).
Proof.
  intros go_path go_bin. split; intros Hgo.
  - unfold setup_go_environment, check_command_exists. mrun. rewrite Hgo. mrun.
    eexists. repeat split.
  - assert (Hrun : exists w1,
      commands (trace w1) = commands (trace w) ++ [["go"; "version"]] /\
      setup_go_environment E self w =
        (mkdir go_path;;
         mkdir go_bin;;
         when (negb (PyStr.contains go_bin (PATH E)))
           (logger WARNING ("[!] " +:+ go_bin +:+ " is not in PATH. Please add it to your PATH:");;
            logger WARNING ("    export PATH=$PATH:" +:+ go_bin);;
            logger WARNING ("    Or add to ~/.bashrc: echo 'export PATH=$PATH:" +:+
                            go_bin +:+ "' >> ~/.bashrc"));;
         mret true) w1).
    { unfold setup_go_environment, check_command_exists.
      unfold mbind at 1, M_bind at 1, logger at 1.
      unfold mbind at 1, M_bind at 1. cbn [fs add_log]. rewrite Hgo. cbn [negb].
      unfold mbind at 1, M_bind at 1.
      unfold run_command, try_except, subprocess_run.
      unfold mbind at 1, M_bind at 1.
      cbn [fs add_log]. rewrite Hgo. cbn [andb].
      destruct (returncode (exec E ["go"; "version"] (fs w)) =? 0)%Z;
        cbn [negb Recon.on_CalledProcessError]; unfold mret at 1, M_ret at 1;
        cbn [fst snd when]; unfold mbind at 1, M_bind at 1;
        [unfold logger at 1|unfold mret at 1, M_ret at 1];
        (eexists; split; [|reflexivity]); cbn; rewrite commands_app; reflexivity. }
    destruct Hrun as (w1 & Hc & ->).
    destruct (mkdir_cases go_path w1) as [[H1 _]|(e & H1 & He)].
    2:{ exists w1. split; [exact Hc|]. right. exists e, go_path.
        split; [apply bind_Raise, H1|]. split; [left; reflexivity|exact He]. }
    rewrite (bind_Ret _ _ _ _ _ H1).
    set (w2 := emit (EvMkdir go_path) (set_fs (<[go_path := Dir]> (fs w1)) w1)).
    assert (Hc2 : commands (trace w2) = commands (trace w) ++ [["go"; "version"]]).
    { subst w2. cbn. rewrite commands_app, app_nil_r. exact Hc. }
    destruct (mkdir_cases go_bin w2) as [[H2 _]|(e & H2 & He)].
    2:{ exists w2. split; [exact Hc2|]. right. exists e, go_bin.
        split; [apply bind_Raise, H2|]. split; [right; reflexivity|exact He]. }
    rewrite (bind_Ret _ _ _ _ _ H2).
    set (w3 := emit (EvMkdir go_bin) (set_fs (<[go_bin := Dir]> (fs w2)) w2)).
    assert (Hw : exists w5,
      when (negb (PyStr.contains go_bin (PATH E)))
        (logger WARNING ("[!] " +:+ go_bin +:+ " is not in PATH. Please add it to your PATH:");;
         logger WARNING ("    export PATH=$PATH:" +:+ go_bin);;
         logger WARNING ("    Or add to ~/.bashrc: echo 'export PATH=$PATH:" +:+
                         go_bin +:+ "' >> ~/.bashrc")) w3 = Ret tt w5 /\
      fs w5 = fs w3 /\ trace w5 = trace w3).
    { destruct (negb _); cbn; eauto. }
    destruct Hw as (w5 & Hr5 & Hf5 & Ht5).
    exists w5. split.
    { rewrite Ht5. subst w3. cbn. rewrite commands_app, app_nil_r. exact Hc2. }
    left. rewrite (bind_Ret _ _ _ _ _ Hr5). split; [reflexivity|].
    rewrite Hf5. subst w3 w2. cbn [fs set_fs emit]. split.
    + destruct (decide (go_bin = go_path)) as [->|Hne].
      * apply lookup_insert_eq.
      * rewrite lookup_insert_ne by exact Hne. apply lookup_insert_eq.
    + apply lookup_insert_eq.
Qed.

End InstallerProperties.

(** * The further properties on concrete hosts *)
Section PropertyInstances.
Import Sys Scenario.

(** X2 on a host that has none of the tools. *)
Lemma missing_tool_stops_the_run_at_once_witness :
  (Recon.main quiet example (boot probe_host)).1 = 1%Z /\
  trace (Recon.main quiet example (boot probe_host)).2 = [] /\
  fs (Recon.main quiet example (boot probe_host)).2 = probe_host.
Proof.
  apply (missing_tool_stops_the_run_at_once quiet example probe_host "subfinder").
  - vm_compute. tauto.
  - vm_compute. reflexivity.
Defined.

(** X5 on the merge of the subdomain lists, on a host without [bash]:
    the list of an earlier run is emptied. *)
Lemma shell_stage_without_bash_empties_its_output_witness :
  fs (boot host_without_bash) !! "output/03_subs_uniq.txt" = Some (File one_line) /\
  exists w',
    Recon.run_shell_command quiet (Recon.pipeline example)
      "cat output/01_subfinder.txt output/02_amass_passive.txt | sort -u"
      (Some "output/03_subs_uniq.txt") (boot host_without_bash) =
      Raise (FileNotFoundError "bash") w' /\
    fs w' !! "output/03_subs_uniq.txt" = Some (File "").
Proof.
  split; [vm_compute; reflexivity|].
  destruct (shell_stage_without_bash_empties_its_output quiet (Recon.pipeline example)
              "cat output/01_subfinder.txt output/02_amass_passive.txt | sort -u"
              "output/03_subs_uniq.txt" (boot host_without_bash))
    as (w' & Hr & Hf & _).
  - reflexivity.
  - vm_compute. reflexivity.
  - vm_compute. reflexivity.
  - vm_compute. reflexivity.
  - exists w'. split; [exact Hr|exact Hf].
Defined.

(** X6 on the first stage for two targets. *)
Lemma target_is_only_an_argument_witness :
  Recon.step_name (stage 1) =
  Recon.step_name (nth 0 (Recon.stages (Recon.pipeline "test.org")) no_stage) /\
  Recon.redirect_of (stage 1) =
  Recon.redirect_of (nth 0 (Recon.stages (Recon.pipeline "test.org")) no_stage).
Proof.
  destruct (target_is_only_an_argument example "test.org" 0 (stage 1)
              (nth 0 (Recon.stages (Recon.pipeline "test.org")) no_stage))
    as (Hn & _ & _ & Hr & _).
  - reflexivity.
  - reflexivity.
  - split; [exact Hn|exact Hr].
Defined.

(** X8 on the fourth stage, which resolves the merged list of the
    third. *)
Lemma stages_read_only_earlier_artifacts_witness :
  Recon.reads (stage 4) "output/03_subs_uniq.txt" = true /\ 2 < 3.
Proof.
  split; [vm_compute; reflexivity|].
  apply (stages_read_only_earlier_artifacts example 3 2 (stage 4)
           "output/03_subs_uniq.txt").
  - reflexivity.
  - reflexivity.
  - vm_compute. reflexivity.
Defined.

(** X9 on an output whose second line carries the version. *)
Lemma extracted_version_is_a_numbered_piece_of_a_line_witness :
  Install.first_version ["subfinder"; "Current Version: v2.6.3 (latest)"] =
    Some "v2.6.3" /\
  exists before line after,
    ["subfinder"; "Current Version: v2.6.3 (latest)"] = before ++ line :: after /\
    PyStr.contains "v2.6.3" line = true.
Proof.
  split; [vm_compute; reflexivity|].
  destruct (extracted_version_is_a_numbered_piece_of_a_line
              ["subfinder"; "Current Version: v2.6.3 (latest)"] "v2.6.3")
    as (before & line & after & Hl & _ & _ & Hc & _).
  - vm_compute. reflexivity.
  - exists before, line, after. split; [exact Hl|exact Hc].
Defined.

(** X10 on a usage message. *)
Lemma accepted_output_gives_a_short_nonempty_version_witness :
  PyStr.truthy (Install.version_of "usage: tool [options]") = true /\
  Install.version_of "usage: tool [options]" = "usage: tool [options]".
Proof.
  destruct (accepted_output_gives_a_short_nonempty_version "usage: tool [options]")
    as (Ht & Hs).
  - vm_compute. reflexivity.
  - split; [exact Ht|].
    destruct Hs as (_ & _ & He); [vm_compute; reflexivity|].
    rewrite He; [vm_compute; reflexivity|vm_compute; lia].
Defined.

(** X11 on a host where [dpkg] lists all packages but [curl] and [jq]. *)
Lemma package_step_installs_exactly_the_unlisted_packages_witness :
  exists w',
    Install.install_apt_packages lacks_curl_and_jq Install.init (boot kali_host) =
      Ret true w' /\
    commands (trace w') =
      map (fun p => ["dpkg"; "-l"; p]) (Install.apt_packages Install.init) ++
      [["apt"; "install"; "-y"; "curl"; "jq"]].
Proof.
  destruct (package_step_installs_exactly_the_unlisted_packages lacks_curl_and_jq
              Install.init (boot kali_host)) as (_ & H).
  - vm_compute. reflexivity.
  - destruct H as (w' & Hr & Hc).
    + vm_compute. discriminate.
    + vm_compute. reflexivity.
    + exists w'. split; [rewrite Hr; vm_compute; reflexivity|].
      rewrite Hc. vm_compute. reflexivity.
Defined.

(** X12 on [subfinder], which a fresh host does not have. *)
Lemma absent_tool_makes_the_probe_raise_witness :
  Install.get_tool_version fresh_kali "subfinder" (boot kali_host) =
    Raise (FileNotFoundError "subfinder") (boot kali_host) /\
  Install.install_go_tools_loop fresh_kali (Install.go_tools Install.init)
    (boot kali_host) =
    Raise (FileNotFoundError "subfinder") (boot kali_host).
Proof.
  destruct (absent_tool_makes_the_probe_raise fresh_kali "subfinder" (boot kali_host))
    as (Hv & Hi & _).
  - vm_compute. reflexivity.
  - split; [exact Hv|]. apply Hi.
Defined.

(** X13 on the Go step as the first step, on a host without [go]. *)
Lemma first_failing_step_ends_the_steps_witness :
  exists w',
    Install.run_steps
      [("Setup Go environment", Install.setup_go_environment quiet Install.init);
       ("Create directories", Install.create_directories Install.init)]
      (boot probe_host) = Ret false w' /\
    made_dirs (trace w') = [].
Proof.
  destruct (first_failing_step_ends_the_steps []
              "Setup Go environment" (Install.setup_go_environment quiet Install.init)
              [("Create directories", Install.create_directories Install.init)]
              (boot probe_host) (boot probe_host) eq_refl) as (H & _).
  eexists. split.
  - apply H. vm_compute. reflexivity.
  - vm_compute. reflexivity.
Defined.

(** X15 on a Kali host without network. *)
Lemma failed_apt_update_ends_the_installer_witness :
  (Install.main no_network false (boot kali_host)).1 = 1%Z /\
  commands (trace (Install.main no_network false (boot kali_host)).2) =
    [["apt"; "update"]].
Proof.
  destruct (failed_apt_update_ends_the_installer no_network false kali_host)
    as (H1 & H2 & _).
  - vm_compute. reflexivity.
  - reflexivity.
  - vm_compute. reflexivity.
  - vm_compute. discriminate.
  - split; [exact H1|exact H2].
Defined.

(** X16 on a fresh host in force mode: [go install] succeeds, and
    [subfinder] is not on the search path afterwards. *)
Lemma force_installed_tool_must_be_on_the_path_witness :
  exists w',
    Install.force_install_go_tools_loop fresh_kali (Install.go_tools Install.init)
      (boot kali_host) = Raise (FileNotFoundError "subfinder") w' /\
    commands (trace w') =
      [["go"; "install"; "-v";
        "github.com/projectdiscovery/subfinder/v2/cmd/subfinder@latest"]].
Proof.
  destruct (force_installed_tool_must_be_on_the_path fresh_kali "subfinder"
              "github.com/projectdiscovery/subfinder/v2/cmd/subfinder@latest"
              (tl (Install.go_tools Install.init)) (boot kali_host))
    as (w' & Hr & Hc & _).
  - vm_compute. reflexivity.
  - reflexivity.
  - vm_compute. reflexivity.
  - exists w'. split; [exact Hr|exact Hc].
Defined.

(** X14 on a host with the nine Go tools, [ffuf] and [curl], and without
    [jq] and [git]. *)
Lemma other_tools_never_change_the_verdict_witness :
  exists w2,
    Install.verify_installations quiet Install.init (boot recon_host) = Ret true w2.
Proof.
  apply (proj1 (other_tools_never_change_the_verdict quiet Install.init
                  (boot recon_host)) true
           (final (Install.verify_go_tools_loop quiet (Install.go_tools Install.init)
                     true
                     (add_log INFO "[+] Verifying installations..." (boot recon_host))))).
  vm_compute. reflexivity.
Defined.

(** X17 on a fresh Kali host, whose [PATH] does not have [/root/go/bin]. *)
Lemma go_step_fails_only_without_go_witness :
  PyStr.contains "/root/go/bin" (PATH fresh_kali) = false /\
  exists w',
    Install.setup_go_environment fresh_kali Install.init (boot kali_host) =
      Ret true w' /\
    fs w' !! "/root/go/bin" = Some Dir.
Proof.
  split; [vm_compute; reflexivity|].
  destruct (proj2 (go_step_fails_only_without_go fresh_kali Install.init
                     (boot kali_host)))
    as (w' & _ & [(Hr & _ & Hb)|(e & p & Hr & _)]).
  - vm_compute. reflexivity.
  - exists w'. split; [exact Hr|exact Hb].
  - exfalso. vm_compute in Hr. discriminate Hr.
Defined.

End PropertyInstances.

(** * The exit status of the runner and the statuses of its stages *)
Section ExitStatus.
Import Sys Recon.
Variable E : Env.

Lemma extends_refl f : extends f f.
Proof. split; auto. Qed.

Lemma extends_trans f g h : extends f g -> extends g h -> extends f h.
Proof.
  intros [F1 D1] [F2 D2]. split; [auto|]. intros q. rewrite D2. apply D1.
Qed.

Lemma which_extends f f' cmd :
  extends f f' -> which E f cmd = true -> which E f' cmd = true.
Proof.
  intros [HF _]. unfold which. rewrite !existsb_exists.
  intros (d & Hd & Hf). exists d. split; [exact Hd|]. apply HF, Hf.
Qed.

Lemma ready_extends f f' st : extends f f' -> ready E f st -> ready E f' st.
Proof.
  intros Hext [Hred (cmd & args & Ha & Hw)]. split.
  - intros p Hp. destruct (Hred p Hp) as [Hd Hpar]. destruct Hext as [_ HD].
    unfold parent_ok in *. rewrite !HD. auto.
  - exists cmd, args. split; [exact Ha|]. eapply which_extends; eassumption.
Qed.

Lemma is_dir_insert_file (f : gmap string Node) p c q :
  is_dir f p = false -> is_dir (<[p := File c]> f) q = is_dir f q.
Proof.
  intros Hd. unfold is_dir in *. destruct (decide (p = q)) as [<-|Hne].
  - rewrite lookup_insert_eq. destruct (f !! p) as [[|]|]; congruence.
  - rewrite lookup_insert_ne by exact Hne. reflexivity.
Qed.

Lemma is_file_insert_file (f : gmap string Node) p c q :
  is_file f q = true -> is_file (<[p := File c]> f) q = true.
Proof.
  intros Hq. unfold is_file in *. destruct (decide (p = q)) as [<-|Hne].
  - rewrite lookup_insert_eq. reflexivity.
  - rewrite lookup_insert_ne by exact Hne. exact Hq.
Qed.

Lemma extends_insert_file (f : gmap string Node) p c :
  is_dir f p = false -> extends f (<[p := File c]> f).
Proof.
  intros Hd. split; intros q.
  - apply is_file_insert_file.
  - apply is_dir_insert_file, Hd.
Qed.

Lemma extends_write_file (f : gmap string Node) pc : extends f (write_file f pc).
Proof.
  unfold write_file. destruct (is_dir f pc.1) eqn:Hd; [apply extends_refl|].
  apply extends_insert_file, Hd.
Qed.

Lemma extends_apply_writes ws : forall f, extends f (apply_writes ws f).
Proof.
  induction ws as [|pc ws IH]; intros f; [apply extends_refl|].
  change (apply_writes (pc :: ws) f) with (apply_writes ws (write_file f pc)).
  eapply extends_trans; [apply extends_write_file|apply IH].
Qed.

(** The children cannot remove a program or turn a file into a
    directory: whatever a stage that could start leaves behind has the
    files and the directories it found. *)
Lemma extends_ran_world self st w :
  (forall p, redirect_of st = Some p -> is_dir (fs w) p = false) ->
  extends (fs w) (fs (ran_world E self st w)).
Proof.
  intros Hred. rewrite fs_ran_world.
  eapply extends_trans; [|apply extends_apply_writes].
  destruct (redirect_of st) as [p|]; [|apply extends_refl].
  eapply extends_trans; [|apply extends_write_file].
  apply extends_insert_file, Hred. reflexivity.
Qed.

(** A stage that is ready starts its child, and the block returns
    whether the child returned zero. *)
Lemma run_stage_ready self st w :
  ready E (fs w) st ->
  run_stage E self st w =
  Ret (returncode (child E self st w) =? 0)%Z (ran_world E self st w).
Proof.
  intros H. unfold ready, redirect_of, argv_of in H.
  unfold run_stage, stage_then, ran_world, child, opened_world, stepped,
    redirect_of, argv_of, progress_line, log_step, invoke, run_command,
    run_shell_command.
  assert (Hrep : forall w0 : World,
    match report (after st) w0 with
    | Ret _ w' => Ret true w'
    | Raise e w' => Raise e w'
    end = Ret true (add_log (report_line (fs w0) (after st)).1
                            (report_line (fs w0) (after st)).2 w0)).
  { intros w0. unfold report, report_line, check_file_created.
    destruct (after st); mrun; [destruct (has_content _ _)|]; reflexivity. }
  destruct (invocation st) as [argv o|c o]; destruct (given o) as [p|];
    destruct H as [Hred (cmd & args & Ha & Hw)];
    unfold open_w, subprocess_run; mrun.
  - destruct (Hred p eq_refl) as [Hd Hpar]. rewrite Hd, Hpar. mrun.
    subst argv. mrun.
    rewrite (which_extends _ _ cmd (extends_insert_file (fs w) p "" Hd) Hw). mrun.
    destruct (returncode _ =? 0)%Z; mrun; [apply Hrep|reflexivity].
  - subst argv. mrun. rewrite Hw. mrun.
    destruct (returncode _ =? 0)%Z; mrun; [apply Hrep|reflexivity].
  - destruct (Hred p eq_refl) as [Hd Hpar]. rewrite Hd, Hpar. mrun.
    injection Ha as <- <-.
    rewrite (which_extends _ _ "bash" (extends_insert_file (fs w) p "" Hd) Hw). mrun.
    destruct (returncode _ =? 0)%Z; mrun; [apply Hrep|reflexivity].
  - injection Ha as <- <-. rewrite Hw. mrun.
    destruct (returncode _ =? 0)%Z; mrun; [apply Hrep|reflexivity].
Qed.
(** Blocks that are ready, with exit statuses handed to their children
    that do not depend on the files: the blocks pass exactly when all the
    statuses are zero, and the history holds the statuses up to the first
    that is not. *)
Lemma run_block_ready self l : forall rcs w,
  Forall2 (fun st c => forall g, returncode (exec E (argv_of st) g) = c) l rcs ->
  (forall st, In st l -> ready E (fs w) st) ->
  exists w',
    run_block E self l w = Ret (forallb (fun c => c =? 0)%Z rcs) w' /\
    statuses (trace w') = statuses (trace w) ++ until_failure rcs.
Proof.
  induction l as [|st l IH]; intros rcs w Hrc Hready.
  - apply Forall2_nil_inv_l in Hrc. subst rcs. exists w.
    split; [reflexivity|]. symmetry. apply app_nil_r.
  - apply Forall2_cons_inv_l in Hrc as (c & rcs' & Hc & Hrest & ->).
    cbn [run_block fold_right]. rewrite stage_then_run_stage.
    rewrite run_stage_ready by (apply Hready; left; reflexivity).
    assert (Hchild : returncode (child E self st w) = c) by apply Hc.
    assert (Hst : statuses (trace (ran_world E self st w)) =
                  statuses (trace w) ++ [c]).
    { rewrite trace_ran_world, statuses_app, statuses_stage_events, Hchild.
      reflexivity. }
    rewrite Hchild. cbn [forallb until_failure].
    destruct (c =? 0)%Z eqn:Hz; cbn [andb].
    + destruct (IH rcs' (ran_world E self st w) Hrest) as (w' & Hr & Hs).
      { intros st' Hin. eapply ready_extends; [|apply Hready; right; exact Hin].
        apply extends_ran_world. intros p Hp.
        apply (proj1 (Hready st (or_introl eq_refl))), Hp. }
      exists w'. split; [exact Hr|].
      rewrite Hs, Hst, <- app_assoc. reflexivity.
    + exists (ran_world E self st w). split; [reflexivity|exact Hst].
Qed.

(** With the required tools on the search path and none of the three
    directories in the way as a regular file, the pre-flight checks pass;
    they leave the regular files as they were and add the three
    directories. *)
Lemma preflight_passes target f :
  forallb (which E f) (required_tools (pipeline target)) = true ->
  is_file f "output" = false ->
  is_file f "screenshots" = false ->
  is_file f "output/js_out" = false ->
  exists w1,
    preflight E (pipeline target) (mret true) (boot f) = Ret true w1 /\
    fs w1 = <["output/js_out" := Dir]> (<["output" := Dir]>
              (<["screenshots" := Dir]> (<["output" := Dir]> f))).
Proof.
  intros Htools Ho Hs Hj.
  unfold preflight. unfold mbind at 1, M_bind at 1, logger at 1.
  unfold mbind at 1, M_bind at 1.
  destruct (check_tools_result E (pipeline target)
              (add_log INFO ("🚀 Starting reconnaissance on: " +:+
                             Recon.target (pipeline target)) (boot f)))
    as (w0 & Hr & Hf0 & _).
  cbn [fs add_log boot] in Hr, Hf0. rewrite Htools in Hr. rewrite Hr.
  cbn [negb]. unfold mbind at 1, M_bind at 1.
  unfold create_directories, mbind, M_bind, logger.
  change (js_out_dir (pipeline target)) with "output/js_out".
  change (output_dir (pipeline target)) with "output".
  change (screenshots_dir (pipeline target)) with "screenshots".
  cbn [create_directories_loop]. unfold mbind, M_bind, try_except, logger, mret, M_ret.
  rewrite (mkdir_p_unfold "output" ["output"]) by reflexivity.
  cbn [List.find fs add_log]. rewrite Hf0, Ho.
  cbn [fold_left].
  rewrite (mkdir_p_unfold "screenshots" ["screenshots"]) by reflexivity.
  cbn [List.find fs add_log emit set_fs].
  rewrite is_file_insert_ne by discriminate. rewrite Hs.
  cbn [fold_left].
  rewrite (mkdir_p_unfold "output/js_out" ["output"; "output/js_out"]) by reflexivity.
  cbn [List.find fs add_log emit set_fs].
  rewrite (is_file_insert_ne _ "screenshots" "output") by discriminate.
  rewrite is_file_insert_dir.
  rewrite !is_file_insert_ne by discriminate. rewrite Hj.
  cbn. eexists. split; reflexivity.
Qed.
Lemma runner_written_paths p :
  In p runner_written ->
  dirname p = "output" /\
  p <> "output" /\ p <> "screenshots" /\ p <> "output/js_out".
Proof.
  unfold runner_written. cbn [In]. intros H.
  repeat (destruct H as [<-|H];
          [split; [reflexivity|repeat split; discriminate]|]).
  destruct H.
Qed.

Lemma stage_redirect target st p :
  In st (stages (pipeline target)) ->
  redirect_of st = Some p ->
  In p runner_written.
Proof.
  intros Hin Hp. rewrite <- (redirects_of_stages target).
  apply list_elem_of_In, list_elem_of_omap. exists st.
  split; [apply list_elem_of_In, Hin|exact Hp].
Qed.

(** The programs of the stages are the required tools and [bash]. *)
Lemma stage_program target st :
  In st (stages (pipeline target)) ->
  exists cmd args,
    argv_of st = cmd :: args /\
    (In cmd (required_tools (pipeline target)) \/ cmd = "bash").
Proof.
  unfold stages. cbn [In]. intros H.
  repeat (destruct H as [<-|H];
          [eexists _, _; split; [reflexivity|];
           first [right; reflexivity
                 |left; cbn [required_tools pipeline In];
                  solve [repeat (first [left; reflexivity|right])]]|]).
  destruct H.
Qed.

(** After pre-flight checks that passed, on a host with [bash] and with
    no directory in the place of an artifact, every stage is ready. *)
Lemma stages_ready target f st :
  forallb (which E f) (required_tools (pipeline target)) = true ->
  which E f "bash" = true ->
  is_file f "output" = false ->
  is_file f "screenshots" = false ->
  is_file f "output/js_out" = false ->
  (forall p, In p runner_written -> is_dir f p = false) ->
  In st (stages (pipeline target)) ->
  ready E (<["output/js_out" := Dir]> (<["output" := Dir]>
             (<["screenshots" := Dir]> (<["output" := Dir]> f)))) st.
Proof.
  intros Htools Hbash Ho Hs Hj Hdirs Hin.
  set (f1 := <["output/js_out" := Dir]> (<["output" := Dir]>
               (<["screenshots" := Dir]> (<["output" := Dir]> f)))).
  assert (Hfile : forall q, is_file f q = true -> is_file f1 q = true).
  { intros q Hq. subst f1.
    rewrite !is_file_insert_ne; [exact Hq|..]; intros <-; congruence. }
  assert (Hout : is_dir f1 "output" = true).
  { subst f1. apply is_dir_spec.
    rewrite lookup_insert_ne by discriminate. apply lookup_insert_eq. }
  split.
  - intros p Hp. pose proof (stage_redirect target st p Hin Hp) as Hw.
    destruct (runner_written_paths p Hw) as (Hdn & N1 & N2 & N3).
    split.
    + subst f1. unfold is_dir.
      rewrite !lookup_insert_ne by congruence. apply (Hdirs p Hw).
    + unfold parent_ok. rewrite Hdn, Hout. apply orb_true_r.
  - destruct (stage_program target st Hin) as (cmd & args & Ha & Hc).
    exists cmd, args. split; [exact Ha|].
    assert (Hwf : which E f cmd = true).
    { destruct Hc as [Hc| ->]; [|exact Hbash].
      rewrite forallb_forall in Htools. apply Htools, Hc. }
    revert Hwf. unfold which. rewrite !existsb_exists.
    intros (d & Hd & Hq). exists d. split; [exact Hd|apply Hfile, Hq].
Qed.

End ExitStatus.

(** * The amended exit-status property on concrete hosts *)
Section ExitStatusInstances.
Import Sys Scenario.

Lemma recon_host_has_no_directory p :
  In p Recon.runner_written -> is_dir recon_host p = false.
Proof.
  unfold Recon.runner_written. cbn [In]. intros H.
  repeat (destruct H as [<-|H]; [vm_compute; reflexivity|]).
  destruct H.
Qed.



End ExitStatusInstances.
